(** * The Swift frontend driver: [CompilerInstance::setup] and
    [CompilerInstance::performParse] (lib/Frontend/Frontend.cpp)

    A shallow embedding of the two entry points of the frontend driver and
    of [setTargetConfigurations], followed by the properties of buffer
    admission, loader-chain construction and parse/type-check orchestration.

    The driver is written against collaborators that live elsewhere (the
    parser, the type checker, the serialized-module loader, the Clang
    importer, the file system, LLVM's [Triple] and [path]).  They are
    gathered in a [Host] record; every call the driver makes to one of them
    is appended to the [Calls] log of the instance, so that statements such
    as "the file is never opened" or "no type-checking occurs" are statements
    about that log. *)

From Stdlib Require Import NArith Lia Ascii String.
From stdpp Require Import base strings list gmap.

Open Scope string_scope.
Open Scope list_scope.
Open Scope N_scope.

(** ** Data *)

(** [SourceFileKind], as in swift/AST/Module.h. *)
Inductive SourceFileKind := Library | Main | REPL | SIL.

#[global] Instance SourceFileKind_eq_dec : EqDecision SourceFileKind.
Proof. solve_decision. Defined.

(** An [llvm::MemoryBuffer]: its identifier and its bytes. *)
Record MemoryBuffer := {
  getBufferIdentifier : string;
  getBuffer : string
}.

(** What the driver observes of an [llvm::Triple]: the two OS predicates and
    the architecture.  Architectures other than the three that the [switch]
    names are kept with the name [llvm::Triple::getArchTypeName] gives
    them. *)
Inductive ArchType := arm | x86 | x86_64 | OtherArch (name : string).

Definition getArchTypeName (a : ArchType) : string :=
  match a with
  | arm => "arm"
  | x86 => "i386"
  | x86_64 => "x86_64"
  | OtherArch name => name
  end.

Record Triple := {
  isMacOSX : bool;
  isiOS : bool;
  getArch : ArchType
}.

(** [FrontendOptions::PrimaryInput]: an index into the input buffers or into
    the input filenames. *)
Inductive SelectedInputKind := Filename | Buffer.

Record SelectedInput := {
  Index : nat;
  Kind : SelectedInputKind
}.

Definition isBuffer (sel : SelectedInput) : bool :=
  match Kind sel with Buffer => true | Filename => false end.

Definition isFilename (sel : SelectedInput) : bool :=
  match Kind sel with Filename => true | Buffer => false end.

(** The part of [CompilerInvocation] that the driver uses.
    [CodeCompletionPoint] is the pair returned by [getCodeCompletionPoint],
    [None] when its buffer pointer is null.  [LangTargetConfigOptions] is
    [getLangOptions().TargetConfigOptions], the target configuration the
    invocation brings with it. *)
Record CompilerInvocation := {
  LangTargetConfigOptions : gmap string string;
  LLVMArgs : list string;
  IRGenTriple : Triple;
  EnableSourceImport : bool;
  actionIsImmediate : bool;
  SDKPath : string;
  ModuleName : string;
  CodeCompletionPoint : option (MemoryBuffer * nat);
  InputKind : SourceFileKind;
  PrimaryInput : option SelectedInput;
  InputBuffers : list MemoryBuffer;
  InputFilenames : list string;
  ParseOnly : bool;
  ParseStdlib : bool;
  DelayedFunctionBodyParsing : bool
}.

Definition isCodeCompletion (Invok : CompilerInvocation) : bool :=
  match CodeCompletionPoint Invok with Some _ => true | None => false end.

(** Buffer ids are [unsigned]; [NO_SUCH_BUFFER] is [~0U]. *)
Definition NO_SUCH_BUFFER : N := 4294967295.

(** Modelled from the spec: the buffer registry ([SourceManager], declared in
    swift/Basic/SourceManager.h, is not among the sources).  Identities are
    stable integers: a buffer's id is its position in [Buffers].  Adding a
    buffer always creates a new id; [getIDForBufferIdentifier] answers with
    the id of a registered buffer that carries the identifier (the most
    recently added one when several do).  Ids do not wrap around: a registry
    of [2^32 - 1] buffers, whose next id would be [NO_SUCH_BUFFER], is out
    of the model's reach. *)
Record SourceManager := {
  Buffers : list MemoryBuffer;
  CodeCompletionLoc : option (N * nat);
  HashbangBufferID : option N
}.

Definition addNewSourceBuffer (SM : SourceManager) (Buf : MemoryBuffer)
  : SourceManager * N :=
  ({| Buffers := Buffers SM ++ [Buf];
      CodeCompletionLoc := CodeCompletionLoc SM;
      HashbangBufferID := HashbangBufferID SM |},
   N.of_nat (length (Buffers SM))).

Fixpoint findIdentifier (bufs : list MemoryBuffer) (i : N) (name : string)
  : option N :=
  match bufs with
  | [] => None
  | b :: rest =>
      match findIdentifier rest (N.succ i) name with
      | Some j => Some j
      | None => if String.eqb (getBufferIdentifier b) name then Some i else None
      end
  end.

Definition getIDForBufferIdentifier (SM : SourceManager) (name : string)
  : option N :=
  findIdentifier (Buffers SM) 0 name.

Definition getMemoryBuffer (SM : SourceManager) (BufferID : N)
  : option MemoryBuffer :=
  Buffers SM !! N.to_nat BufferID.

Definition setCodeCompletionPoint (SM : SourceManager) (BufferID : N)
  (Offset : nat) : SourceManager :=
  {| Buffers := Buffers SM;
     CodeCompletionLoc := Some (BufferID, Offset);
     HashbangBufferID := HashbangBufferID SM |}.

Definition setHashbangBufferID (SM : SourceManager) (BufferID : N)
  : SourceManager :=
  {| Buffers := Buffers SM;
     CodeCompletionLoc := CodeCompletionLoc SM;
     HashbangBufferID := Some BufferID |}.

(** [llvm::sys::path::filename]: the last component of a path, here with the
    POSIX separator. *)
Fixpoint filename_from (path : string) (acc : string) : string :=
  match path with
  | EmptyString => acc
  | String c rest =>
      if Ascii.eqb c "/"%char then filename_from rest EmptyString
      else filename_from rest (acc +:+ String c EmptyString)
  end.

Definition filename (path : string) : string := filename_from path EmptyString.

(** Diagnostics the driver emits. *)
Inductive Diag :=
| error_clang_importer_create_fail
| error_clang_importer_not_linked_in
| error_open_input_file (File : string) (message : string).

(** The loaders [ASTContext::addModuleLoader] can receive. *)
Inductive ModuleLoader :=
| SourceLoader (delayed : bool)
| SerializedModuleLoader
| ClangImporter.

#[global] Instance ModuleLoader_eq_dec : EqDecision ModuleLoader.
Proof. solve_decision. Defined.

Inductive DelayedParsingCallbacks :=
| CodeCompleteDelayedCallbacks (Loc : option (N * nat))
| AlwaysDelayedCallbacks.

(** Declarations are opaque to the driver; it only counts them. *)
Definition Decl := string.

(** A [SourceFile] of the main module, and the units a module holds: source
    files the driver adds, serialized files that [loadAST] adds. *)
Record SourceFile := {
  SFKind : SourceFileKind;
  getBufferID : option N;
  Decls : list Decl
}.

Inductive FileUnit :=
| SourceFileUnit (SF : SourceFile)
| SerializedASTFile (BufferID : N).

Record Module := {
  getName : string;
  getFiles : list FileUnit
}.

(** Calls to collaborators, in the order they are made.  [TypeCheckChunk] is
    [performTypeChecking(SF, TLC, StartElem)] (the call in the main-file
    loop), [TypeCheckWholeFile] is [performTypeChecking(SF, TLC)]; source
    files are named by their buffer id. *)
Inductive Event :=
| ParseCommandLineOptions (Args : list string)
| OpenInputFile (File : string)
| LoadAST (BufferID : N) (ok : bool)
| ParseIntoSourceFile (BufferID : N) (appended : list Decl) (Done : bool)
| PerformNameBinding (BufferID : N)
| TypeCheckChunk (SF : option N) (StartElem : nat)
| TypeCheckWholeFile (SF : option N)
| RecordKnownProtocols
| PerformDelayedParsing.

(** The collaborators.  [getClangImporterCtor] is [None] when the importer is
    not linked in, otherwise the constructor, which answers [false] when it
    returns a null importer.  [getFileOrSTDIN] answers with the error
    message or the buffer.  The parser is a step function on its persistent
    state: it is told the kind of the file, the buffer, whether a SIL state
    is passed and the delayed-parsing callbacks, and answers with the
    declarations it appended and the [Done] flag. *)
Record Host := {
  getClangImporterCtor : option (CompilerInvocation -> bool);
  getFileOrSTDIN : string -> string + MemoryBuffer;
  isIdentifier : string -> bool;
  isSerializedAST : string -> bool;
  loadAST : MemoryBuffer -> bool;
  PersistentParserState : Type;
  PersistentState0 : PersistentParserState;
  parseIntoSourceFile :
    SourceManager -> SourceFileKind -> N -> bool -> PersistentParserState ->
    option DelayedParsingCallbacks ->
    list Decl * bool * PersistentParserState;
  hasStdlibModule : bool
}.

(** ** The compiler instance

    The member [Invocation] of the instance is a copy of the invocation
    given to [setup], and the driver writes one part of that copy: the
    target configuration of its [LangOptions] (lines 48-69, through the
    references passed at lines 90-91).  The instance keeps that part in the
    field [TargetConfigOptions], which stands for
    [Invocation.getLangOptions().TargetConfigOptions], and the rest, which
    it only reads, in the field [Invocation].  The assignment
    [Invocation = Invok] of line 76 replaces both. *)

Record CompilerInstance := {
  Invocation : CompilerInvocation;
  TargetConfigOptions : gmap string string;
  SourceMgr : SourceManager;
  Diagnostics : list Diag;
  ModuleLoaders : list ModuleLoader;
  LoadedModules : list string;
  BufferIDs : list N;
  MainBufferID : N;
  PrimaryBufferID : N;
  MainModule : option Module;
  TheSILModule : bool;
  PrimarySourceFile : option N;
  Calls : list Event
}.

(** [Invocation = Invok] (line 76): the target configuration the instance
    held goes with the invocation it belonged to. *)
Definition set_Invocation (v : CompilerInvocation) (s : CompilerInstance) :=
  {| Invocation := v; TargetConfigOptions := LangTargetConfigOptions v;
     SourceMgr := SourceMgr s; Diagnostics := Diagnostics s;
     ModuleLoaders := ModuleLoaders s; LoadedModules := LoadedModules s;
     BufferIDs := BufferIDs s; MainBufferID := MainBufferID s;
     PrimaryBufferID := PrimaryBufferID s; MainModule := MainModule s;
     TheSILModule := TheSILModule s; PrimarySourceFile := PrimarySourceFile s;
     Calls := Calls s |}.

Definition set_TargetConfigOptions (v : gmap string string) (s : CompilerInstance) :=
  {| Invocation := Invocation s; TargetConfigOptions := v;
     SourceMgr := SourceMgr s; Diagnostics := Diagnostics s;
     ModuleLoaders := ModuleLoaders s; LoadedModules := LoadedModules s;
     BufferIDs := BufferIDs s; MainBufferID := MainBufferID s;
     PrimaryBufferID := PrimaryBufferID s; MainModule := MainModule s;
     TheSILModule := TheSILModule s; PrimarySourceFile := PrimarySourceFile s;
     Calls := Calls s |}.

Definition set_SourceMgr (v : SourceManager) (s : CompilerInstance) :=
  {| Invocation := Invocation s; TargetConfigOptions := TargetConfigOptions s;
     SourceMgr := v; Diagnostics := Diagnostics s;
     ModuleLoaders := ModuleLoaders s; LoadedModules := LoadedModules s;
     BufferIDs := BufferIDs s; MainBufferID := MainBufferID s;
     PrimaryBufferID := PrimaryBufferID s; MainModule := MainModule s;
     TheSILModule := TheSILModule s; PrimarySourceFile := PrimarySourceFile s;
     Calls := Calls s |}.

Definition set_Diagnostics (v : list Diag) (s : CompilerInstance) :=
  {| Invocation := Invocation s; TargetConfigOptions := TargetConfigOptions s;
     SourceMgr := SourceMgr s; Diagnostics := v;
     ModuleLoaders := ModuleLoaders s; LoadedModules := LoadedModules s;
     BufferIDs := BufferIDs s; MainBufferID := MainBufferID s;
     PrimaryBufferID := PrimaryBufferID s; MainModule := MainModule s;
     TheSILModule := TheSILModule s; PrimarySourceFile := PrimarySourceFile s;
     Calls := Calls s |}.

Definition set_Context (loaders : list ModuleLoader) (loaded : list string)
  (s : CompilerInstance) :=
  {| Invocation := Invocation s; TargetConfigOptions := TargetConfigOptions s;
     SourceMgr := SourceMgr s; Diagnostics := Diagnostics s;
     ModuleLoaders := loaders; LoadedModules := loaded;
     BufferIDs := BufferIDs s; MainBufferID := MainBufferID s;
     PrimaryBufferID := PrimaryBufferID s; MainModule := MainModule s;
     TheSILModule := TheSILModule s; PrimarySourceFile := PrimarySourceFile s;
     Calls := Calls s |}.

Definition set_BufferIDs (v : list N) (s : CompilerInstance) :=
  {| Invocation := Invocation s; TargetConfigOptions := TargetConfigOptions s;
     SourceMgr := SourceMgr s; Diagnostics := Diagnostics s;
     ModuleLoaders := ModuleLoaders s; LoadedModules := LoadedModules s;
     BufferIDs := v; MainBufferID := MainBufferID s;
     PrimaryBufferID := PrimaryBufferID s; MainModule := MainModule s;
     TheSILModule := TheSILModule s; PrimarySourceFile := PrimarySourceFile s;
     Calls := Calls s |}.

Definition set_MainBufferID (v : N) (s : CompilerInstance) :=
  {| Invocation := Invocation s; TargetConfigOptions := TargetConfigOptions s;
     SourceMgr := SourceMgr s; Diagnostics := Diagnostics s;
     ModuleLoaders := ModuleLoaders s; LoadedModules := LoadedModules s;
     BufferIDs := BufferIDs s; MainBufferID := v;
     PrimaryBufferID := PrimaryBufferID s; MainModule := MainModule s;
     TheSILModule := TheSILModule s; PrimarySourceFile := PrimarySourceFile s;
     Calls := Calls s |}.

Definition set_PrimaryBufferID (v : N) (s : CompilerInstance) :=
  {| Invocation := Invocation s; TargetConfigOptions := TargetConfigOptions s;
     SourceMgr := SourceMgr s; Diagnostics := Diagnostics s;
     ModuleLoaders := ModuleLoaders s; LoadedModules := LoadedModules s;
     BufferIDs := BufferIDs s; MainBufferID := MainBufferID s;
     PrimaryBufferID := v; MainModule := MainModule s;
     TheSILModule := TheSILModule s; PrimarySourceFile := PrimarySourceFile s;
     Calls := Calls s |}.

Definition set_MainModule (v : option Module) (s : CompilerInstance) :=
  {| Invocation := Invocation s; TargetConfigOptions := TargetConfigOptions s;
     SourceMgr := SourceMgr s; Diagnostics := Diagnostics s;
     ModuleLoaders := ModuleLoaders s; LoadedModules := LoadedModules s;
     BufferIDs := BufferIDs s; MainBufferID := MainBufferID s;
     PrimaryBufferID := PrimaryBufferID s; MainModule := v;
     TheSILModule := TheSILModule s; PrimarySourceFile := PrimarySourceFile s;
     Calls := Calls s |}.

Definition set_TheSILModule (v : bool) (s : CompilerInstance) :=
  {| Invocation := Invocation s; TargetConfigOptions := TargetConfigOptions s;
     SourceMgr := SourceMgr s; Diagnostics := Diagnostics s;
     ModuleLoaders := ModuleLoaders s; LoadedModules := LoadedModules s;
     BufferIDs := BufferIDs s; MainBufferID := MainBufferID s;
     PrimaryBufferID := PrimaryBufferID s; MainModule := MainModule s;
     TheSILModule := v; PrimarySourceFile := PrimarySourceFile s;
     Calls := Calls s |}.

Definition set_PrimarySourceFile (v : option N) (s : CompilerInstance) :=
  {| Invocation := Invocation s; TargetConfigOptions := TargetConfigOptions s;
     SourceMgr := SourceMgr s; Diagnostics := Diagnostics s;
     ModuleLoaders := ModuleLoaders s; LoadedModules := LoadedModules s;
     BufferIDs := BufferIDs s; MainBufferID := MainBufferID s;
     PrimaryBufferID := PrimaryBufferID s; MainModule := MainModule s;
     TheSILModule := TheSILModule s; PrimarySourceFile := v;
     Calls := Calls s |}.

Definition set_Calls (v : list Event) (s : CompilerInstance) :=
  {| Invocation := Invocation s; TargetConfigOptions := TargetConfigOptions s;
     SourceMgr := SourceMgr s; Diagnostics := Diagnostics s;
     ModuleLoaders := ModuleLoaders s; LoadedModules := LoadedModules s;
     BufferIDs := BufferIDs s; MainBufferID := MainBufferID s;
     PrimaryBufferID := PrimaryBufferID s; MainModule := MainModule s;
     TheSILModule := TheSILModule s; PrimarySourceFile := PrimarySourceFile s;
     Calls := v |}.

(** A freshly constructed instance, before [setup]. *)
Definition newCompilerInstance (Invok : CompilerInvocation) : CompilerInstance :=
  {| Invocation := Invok; TargetConfigOptions := ∅;
     SourceMgr := {| Buffers := []; CodeCompletionLoc := None;
                     HashbangBufferID := None |};
     Diagnostics := []; ModuleLoaders := []; LoadedModules := [];
     BufferIDs := []; MainBufferID := NO_SUCH_BUFFER;
     PrimaryBufferID := NO_SUCH_BUFFER; MainModule := None;
     TheSILModule := false; PrimarySourceFile := None; Calls := [] |}.

(** ** The driver monad

    A method of [CompilerInstance] runs on the instance and either returns,
    or stops at a failed [assert], or (the main-file loop only) is cut off by
    the fuel of the model.  The instance reached is kept in each case. *)
Inductive Res (A : Type) :=
| Val (a : A) (s : CompilerInstance)
| AssertFail (msg : string) (s : CompilerInstance)
| OutOfFuel (s : CompilerInstance).
Arguments Val {A} a s.
Arguments AssertFail {A} msg s.
Arguments OutOfFuel {A} s.

Definition M (A : Type) : Type := CompilerInstance -> Res A.

Definition final {A} (r : Res A) : CompilerInstance :=
  match r with Val _ s | AssertFail _ s | OutOfFuel s => s end.

Definition ret {A} (a : A) : M A := fun s => Val a s.

Definition bind {A B} (m : M A) (k : A -> M B) : M B :=
  fun s =>
    match m s with
    | Val a s' => k a s'
    | AssertFail msg s' => AssertFail msg s'
    | OutOfFuel s' => OutOfFuel s'
    end.

#[global] Instance M_ret : MRet M := @ret.
#[global] Instance M_bind : MBind M := fun A B k m => bind m k.

Definition gets {A} (f : CompilerInstance -> A) : M A := fun s => Val (f s) s.
Definition modify (f : CompilerInstance -> CompilerInstance) : M unit :=
  fun s => Val tt (f s).
Definition abort {A} (msg : string) : M A := fun s => AssertFail msg s.
Definition assert (b : bool) (msg : string) : M unit :=
  if b then ret tt else abort msg.
Definition outOfFuel {A} : M A := fun s => OutOfFuel s.
Definition when (b : bool) (m : M unit) : M unit := if b then m else ret tt.

Definition call (e : Event) : M unit :=
  modify (fun s => set_Calls (Calls s ++ [e]) s).
Definition diagnose (d : Diag) : M unit :=
  modify (fun s => set_Diagnostics (Diagnostics s ++ [d]) s).
Definition addModuleLoader (l : ModuleLoader) : M unit :=
  modify (fun s => set_Context (ModuleLoaders s ++ [l]) (LoadedModules s) s).
Definition pushBufferID (BufferID : N) : M unit :=
  modify (fun s => set_BufferIDs (BufferIDs s ++ [BufferID]) s).
Definition setTargetConfigOption (key value : string) : M unit :=
  modify (fun s => set_TargetConfigOptions (<[key := value]> (TargetConfigOptions s)) s).

(** [SourceMgr.addMemBufferCopy] and [SourceMgr.addNewSourceBuffer] on the
    instance's registry: both add the buffer under a new id (that the first
    one copies the bytes does not show in the model). *)
Definition registerBuffer (Buf : MemoryBuffer) : M N :=
  fun s =>
    let '(SM, BufferID) := addNewSourceBuffer (SourceMgr s) Buf in
    Val BufferID (set_SourceMgr SM s).

(** ** [setTargetConfigurations] (lines 41-73)

    In the [default] case of the [switch] the [break] is not under the [if]:
    it is taken whether or not the name is "arm64", and the
    [llvm_unreachable] that follows it is never executed. *)
Definition setTargetConfigurations : M unit :=
  triple ← gets (fun s => IRGenTriple (Invocation s));
  (if isMacOSX triple then setTargetConfigOption "os" "OSX"
   else if isiOS triple then setTargetConfigOption "os" "iOS"
   else assert false "Unsupported target OS");;
  match getArch triple with
  | arm => setTargetConfigOption "arch" "arm"
  | x86 => setTargetConfigOption "arch" "i386"
  | x86_64 => setTargetConfigOption "arch" "x86_64"
  | OtherArch _ =>
      when (String.eqb "arm64" (getArchTypeName (getArch triple)))
           (setTargetConfigOption "arch" "arm64")
  end.

Definition MainMode (Invok : CompilerInvocation) : bool :=
  bool_decide (InputKind Invok = Main).
Definition SILMode (Invok : CompilerInvocation) : bool :=
  bool_decide (InputKind Invok = SIL).

(** [PrimaryInput && PrimaryInput->isBuffer() && PrimaryInput->Index == i] *)
Definition primaryIsBuffer (Invok : CompilerInvocation) (i : nat) : bool :=
  match PrimaryInput Invok with
  | Some sel => isBuffer sel && Nat.eqb (Index sel) i
  | None => false
  end.

(** [PrimaryInput && PrimaryInput->isFilename() && PrimaryInput->Index == i] *)
Definition primaryIsFilename (Invok : CompilerInvocation) (i : nat) : bool :=
  match PrimaryInput Invok with
  | Some sel => isFilename sel && Nat.eqb (Index sel) i
  | None => false
  end.

(** [SILMode || (MainMode && filename(File) == "main.swift")] *)
Definition fileIsMain (Invok : CompilerInvocation) (File : string) : bool :=
  SILMode Invok || (MainMode Invok && String.eqb (filename File) "main.swift").

Section Driver.
Context (host : Host).

(** ** [setup] (lines 75-204) *)

(** Lines 105-123; the answer is [true] when [setup] returns [true] there. *)
Definition wireClangImporter : M bool :=
  Invok ← gets Invocation;
  match getClangImporterCtor host with
  | Some ImporterCtor =>
      if ImporterCtor Invok then
        addModuleLoader ClangImporter;; mret false
      else
        diagnose error_clang_importer_create_fail;; mret true
  | None =>
      if negb (String.eqb (SDKPath Invok) EmptyString) then
        diagnose error_clang_importer_not_linked_in;; mret true
      else mret false
  end.

(** Lines 127-135. *)
Definition addCodeCompletionBuffer : M unit :=
  Invok ← gets Invocation;
  match CodeCompletionPoint Invok with
  | Some (MemBuf, Offset) =>
      CodeCompletionBufferID ← registerBuffer MemBuf;
      pushBufferID CodeCompletionBufferID;;
      modify (fun s =>
        set_SourceMgr
          (setCodeCompletionPoint (SourceMgr s) CodeCompletionBufferID Offset) s)
  | None => mret tt
  end.

(** The loop of lines 145-156, from index [i] on. *)
Fixpoint addInputBuffers (i : nat) (bufs : list MemoryBuffer) : M unit :=
  match bufs with
  | [] => mret tt
  | Buf :: rest =>
      Invok ← gets Invocation;
      BufferID ← registerBuffer Buf;
      pushBufferID BufferID;;
      when (SILMode Invok) (modify (set_MainBufferID BufferID));;
      when (primaryIsBuffer Invok i) (modify (set_PrimaryBufferID BufferID));;
      addInputBuffers (S i) rest
  end.

(** The two selections made for a file input once its buffer id is known
    (lines 168-173 for an existing buffer, lines 193-197 for a new one). *)
Definition selectFromFilename (i : nat) (File : string) (BufferID : N) : M unit :=
  Invok ← gets Invocation;
  when (fileIsMain Invok File) (modify (set_MainBufferID BufferID));;
  when (primaryIsFilename Invok i) (modify (set_PrimaryBufferID BufferID)).

(** One iteration of the loop of lines 158-198; the answer is [true] when the
    iteration leaves [setup] with [return true]. *)
Definition addInputFilename (i : nat) (File : string) : M bool :=
  ExistingBufferID ← gets (fun s => getIDForBufferIdentifier (SourceMgr s) File);
  match ExistingBufferID with
  | Some Existing =>
      selectFromFilename i File Existing;;
      mret false
  | None =>
      call (OpenInputFile File);;
      match getFileOrSTDIN host File with
      | inl message =>
          diagnose (error_open_input_file File message);;
          mret true
      | inr InputFile =>
          BufferID ← registerBuffer InputFile;
          pushBufferID BufferID;;
          selectFromFilename i File BufferID;;
          mret false
      end
  end.

Fixpoint addInputFilenames (i : nat) (files : list string) : M bool :=
  match files with
  | [] => mret false
  | File :: rest =>
      failed ← addInputFilename i File;
      if (failed : bool) then mret true else addInputFilenames (S i) rest
  end.

(** Lines 200-201. *)
Definition implicitMainBuffer : M unit :=
  s ← gets id;
  match BufferIDs s with
  | [front] =>
      when (MainMode (Invocation s) && (MainBufferID s =? NO_SUCH_BUFFER))
           (modify (set_MainBufferID front))
  | _ => mret tt
  end.

(** Lines 76-123: the invocation, the LLVM arguments, the target
    configuration, the context and its loaders.  The answer is [true] when
    [setup] returns [true] there. *)
Definition configureContext (Invok : CompilerInvocation) : M bool :=
  modify (set_Invocation Invok);;
  when (negb (bool_decide (LLVMArgs Invok = [])))
       (call (ParseCommandLineOptions
                ("swift (LLVM option parsing)" :: LLVMArgs Invok)));;
  setTargetConfigurations;;
  modify (set_Context [] []);;
  when (EnableSourceImport Invok)
       (addModuleLoader (SourceLoader (negb (actionIsImmediate Invok))));;
  addModuleLoader SerializedModuleLoader;;
  wireClangImporter.

(** Lines 125-198: the module name is checked and the buffers are admitted.
    The answer is [true] when [setup] returns [true] there. *)
Definition admitBuffers (Invok : CompilerInvocation) : M bool :=
  assert (isIdentifier host (ModuleName Invok))
         "Lexer::isIdentifier(Invocation.getModuleName())";;
  addCodeCompletionBuffer;;
  addInputBuffers 0 (InputBuffers Invok);;
  addInputFilenames 0 (InputFilenames Invok).

(** Lines 76-198: everything before the single-buffer fallback. *)
Definition registerInputs (Invok : CompilerInvocation) : M bool :=
  failed ← configureContext Invok;
  if (failed : bool) then mret true else admitBuffers Invok.

Definition setup (Invok : CompilerInvocation) : M bool :=
  failed ← registerInputs Invok;
  if (failed : bool) then mret true else
  implicitMainBuffer;;
  mret false.

(** ** [performParse] (lines 206-335) *)

(** [MainModule->addFile(F)]; the answer is the position of the new unit in
    the module's file list, which stands for the pointer the driver keeps. *)
Definition addFile (F : FileUnit) : M nat :=
  s ← gets id;
  match MainModule s with
  | Some Mod =>
      modify (set_MainModule
                (Some {| getName := getName Mod;
                         getFiles := getFiles Mod ++ [F] |}));;
      mret (length (getFiles Mod))
  | None => abort "MainModule"
  end.

(** The parser appends the declarations of a call to the file it was given. *)
Definition appendDecls (ds : list Decl) (F : FileUnit) : FileUnit :=
  match F with
  | SourceFileUnit SF =>
      SourceFileUnit {| SFKind := SFKind SF; getBufferID := getBufferID SF;
                        Decls := Decls SF ++ ds |}
  | SerializedASTFile BufferID => SerializedASTFile BufferID
  end.

Definition appendDeclsAt (idx : nat) (ds : list Decl) (Mod : Module) : Module :=
  {| getName := getName Mod;
     getFiles := alter (appendDecls ds) idx (getFiles Mod) |}.

Definition parsedInto (idx : nat) (ds : list Decl) : M unit :=
  modify (fun s => set_MainModule (appendDeclsAt idx ds <$> MainModule s) s).

(** Modelled from the spec: [Module::getMainSourceFile] (swift/AST/Module.h is
    not among the sources): the main file, when present, is first in the
    module's file list, and it has the expected kind. *)
Definition getMainSourceFile (expectedKind : SourceFileKind) : M SourceFile :=
  s ← gets id;
  match MainModule s with
  | Some Mod =>
      match getFiles Mod with
      | SourceFileUnit SF :: _ =>
          assert (bool_decide (SFKind SF = expectedKind))
                 "FileUnits.front()->Kind == expectedKind";;
          mret SF
      | _ => abort "No files added yet"
      end
  | None => abort "MainModule"
  end.

(** [createSILModule] (lines 36-39). *)
Definition createSILModule : M unit :=
  s ← gets id;
  assert (bool_decide (is_Some (MainModule s))) "getMainModule()";;
  modify (set_TheSILModule true).

(** Lines 226-232. *)
Definition selectDelayedCB (s : CompilerInstance)
  : option DelayedParsingCallbacks :=
  if isCodeCompletion (Invocation s) then
    Some (CodeCompleteDelayedCallbacks (CodeCompletionLoc (SourceMgr s)))
  else if DelayedFunctionBodyParsing (Invocation s) then
    Some AlwaysDelayedCallbacks
  else None.

(** Lines 240-253. *)
Definition addMainSourceFile (Kind : SourceFileKind) : M unit :=
  s ← gets id;
  if MainBufferID s =? NO_SUCH_BUFFER then mret tt else
  assert (bool_decide (Kind = Main) || bool_decide (Kind = SIL))
         "Kind == SourceFileKind::Main || Kind == SourceFileKind::SIL";;
  when (bool_decide (Kind = Main))
       (modify (fun s' =>
          set_SourceMgr (setHashbangBufferID (SourceMgr s') (MainBufferID s)) s'));;
  addFile (SourceFileUnit {| SFKind := Kind;
                            getBufferID := Some (MainBufferID s);
                            Decls := [] |});;
  when (MainBufferID s =? PrimaryBufferID s)
       (modify (set_PrimarySourceFile (Some (MainBufferID s)))).

(** One iteration of the loop of lines 258-289, on the local variables
    [hadLoadError] and [PersistentState]. *)
Definition parseLibraryFile (DelayedCB : option DelayedParsingCallbacks)
  (BufferID : N) (hadLoadError : bool) (PS : PersistentParserState host)
  : M (bool * PersistentParserState host) :=
  s ← gets id;
  if BufferID =? MainBufferID s then mret (hadLoadError, PS) else
  match getMemoryBuffer (SourceMgr s) BufferID with
  | None => abort "Invalid Buffer ID!"
  | Some Buf =>
      if isSerializedAST host (getBuffer Buf) then
        let ok := loadAST host Buf in
        call (LoadAST BufferID ok);;
        (if ok then addFile (SerializedASTFile BufferID);; mret tt else mret tt);;
        mret (if ok then hadLoadError else true, PS)
      else
        NextInput ← addFile (SourceFileUnit {| SFKind := Library;
                                              getBufferID := Some BufferID;
                                              Decls := [] |});
        when (BufferID =? PrimaryBufferID s)
             (modify (set_PrimarySourceFile (Some BufferID)));;
        let '(appended, Done, PS') :=
          parseIntoSourceFile host (SourceMgr s) Library BufferID false PS
                              DelayedCB in
        call (ParseIntoSourceFile BufferID appended Done);;
        parsedInto NextInput appended;;
        assert Done "Parser returned early?";;
        call (PerformNameBinding BufferID);;
        mret (hadLoadError, PS')
  end.

Fixpoint parseLibraryFiles (DelayedCB : option DelayedParsingCallbacks)
  (ids : list N) (hadLoadError : bool) (PS : PersistentParserState host)
  : M (bool * PersistentParserState host) :=
  match ids with
  | [] => mret (hadLoadError, PS)
  | BufferID :: rest =>
      '(hadLoadError', PS') ← parseLibraryFile DelayedCB BufferID hadLoadError PS;
      parseLibraryFiles DelayedCB rest hadLoadError' PS'
  end.

(** [!Invocation.getParseOnly() && (PrimaryBufferID == NO_SUCH_BUFFER ||
    MainBufferID == PrimaryBufferID)] (lines 308-309). *)
Definition chunkCheckCondition (s : CompilerInstance) : bool :=
  negb (ParseOnly (Invocation s)) &&
  ((PrimaryBufferID s =? NO_SUCH_BUFFER) ||
   (MainBufferID s =? PrimaryBufferID s)).

(** [MainFile.Decls.size()], the main file being the first unit. *)
Definition mainFileDeclsSize (s : CompilerInstance) : nat :=
  match MainModule s with
  | Some Mod =>
      match getFiles Mod with
      | SourceFileUnit SF :: _ => length (Decls SF)
      | _ => 0%nat
      end
  | None => 0%nat
  end.

(** The [do ... while (!Done)] of lines 300-313; [fuel] bounds the number of
    pumps. *)
Fixpoint pumpMainFile (fuel : nat) (Kind : SourceFileKind) (MainFileID : N)
  (DelayedCB : option DelayedParsingCallbacks) (CurTUElem : nat)
  (PS : PersistentParserState host) : M (PersistentParserState host) :=
  match fuel with
  | O => outOfFuel
  | S fuel' =>
      s ← gets id;
      let '(appended, Done, PS') :=
        parseIntoSourceFile host (SourceMgr s) Kind MainFileID (TheSILModule s)
                            PS DelayedCB in
      call (ParseIntoSourceFile MainFileID appended Done);;
      parsedInto 0 appended;;
      when (chunkCheckCondition s)
           (call (TypeCheckChunk (Some MainFileID) CurTUElem));;
      CurTUElem' ← gets mainFileDeclsSize;
      if (Done : bool) then mret PS'
      else pumpMainFile fuel' Kind MainFileID DelayedCB CurTUElem' PS'
  end.

(** Lines 295-314. *)
Definition parseMainFile (fuel : nat) (Kind : SourceFileKind)
  (DelayedCB : option DelayedParsingCallbacks) (PS : PersistentParserState host)
  : M (PersistentParserState host) :=
  s ← gets id;
  if MainBufferID s =? NO_SUCH_BUFFER then mret PS else
  MainFile ← getMainSourceFile Kind;
  match getBufferID MainFile with
  | Some MainFileID => pumpMainFile fuel Kind MainFileID DelayedCB 0 PS
  | None => abort "getBufferID().hasValue()"
  end.

(** The loop of lines 318-323 over [MainModule->getFiles()]. *)
Fixpoint typeCheckFiles (files : list FileUnit) : M unit :=
  match files with
  | [] => mret tt
  | SourceFileUnit SF :: rest =>
      s ← gets id;
      when ((PrimaryBufferID s =? NO_SUCH_BUFFER) ||
            match getBufferID SF with
            | Some BufferID => BufferID =? PrimaryBufferID s
            | None => false
            end)
           (call (TypeCheckWholeFile (getBufferID SF)));;
      typeCheckFiles rest
  | SerializedASTFile _ :: rest => typeCheckFiles rest
  end.

(** Lines 316-329. *)
Definition typeCheckInputs : M unit :=
  s ← gets id;
  if ParseOnly (Invocation s) then mret tt else
  typeCheckFiles (match MainModule s with
                  | Some Mod => getFiles Mod
                  | None => []
                  end);;
  when (hasStdlibModule host) (call RecordKnownProtocols).

(** Lines 207-216: the main module is created and registered; in SIL mode
    the two assertions, then [createSILModule]. *)
Definition createMainModule : M unit :=
  Invok ← gets Invocation;
  modify (set_MainModule
            (Some {| getName := ModuleName Invok; getFiles := [] |}));;
  modify (fun s => set_Context (ModuleLoaders s)
                               (ModuleName Invok :: LoadedModules s) s);;
  when (bool_decide (InputKind Invok = SIL))
       (ids ← gets BufferIDs;
        assert (Nat.eqb (length ids) 1) "BufferIDs.size() == 1";;
        main ← gets MainBufferID;
        assert (negb (main =? NO_SUCH_BUFFER)) "MainBufferID != NO_SUCH_BUFFER";;
        createSILModule).

(** Lines 255-334: the library files, the [hadLoadError] test, the main
    file, the remaining type-checking and the delayed parsing. *)
Definition parseAndCheck (fuel : nat) (Kind : SourceFileKind)
  (DelayedCB : option DelayedParsingCallbacks) : M unit :=
  ids ← gets BufferIDs;
  '(hadLoadError, PS) ←
    parseLibraryFiles DelayedCB ids false (PersistentState0 host);
  if (hadLoadError : bool) then mret tt else
  parseMainFile fuel Kind DelayedCB PS;;
  typeCheckInputs;;
  when (bool_decide (is_Some DelayedCB)) (call PerformDelayedParsing).

Definition performParse (fuel : nat) : M unit :=
  Kind ← gets (fun s => InputKind (Invocation s));
  createMainModule;;
  if bool_decide (Kind = REPL) then
    addFile (SourceFileUnit {| SFKind := Kind; getBufferID := None;
                              Decls := [] |});;
    mret tt
  else
  DelayedCB ← gets selectDelayedCB;
  addMainSourceFile Kind;;
  parseAndCheck fuel Kind DelayedCB.

End Driver.

(** ** A small host and a few invocations, for examples

    Files are looked up in a four-entry table; a buffer is a serialized
    module when it starts with '#', and loading it succeeds only for "#ok";
    the parser makes one declaration of every character, takes a library
    file in one call and the main file one character per call. *)
Definition exampleFiles (File : string) : string + MemoryBuffer :=
  if String.eqb File "main.swift" then
    inr {| getBufferIdentifier := File; getBuffer := "ab" |}
  else if String.eqb File "a.swift" then
    inr {| getBufferIdentifier := File; getBuffer := "xy" |}
  else if String.eqb File "b.swift" then
    inr {| getBufferIdentifier := File; getBuffer := "z" |}
  else if String.eqb File "bad.swiftmodule" then
    inr {| getBufferIdentifier := File; getBuffer := "#corrupt" |}
  else inl "No such file or directory".

Definition exampleIsSerializedAST (bytes : string) : bool :=
  match bytes with
  | String c _ => Ascii.eqb c "#"%char
  | EmptyString => false
  end.

Fixpoint declsOf (text : string) : list Decl :=
  match text with
  | EmptyString => []
  | String c rest => String c EmptyString :: declsOf rest
  end.

Definition exampleParser (SM : SourceManager) (Kind : SourceFileKind)
  (BufferID : N) (SILState : bool) (pos : nat)
  (DelayedCB : option DelayedParsingCallbacks) : list Decl * bool * nat :=
  match getMemoryBuffer SM BufferID with
  | None => ([], true, pos)
  | Some Buf =>
      match Kind with
      | Library => (declsOf (getBuffer Buf), true, 0%nat)
      | _ =>
          let Done := Nat.leb (String.length (getBuffer Buf)) (S pos) in
          (declsOf (substring pos 1 (getBuffer Buf)), Done,
           if Done then 0%nat else S pos)
      end
  end.

Definition exampleHost (ctor : option (CompilerInvocation -> bool)) : Host :=
  {| getClangImporterCtor := ctor;
     getFileOrSTDIN := exampleFiles;
     isIdentifier := fun name => negb (String.eqb name EmptyString);
     isSerializedAST := exampleIsSerializedAST;
     loadAST := fun Buf => String.eqb (getBuffer Buf) "#ok";
     PersistentParserState := nat;
     PersistentState0 := 0%nat;
     parseIntoSourceFile := exampleParser;
     hasStdlibModule := false |}.

Definition exampleInvocation (Kind : SourceFileKind) (triple : Triple)
  (buffers : list MemoryBuffer) (files : list string)
  (primary : option SelectedInput) (parseOnly : bool) : CompilerInvocation :=
  {| LangTargetConfigOptions := ∅;
     LLVMArgs := []; IRGenTriple := triple; EnableSourceImport := false;
     actionIsImmediate := false; SDKPath := EmptyString; ModuleName := "App";
     CodeCompletionPoint := None; InputKind := Kind; PrimaryInput := primary;
     InputBuffers := buffers; InputFilenames := files; ParseOnly := parseOnly;
     ParseStdlib := false; DelayedFunctionBodyParsing := false |}.

Definition macosx_x86_64 : Triple :=
  {| isMacOSX := true; isiOS := false; getArch := x86_64 |}.

Definition withSDKPath (path : string) (Invok : CompilerInvocation)
  : CompilerInvocation :=
  {| LangTargetConfigOptions := LangTargetConfigOptions Invok;
     LLVMArgs := LLVMArgs Invok; IRGenTriple := IRGenTriple Invok;
     EnableSourceImport := EnableSourceImport Invok;
     actionIsImmediate := actionIsImmediate Invok; SDKPath := path;
     ModuleName := ModuleName Invok;
     CodeCompletionPoint := CodeCompletionPoint Invok;
     InputKind := InputKind Invok; PrimaryInput := PrimaryInput Invok;
     InputBuffers := InputBuffers Invok;
     InputFilenames := InputFilenames Invok; ParseOnly := ParseOnly Invok;
     ParseStdlib := ParseStdlib Invok;
     DelayedFunctionBodyParsing := DelayedFunctionBodyParsing Invok |}.

Definition twoMemoryInputs (Kind : SourceFileKind)
  (primary : option SelectedInput) : CompilerInvocation :=
  exampleInvocation Kind macosx_x86_64
    [ {| getBufferIdentifier := "main.swift"; getBuffer := "ab" |};
      {| getBufferIdentifier := "b.swift"; getBuffer := "c" |} ]
    [] primary false.

Definition memoryAndFileInput (primary : option SelectedInput)
  : CompilerInvocation :=
  exampleInvocation Main macosx_x86_64
    [ {| getBufferIdentifier := "a.swift"; getBuffer := "mn" |} ]
    [ "main.swift"; "a.swift"; "a.swift" ] primary false.

(** Two files, a.swift and main.swift, with a.swift as the primary input. *)
Definition libraryIsPrimary (parseOnly : bool) : CompilerInvocation :=
  exampleInvocation Main macosx_x86_64 [] ["a.swift"; "main.swift"]
    (Some {| Index := 0; Kind := Filename |}) parseOnly.

(** The instance [setup] leaves, for the examples where it succeeds. *)
Definition afterSetup (host : Host) (Invok : CompilerInvocation)
  : CompilerInstance :=
  final (setup host Invok (newCompilerInstance Invok)).

(** A file system that reads the standard input for the path "-" and names
    the buffer it hands back "<stdin>", not "-". *)
Definition stdinFiles (File : string) : string + MemoryBuffer :=
  if String.eqb File "-" then
    inr {| getBufferIdentifier := "<stdin>"; getBuffer := "s" |}
  else exampleFiles File.

Definition stdinHost : Host :=
  {| getClangImporterCtor := None;
     getFileOrSTDIN := stdinFiles;
     isIdentifier := fun name => negb (String.eqb name EmptyString);
     isSerializedAST := exampleIsSerializedAST;
     loadAST := fun Buf => String.eqb (getBuffer Buf) "#ok";
     PersistentParserState := nat;
     PersistentState0 := 0%nat;
     parseIntoSourceFile := exampleParser;
     hasStdlibModule := false |}.

(** The standard input given twice as a file input. *)
Definition stdinTwice : CompilerInvocation :=
  exampleInvocation Main macosx_x86_64 [] ["-"; "-"] None false.

(** A code-completion buffer c.swift and one file input, a.swift, in Main
    mode. *)
Definition completionAndOneFile : CompilerInvocation :=
  {| LangTargetConfigOptions := ∅;
     LLVMArgs := []; IRGenTriple := macosx_x86_64;
     EnableSourceImport := false; actionIsImmediate := false;
     SDKPath := EmptyString; ModuleName := "App";
     CodeCompletionPoint :=
       Some ({| getBufferIdentifier := "c.swift"; getBuffer := "pq" |}, 1%nat);
     InputKind := Main; PrimaryInput := None;
     InputBuffers := []; InputFilenames := ["a.swift"];
     ParseOnly := false; ParseStdlib := false;
     DelayedFunctionBodyParsing := false |}.

(** ** Vocabulary of the statements: instances *)

(** What the registration of inputs leaves alone. *)
Definition sameContext (s s' : CompilerInstance) : Prop :=
  Invocation s' = Invocation s /\
  ModuleLoaders s' = ModuleLoaders s /\
  TargetConfigOptions s' = TargetConfigOptions s.

(** What [performParse] never changes: the invocation, the registered
    buffers, [BufferIDs] and the two selected buffers. *)
Definition sameInputs (s s' : CompilerInstance) : Prop :=
  Invocation s' = Invocation s /\
  Buffers (SourceMgr s') = Buffers (SourceMgr s) /\
  BufferIDs s' = BufferIDs s /\
  MainBufferID s' = MainBufferID s /\
  PrimaryBufferID s' = PrimaryBufferID s.

(** A buffer carrying the identifier [name] is in the registry. *)
Definition registered (name : string) (s : CompilerInstance) : Prop :=
  exists Buf, Buf ∈ Buffers (SourceMgr s) /\ getBufferIdentifier Buf = name.

(** The file system names the buffer it hands back for the path [File]
    after that path. *)
Definition namedByPath (host : Host) (File : string) : Prop :=
  forall InputFile,
    getFileOrSTDIN host File = inr InputFile ->
    getBufferIdentifier InputFile = File.

(** [BufferIDs] lists the ids of the registry, in order: every buffer of the
    registry was pushed when it was added. *)
Definition idsMatchRegistry (s : CompilerInstance) : Prop :=
  BufferIDs s = N.of_nat <$> seq 0 (length (Buffers (SourceMgr s))).

(** The main buffer is one of the registered buffers. *)
Definition mainRegistered (s : CompilerInstance) : Prop :=
  MainBufferID s < N.of_nat (length (Buffers (SourceMgr s))).

Definition assertionFailed {A} (r : Res A) : Prop :=
  match r with AssertFail _ _ => True | _ => False end.

(** The two assertions of lines 213-214. *)
Definition SILAssertionsHold (s : CompilerInstance) : Prop :=
  length (BufferIDs s) = 1%nat /\ MainBufferID s <> NO_SUCH_BUFFER.

(** The buffer is not the main one, it is a serialized module, and loading
    it fails. *)
Definition loadFails (host : Host) (s : CompilerInstance) (BufferID : N) : bool :=
  negb (BufferID =? MainBufferID s) &&
  match getMemoryBuffer (SourceMgr s) BufferID with
  | Some Buf => isSerializedAST host (getBuffer Buf) && negb (loadAST host Buf)
  | None => false
  end.

(** The files of the main module when the library loop starts: the main
    file alone, if there is a main buffer. *)
Definition mainFileOnly (Kind : SourceFileKind) (s : CompilerInstance)
  : list FileUnit :=
  if MainBufferID s =? NO_SUCH_BUFFER then []
  else [SourceFileUnit {| SFKind := Kind;
                          getBufferID := Some (MainBufferID s);
                          Decls := [] |}].

(** ** Vocabulary of the statements: calls *)

(** The calls made between two instances are the events [evs], all of which
    satisfy [P]. *)
Definition extends (P : Event -> Prop) (s s' : CompilerInstance) : Prop :=
  exists evs, Calls s' = Calls s ++ evs /\ Forall P evs.

Definition isOpenInputFile (e : Event) : Prop :=
  match e with OpenInputFile _ => True | _ => False end.

(** The files opened by a sequence of calls, in order. *)
Definition openedFile (e : Event) : option string :=
  match e with OpenInputFile File => Some File | _ => None end.

Definition openedFiles (calls : list Event) : list string :=
  omap openedFile calls.

(** How many times a sequence of calls opens the path [File]. *)
Definition timesOpened (File : string) (calls : list Event) : nat :=
  length (filter (fun F => F = File) (openedFiles calls)).

Definition isTypeCheck (e : Event) : Prop :=
  match e with
  | TypeCheckChunk _ _ | TypeCheckWholeFile _ => True
  | _ => False
  end.

Definition isChunkCheck (e : Event) : Prop :=
  match e with TypeCheckChunk _ _ => True | _ => False end.

(** The calls of the library loop: loading, parsing and binding of a buffer
    other than the main one. *)
Definition isLibraryEvent (main : N) (e : Event) : Prop :=
  match e with
  | LoadAST BufferID _ | ParseIntoSourceFile BufferID _ _
  | PerformNameBinding BufferID => BufferID <> main
  | _ => False
  end.

(** The buffer was handed to the serialized loader or to the parser. *)
Definition isAttemptOn (BufferID : N) (e : Event) : Prop :=
  match e with
  | LoadAST BufferID' _ | ParseIntoSourceFile BufferID' _ _ =>
      BufferID' = BufferID
  | _ => False
  end.

Definition attempted (BufferID : N) (evs : list Event) : Prop :=
  Exists (isAttemptOn BufferID) evs.

Definition isPumpOf (main : N) (e : Event) : Prop :=
  match e with
  | ParseIntoSourceFile BufferID _ _ => BufferID = main
  | _ => False
  end.

(** The calls of the main-file loop are pumps and chunk checks of the main
    file. *)
Definition isPumpEvent (main : N) (e : Event) : Prop :=
  match e with
  | ParseIntoSourceFile BufferID _ _ => BufferID = main
  | TypeCheckChunk SF _ => SF = Some main
  | _ => False
  end.

(** The calls of the main-file loop, read off a trace: every call is a pump
    of the main file; when [checked] holds, each pump is followed at once by
    the type-checking of the main file from [CurTUElem], the number of
    declarations the file had before that pump; when it does not, the pumps
    follow each other with nothing in between. *)
Fixpoint pumpTrace (main : N) (checked : bool) (CurTUElem : nat)
  (evs : list Event) : Prop :=
  match evs with
  | [] => True
  | ParseIntoSourceFile BufferID appended _ :: rest =>
      BufferID = main /\
      if checked then
        match rest with
        | TypeCheckChunk SF StartElem :: rest' =>
            SF = Some main /\ StartElem = CurTUElem /\
            pumpTrace main checked (CurTUElem + length appended) rest'
        | _ => False
        end
      else pumpTrace main checked (CurTUElem + length appended) rest
  | _ => False
  end.

(** The number of declarations that the calls [evs] appended to the file of
    buffer [main]. *)
Definition declsOfCall (main : N) (e : Event) : nat :=
  match e with
  | ParseIntoSourceFile BufferID appended _ =>
      if BufferID =? main then length appended else 0%nat
  | _ => 0%nat
  end.

Definition declsParsed (main : N) (evs : list Event) : nat :=
  sum_list_with (declsOfCall main) evs.

(** The whole-file check of one unit of the module, for the loop of lines
    318-323. *)
Definition wholeFileCheck (primary : N) (F : FileUnit) : list Event :=
  match F with
  | SourceFileUnit SF =>
      if (primary =? NO_SUCH_BUFFER) ||
         match getBufferID SF with
         | Some BufferID => BufferID =? primary
         | None => false
         end
      then [TypeCheckWholeFile (getBufferID SF)]
      else []
  | SerializedASTFile _ => []
  end.

(** The calls made after the main-file loop; a whole-file check is of the
    primary file when there is one. *)
Definition isTailEvent (primary : N) (e : Event) : Prop :=
  match e with
  | TypeCheckWholeFile SF => primary = NO_SUCH_BUFFER \/ SF = Some primary
  | RecordKnownProtocols | PerformDelayedParsing => True
  | _ => False
  end.

(** ** Five claims in the specification's wording

    Each is compared further down with what the code does. *)

(** The specification's reading of the registration of memory inputs: for the
    Main and SIL kinds it records one of the memory inputs as the main
    buffer. *)
Definition memoryInputRecordedAsMain (Invok : CompilerInvocation) : Prop :=
  InputKind Invok = Main \/ InputKind Invok = SIL ->
  InputBuffers Invok <> [] ->
  forall s',
    addInputBuffers 0 (InputBuffers Invok) (newCompilerInstance Invok)
      = Val tt s' ->
    MainBufferID s' ∈ BufferIDs s'.

(** The condition of the chunk check as the specification words it:
    "unless parse-only mode is active and (no primary buffer is designated
    or the main buffer is the primary)". *)
Definition specChunkCheckCondition (s : CompilerInstance) : bool :=
  negb (ParseOnly (Invocation s) &&
        ((PrimaryBufferID s =? NO_SUCH_BUFFER) ||
         (MainBufferID s =? PrimaryBufferID s))).

(** The specification's reading of the main-file loop: whenever its
    condition holds, a pump of the main file comes with a chunk check of the
    main file. *)
Definition chunkCheckedAsSpecified (host : Host) (fuel : nat)
  (s : CompilerInstance) : Prop :=
  let calls := Calls (final (performParse host fuel s)) in
  specChunkCheckCondition s = true ->
  forall appended Done,
    ParseIntoSourceFile (MainBufferID s) appended Done ∈ calls ->
    exists StartElem, TypeCheckChunk (Some (MainBufferID s)) StartElem ∈ calls.

(** The specification's reading of the two assertions of lines 213-214: a
    SIL-mode [setup] that succeeded is enough for them to hold. *)
Definition SILAssertionsNeverFire (host : Host) (Invok : CompilerInvocation)
  : Prop :=
  InputKind Invok = SIL ->
  forall s,
    setup host Invok (newCompilerInstance Invok) = Val false s ->
    forall fuel, ~ assertionFailed (performParse host fuel s).

(** The specification's reading of the single-buffer fallback: in Main mode,
    when the registration chose no main buffer and exactly one buffer came
    from the memory inputs and the file inputs together, that buffer is the
    main buffer after [setup]. *)
Definition singleInputBufferIsMain (host : Host) (Invok : CompilerInvocation)
  : Prop :=
  InputKind Invok = Main ->
  forall s1 s,
    registerInputs host Invok (newCompilerInstance Invok) = Val false s1 ->
    setup host Invok (newCompilerInstance Invok) = Val false s ->
    MainBufferID s1 = NO_SUCH_BUFFER ->
    (length (InputBuffers Invok) + length (openedFiles (Calls s)) = 1)%nat ->
    MainBufferID s ∈ BufferIDs s.

(** The specification's reading of a path given twice: the two file inputs
    share one buffer. *)
Definition samePathSharesOneBuffer (host : Host) (Invok : CompilerInvocation)
  : Prop :=
  forall File s,
    CodeCompletionPoint Invok = None -> InputBuffers Invok = [] ->
    InputFilenames Invok = [File; File] ->
    setup host Invok (newCompilerInstance Invok) = Val false s ->
    exists BufferID, BufferIDs s = [BufferID].

(** ** Vocabulary of the further properties *)

(** A selected buffer is either not designated or one of the registered
    buffers. *)
Definition designatedOK (BufferID : N) (s : CompilerInstance) : Prop :=
  BufferID = NO_SUCH_BUFFER \/
  BufferID < N.of_nat (length (Buffers (SourceMgr s))).

(** The registry only grew, and the code-completion point stayed. *)
Definition registryGrows (s s' : CompilerInstance) : Prop :=
  CodeCompletionLoc (SourceMgr s') = CodeCompletionLoc (SourceMgr s) /\
  exists more, Buffers (SourceMgr s') = Buffers (SourceMgr s) ++ more.

(** An invocation with everything switched on, for examples. *)
Definition fullInvocation : CompilerInvocation :=
  {| LangTargetConfigOptions := <["feature" := "on"]> ∅;
     LLVMArgs := ["-debug"]; IRGenTriple := macosx_x86_64;
     EnableSourceImport := true; actionIsImmediate := true;
     SDKPath := "/sdk"; ModuleName := "App";
     CodeCompletionPoint :=
       Some ({| getBufferIdentifier := "a.swift"; getBuffer := "pq" |}, 1%nat);
     InputKind := Main; PrimaryInput := Some {| Index := 1; Kind := Filename |};
     InputBuffers := [ {| getBufferIdentifier := "m.swift"; getBuffer := "k" |} ];
     InputFilenames := ["main.swift"; "a.swift"; "b.swift"];
     ParseOnly := false; ParseStdlib := false;
     DelayedFunctionBodyParsing := true |}.

(** The buffer a unit of the main module stands for. *)
Definition unitBuffer (F : FileUnit) : option N :=
  match F with
  | SourceFileUnit SF => getBufferID SF
  | SerializedASTFile BufferID => Some BufferID
  end.

(** The calls of the library loop over the buffers [ids], read off a trace:
    for each buffer in turn either one [LoadAST], or one
    [ParseIntoSourceFile] that reports [Done], followed at once by the name
    binding of that buffer. *)
Fixpoint libraryTrace (ids : list N) (evs : list Event) : Prop :=
  match ids with
  | [] => evs = []
  | BufferID :: rest =>
      match evs with
      | LoadAST BufferID' _ :: evs' =>
          BufferID' = BufferID /\ libraryTrace rest evs'
      | ParseIntoSourceFile BufferID' _ Done
          :: PerformNameBinding BufferID'' :: evs' =>
          BufferID' = BufferID /\ BufferID'' = BufferID /\ Done = true /\
          libraryTrace rest evs'
      | _ => False
      end
  end.

(** The buffers other than the main one, in the order of [BufferIDs]. *)
Definition libraryBuffers (s : CompilerInstance) : list N :=
  filter (fun BufferID => BufferID <> MainBufferID s) (BufferIDs s).

(** What a pump of the buffer [main] answered for [Done]. *)
Definition pumpDone (main : N) (e : Event) : option bool :=
  match e with
  | ParseIntoSourceFile BufferID _ Done =>
      if BufferID =? main then Some Done else None
  | _ => None
  end.

(** The parser takes a library file in one call. *)
Definition libraryParsedAtOnce (host : Host) : Prop :=
  forall SM BufferID PS DelayedCB,
    (parseIntoSourceFile host SM Library BufferID false PS DelayedCB).1.2 = true.

(** The units of the main module, by the buffers they stand for. *)
Definition sameUnits (s s' : CompilerInstance) : Prop :=
  forall Mod, MainModule s = Some Mod ->
  exists Mod', MainModule s' = Some Mod' /\ getName Mod' = getName Mod /\
               unitBuffer <$> getFiles Mod' = unitBuffer <$> getFiles Mod.

(** The buffer is one that the library loop parses as source: it is not the
    main buffer, it is registered, and it is not a serialized module. *)
Definition parsedAsLibrary (host : Host) (s : CompilerInstance) (BufferID : N)
  : bool :=
  negb (BufferID =? MainBufferID s) &&
  match getMemoryBuffer (SourceMgr s) BufferID with
  | Some Buf => negb (isSerializedAST host (getBuffer Buf))
  | None => false
  end.

(** The primary buffer is parsed as source, as the main file or as a library
    file. *)
Definition primaryIsParsed (host : Host) (s : CompilerInstance) : bool :=
  (negb (MainBufferID s =? NO_SUCH_BUFFER)
   && (MainBufferID s =? PrimaryBufferID s))
  || existsb (fun BufferID => (BufferID =? PrimaryBufferID s)
                              && parsedAsLibrary host s BufferID)
             (BufferIDs s).

(** ** Tactics for driver code *)

Ltac munfold :=
  unfold mbind, M_bind, mret, M_ret, when, assert, call, diagnose,
    addModuleLoader, pushBufferID, setTargetConfigOption, registerBuffer,
    addNewSourceBuffer, bind, ret, gets, modify, abort, outOfFuel in *.

Ltac msimpl := munfold; cbn [final] in *.

#[local] Arguments String.eqb : simpl never.
#[local] Arguments N.eqb : simpl never.
#[local] Arguments Nat.eqb : simpl never.
#[local] Arguments Nat.leb : simpl never.
#[local] Arguments Nat.ltb : simpl never.
#[local] Arguments chunkCheckCondition : simpl never.

(** * Properties *)

Lemma sameContext_refl s : sameContext s s.
Proof. by unfold sameContext. Qed.

Lemma sameContext_trans s1 s2 s3 :
  sameContext s1 s2 -> sameContext s2 s3 -> sameContext s1 s3.
Proof. unfold sameContext. intros (-> & -> & ->) (-> & -> & ->). done. Qed.

Section SetupFacts.
Context (host : Host).

Lemma setTargetConfigurations_known_os s :
  isMacOSX (IRGenTriple (Invocation s)) || isiOS (IRGenTriple (Invocation s)) = true ->
  exists opts, setTargetConfigurations s = Val tt (set_TargetConfigOptions opts s).
Proof.
  intros Hos. unfold setTargetConfigurations. msimpl.
  destruct (isMacOSX _); [|destruct (isiOS _); [|done]];
    destruct (getArch _) as [| | |name]; cbn;
    try destruct (String.eqb "arm64" name); cbn;
    unfold set_TargetConfigOptions; cbn; eexists; reflexivity.
Qed.

Lemma setTargetConfigurations_unknown_os s :
  isMacOSX (IRGenTriple (Invocation s)) || isiOS (IRGenTriple (Invocation s)) = false ->
  setTargetConfigurations s = AssertFail "Unsupported target OS" s.
Proof.
  intros Hos. unfold setTargetConfigurations. msimpl.
  destruct (isMacOSX _); [done|]. destruct (isiOS _); [done|]. done.
Qed.

(** An architecture outside the table, other than arm64, leaves "arch"
    alone and does not stop [setTargetConfigurations]. *)
Lemma setTargetConfigurations_unknown_arch s name :
  isMacOSX (IRGenTriple (Invocation s)) || isiOS (IRGenTriple (Invocation s)) = true ->
  getArch (IRGenTriple (Invocation s)) = OtherArch name ->
  name <> "arm64" ->
  exists s', setTargetConfigurations s = Val tt s' /\
    TargetConfigOptions s' !! "arch" = TargetConfigOptions s !! "arch".
Proof.
  intros Hos Harch Hname. unfold setTargetConfigurations. msimpl.
  rewrite Harch. cbn.
  assert (String.eqb "arm64" name = false) as ->.
  { apply String.eqb_neq. congruence. }
  destruct (isMacOSX _); [|destruct (isiOS _); [|done]];
    eexists; (split; [reflexivity|]); cbn; by rewrite lookup_insert_ne.
Qed.

Lemma addCodeCompletionBuffer_sameContext s :
  exists s', addCodeCompletionBuffer s = Val tt s' /\ sameContext s s'.
Proof.
  unfold addCodeCompletionBuffer. msimpl.
  destruct (CodeCompletionPoint _) as [[MemBuf Offset]|]; eexists; split;
    try reflexivity; by unfold sameContext.
Qed.

Lemma addInputBuffers_sameContext bufs : forall i s,
  exists s', addInputBuffers i bufs s = Val tt s' /\ sameContext s s'.
Proof.
  induction bufs as [|Buf rest IH]; intros i s; cbn [addInputBuffers].
  - eexists; split; [reflexivity|apply sameContext_refl].
  - msimpl.
    destruct (SILMode _), (primaryIsBuffer _ _); cbn;
      (match goal with |- context [addInputBuffers (S i) rest ?t] =>
         destruct (IH (S i) t) as (s' & -> & Hs') end);
      exists s'; (split; [done|]);
      (eapply sameContext_trans; [|exact Hs']); by unfold sameContext.
Qed.

Lemma selectFromFilename_sameContext i File BufferID s :
  exists s', selectFromFilename i File BufferID s = Val tt s' /\ sameContext s s'.
Proof.
  unfold selectFromFilename. msimpl.
  destruct (fileIsMain _ _); cbn; destruct (primaryIsFilename _ _); cbn;
    eexists; (split; [reflexivity|]); by unfold sameContext.
Qed.

Lemma addInputFilename_sameContext i File s :
  exists failed s', addInputFilename host i File s = Val failed s' /\ sameContext s s'.
Proof.
  unfold addInputFilename. msimpl.
  destruct (getIDForBufferIdentifier _ _) as [Existing|].
  - destruct (selectFromFilename_sameContext i File Existing s) as (s' & -> & Hs').
    eauto.
  - destruct (getFileOrSTDIN host File) as [message|InputFile].
    + do 2 eexists; split; [reflexivity|]. by unfold sameContext.
    + cbn.
      match goal with |- context [selectFromFilename i File ?b ?t] =>
        destruct (selectFromFilename_sameContext i File b t) as (s' & -> & Hs') end.
      do 2 eexists; split; [reflexivity|].
      eapply sameContext_trans; [|exact Hs']. by unfold sameContext.
Qed.

Lemma addInputFilenames_sameContext files : forall i s,
  exists failed s', addInputFilenames host i files s = Val failed s' /\ sameContext s s'.
Proof.
  induction files as [|File rest IH]; intros i s; cbn [addInputFilenames].
  - do 2 eexists; split; [reflexivity|apply sameContext_refl].
  - msimpl.
    destruct (addInputFilename_sameContext i File s) as (failed & s1 & -> & H1).
    destruct failed; [eauto|].
    destruct (IH (S i) s1) as (failed & s2 & -> & H2).
    do 2 eexists; split; [reflexivity|]. by eapply sameContext_trans.
Qed.

Lemma implicitMainBuffer_sameContext s :
  exists s', implicitMainBuffer s = Val tt s' /\ sameContext s s'.
Proof.
  unfold implicitMainBuffer. msimpl. unfold id.
  destruct (BufferIDs s) as [|front [|]];
    try (eexists; split; [reflexivity|apply sameContext_refl]).
  destruct (MainMode _ && _); eexists; (split; [reflexivity|]);
    by unfold sameContext.
Qed.

End SetupFacts.

Lemma extends_refl P s : extends P s s.
Proof. exists []. by rewrite app_nil_r. Qed.

Lemma extends_trans P s1 s2 s3 :
  extends P s1 s2 -> extends P s2 s3 -> extends P s1 s3.
Proof.
  intros (e1 & H1 & F1) (e2 & H2 & F2). exists (e1 ++ e2).
  rewrite H2, H1, app_assoc. split; [done|]. by apply Forall_app.
Qed.

Lemma extends_same P s s' : Calls s' = Calls s -> extends P s s'.
Proof. intros H. exists []. by rewrite app_nil_r. Qed.

Lemma extends_one P s s' e : Calls s' = Calls s ++ [e] -> P e -> extends P s s'.
Proof. intros H He. exists [e]. split; [done|]. by constructor. Qed.

Lemma extends_weaken (P Q : Event -> Prop) s s' :
  (forall e, P e -> Q e) -> extends P s s' -> extends Q s s'.
Proof.
  intros HPQ (evs & H & F). exists evs. split; [done|].
  eapply Forall_impl; eauto.
Qed.

Section LoaderChain.
Context (host : Host).

Lemma admitBuffers_sameContext Invok s :
  sameContext s (final (admitBuffers host Invok s)).
Proof.
  unfold admitBuffers.
  msimpl. destruct (isIdentifier _ _); cbn; [|apply sameContext_refl].
  destruct (addCodeCompletionBuffer_sameContext s) as (s1 & -> & H1).
  destruct (addInputBuffers_sameContext (InputBuffers Invok) 0%nat s1) as (s2 & -> & H2).
  destruct (addInputFilenames_sameContext host (InputFilenames Invok) 0%nat s2)
    as (failed & s3 & -> & H3).
  cbn. eauto using sameContext_trans.
Qed.

Lemma configureContext_spec Invok s0 :
  isMacOSX (IRGenTriple Invok) || isiOS (IRGenTriple Invok) = true ->
  exists failed s1,
    configureContext host Invok s0 = Val failed s1 /\
    Invocation s1 = Invok /\
    SerializedModuleLoader ∈ ModuleLoaders s1 /\
    SourceMgr s1 = SourceMgr s0 /\ BufferIDs s1 = BufferIDs s0 /\
    MainBufferID s1 = MainBufferID s0 /\
    PrimaryBufferID s1 = PrimaryBufferID s0 /\
    extends (fun e => ~ isOpenInputFile e) s0 s1 /\
    match getClangImporterCtor host with
    | Some ImporterCtor =>
        if ImporterCtor Invok then
          failed = false /\ Diagnostics s1 = Diagnostics s0 /\
          ClangImporter ∈ ModuleLoaders s1
        else
          failed = true /\
          Diagnostics s1 = Diagnostics s0 ++ [error_clang_importer_create_fail]
    | None =>
        if String.eqb (SDKPath Invok) EmptyString then
          failed = false /\ Diagnostics s1 = Diagnostics s0
        else
          failed = true /\
          Diagnostics s1 =
            Diagnostics s0 ++ [error_clang_importer_not_linked_in]
    end.
Proof.
  intros Hos. unfold configureContext. msimpl.
  assert (forall t, Invocation t = Invok ->
            exists opts, setTargetConfigurations t
                         = Val tt (set_TargetConfigOptions opts t)) as Htc.
  { intros t Ht. apply setTargetConfigurations_known_os. by rewrite Ht. }
  assert (forall t : CompilerInstance,
            Calls t = Calls s0 \/
            (exists Args, Calls t = Calls s0 ++ [ParseCommandLineOptions Args]) ->
            extends (fun e => ~ isOpenInputFile e) s0 t) as Hext.
  { intros t [Ht|[Args Ht]]; [by apply extends_same|].
    eapply extends_one; [exact Ht|]. cbn. tauto. }
  unfold wireClangImporter. msimpl.
  destruct (bool_decide (LLVMArgs Invok = [])); cbn;
    (match goal with |- context [setTargetConfigurations ?t] =>
       destruct (Htc t eq_refl) as [opts ->] end);
    cbn; destruct (EnableSourceImport Invok); cbn;
    destruct (getClangImporterCtor host) as [ImporterCtor|]; cbn;
    try destruct (ImporterCtor Invok); try destruct (String.eqb (SDKPath Invok) EmptyString);
    cbn; do 2 eexists; (split; [reflexivity|]); cbn;
    repeat split; try (apply Hext; cbn; eauto); set_solver.
Qed.

End LoaderChain.

Lemma setup_after_configureContext host Invok s0 s1 :
  configureContext host Invok s0 = Val false s1 ->
  sameContext s1 (final (setup host Invok s0)).
Proof.
  intros Heq. unfold setup, registerInputs. msimpl. rewrite Heq.
  pose proof (admitBuffers_sameContext host Invok s1) as Hadm.
  destruct (admitBuffers host Invok s1) as [[|] s2|msg s2|s2]; cbn in *; try done.
  destruct (implicitMainBuffer_sameContext s2) as (s3 & -> & H3). cbn.
  by eapply sameContext_trans.
Qed.

Lemma setup_stops_at_configureContext host Invok s0 s1 :
  configureContext host Invok s0 = Val true s1 ->
  setup host Invok s0 = Val true s1.
Proof. intros Heq. unfold setup, registerInputs. msimpl. by rewrite Heq. Qed.

(** C8 -- loader-chain construction in [setup] (lines 97-123), for a target
    whose OS [setTargetConfigurations] accepts: the serialized-module loader
    is among the loaders of the instance however [setup] ends; when the
    Clang importer is not linked in and an SDK path is configured, [setup]
    returns [true] with [error_clang_importer_not_linked_in] as its only new
    diagnostic, before any buffer is admitted or any input file opened; when
    the importer's constructor is there and returns null, [setup] returns
    [true] in the same way with [error_clang_importer_create_fail]. *)
Theorem setup_loader_chain (host : Host) (Invok : CompilerInvocation)
  (s0 : CompilerInstance) :
  isMacOSX (IRGenTriple Invok) || isiOS (IRGenTriple Invok) = true ->
  let r := setup host Invok s0 in
  SerializedModuleLoader ∈ ModuleLoaders (final r) /\
  (getClangImporterCtor host = None -> SDKPath Invok <> EmptyString ->
     r = Val true (final r) /\
     Diagnostics (final r)
       = Diagnostics s0 ++ [error_clang_importer_not_linked_in] /\
     BufferIDs (final r) = BufferIDs s0 /\
     SourceMgr (final r) = SourceMgr s0 /\
     extends (fun e => ~ isOpenInputFile e) s0 (final r)) /\
  (forall ImporterCtor,
     getClangImporterCtor host = Some ImporterCtor ->
     ImporterCtor Invok = false ->
     r = Val true (final r) /\
     Diagnostics (final r)
       = Diagnostics s0 ++ [error_clang_importer_create_fail] /\
     BufferIDs (final r) = BufferIDs s0 /\
     SourceMgr (final r) = SourceMgr s0 /\
     extends (fun e => ~ isOpenInputFile e) s0 (final r)).
Proof.
  intros Hos r.
  destruct (configureContext_spec host Invok s0 Hos)
    as (failed & s1 & Heq & HI & HS & HSM & HB & HM & HP & Hext & Hcase).
  destruct failed.
  - pose proof (setup_stops_at_configureContext _ _ _ _ Heq) as Hr.
    subst r. rewrite Hr. cbn. split; [done|]. split.
    + intros Hnone Hsdk. rewrite Hnone in Hcase.
      destruct (String.eqb_spec (SDKPath Invok) EmptyString); [done|].
      destruct Hcase as [_ ->]. done.
    + intros ImporterCtor Hsome Hnull. rewrite Hsome, Hnull in Hcase.
      destruct Hcase as [_ ->]. done.
  - pose proof (setup_after_configureContext _ _ _ _ Heq) as (_ & HL & _).
    subst r. split; [by rewrite HL|]. split.
    + intros Hnone Hsdk. rewrite Hnone in Hcase.
      destruct (String.eqb_spec (SDKPath Invok) EmptyString); [done|].
      by destruct Hcase.
    + intros ImporterCtor Hsome Hnull. rewrite Hsome, Hnull in Hcase.
      by destruct Hcase.
Qed.

Lemma setup_loader_chain_witness :
  let Invok :=
    withSDKPath "/sdk"
      (exampleInvocation Main macosx_x86_64 [] ["a.swift"] None false) in
  let notLinked :=
    setup (exampleHost None) Invok (newCompilerInstance Invok) in
  let nullImporter :=
    setup (exampleHost (Some (fun _ => false))) Invok
          (newCompilerInstance Invok) in
  SerializedModuleLoader ∈ ModuleLoaders (final notLinked) /\
  notLinked = Val true (final notLinked) /\
  Diagnostics (final notLinked) = [error_clang_importer_not_linked_in] /\
  Calls (final notLinked) = [] /\
  nullImporter = Val true (final nullImporter) /\
  Diagnostics (final nullImporter) = [error_clang_importer_create_fail].
Proof.
  intros Invok notLinked nullImporter.
  destruct (setup_loader_chain (exampleHost None) Invok
              (newCompilerInstance Invok) eq_refl) as (HS & Hnone & _).
  destruct (Hnone eq_refl ltac:(discriminate)) as (Hr & HD & _).
  destruct (setup_loader_chain (exampleHost (Some (fun _ => false))) Invok
              (newCompilerInstance Invok) eq_refl) as (_ & _ & Hnull).
  destruct (Hnull _ eq_refl eq_refl) as (Hr' & HD' & _).
  split; [exact HS|]. split; [exact Hr|]. split; [exact HD|].
  split; [reflexivity|]. split; [exact Hr'|exact HD'].
Defined.

(** C7 -- a target whose OS is recognized and whose architecture is outside
    the table (here "powerpc" on Mac OS X): [setup] returns [false], that
    is, succeeds, with "os" set and "arch" left unset.  The
    [llvm_unreachable] of line 71 sits behind an unconditional [break]. *)
Theorem setup_unsupported_arch_goes_on :
  let Invok :=
    exampleInvocation Main
      {| isMacOSX := true; isiOS := false; getArch := OtherArch "powerpc" |}
      [] ["a.swift"] None false in
  exists s,
    setup (exampleHost (Some (fun _ => true))) Invok (newCompilerInstance Invok)
      = Val false s /\
    TargetConfigOptions s !! "os" = Some "OSX" /\
    TargetConfigOptions s !! "arch" = None /\
    MainBufferID s = 0.
Proof. vm_compute. eexists. repeat split. Qed.

(** ** Memory inputs *)

Lemma addInputBuffers_spec bufs : forall i s,
  exists s',
    addInputBuffers i bufs s = Val tt s' /\
    Invocation s' = Invocation s /\
    Calls s' = Calls s /\
    Buffers (SourceMgr s') = Buffers (SourceMgr s) ++ bufs /\
    BufferIDs s' =
      BufferIDs s ++ (N.of_nat <$> seq (length (Buffers (SourceMgr s))) (length bufs)) /\
    MainBufferID s' =
      (if SILMode (Invocation s) then
         match length bufs with
         | O => MainBufferID s
         | S k => N.of_nat (length (Buffers (SourceMgr s)) + k)
         end
       else MainBufferID s) /\
    PrimaryBufferID s' =
      match PrimaryInput (Invocation s) with
      | Some sel =>
          if isBuffer sel && Nat.leb i (Index sel)
             && Nat.ltb (Index sel) (i + length bufs)
          then N.of_nat (length (Buffers (SourceMgr s)) + (Index sel - i))
          else PrimaryBufferID s
      | None => PrimaryBufferID s
      end.
Proof.
  induction bufs as [|Buf rest IH]; intros i s; cbn [addInputBuffers].
  - eexists. split; [reflexivity|]. cbn [length seq fmap list_fmap].
    rewrite !app_nil_r. repeat split; try done.
    + by destruct (SILMode _).
    + destruct (PrimaryInput _) as [sel|]; [|done].
      destruct (isBuffer sel), (Nat.leb_spec i (Index sel)),
        (Nat.ltb_spec (Index sel) (i + 0)); cbn; try done; lia.
  - msimpl. unfold primaryIsBuffer.
    set (n := length (Buffers (SourceMgr s))) in *.
    destruct (SILMode (Invocation s)) eqn:Hsil;
      destruct (PrimaryInput (Invocation s)) as [sel|] eqn:Hsel;
      try destruct (isBuffer sel) eqn:Hbuf;
      try destruct (Nat.eqb_spec (Index sel) i) as [Hi|Hi];
      cbn;
      (match goal with |- context [addInputBuffers (S i) rest ?t] =>
         destruct (IH (S i) t) as (s' & -> & HI & HC & HB & HIDs & HM & HP) end);
      cbn [Invocation SourceMgr Calls BufferIDs MainBufferID PrimaryBufferID
           Buffers set_SourceMgr set_BufferIDs set_MainBufferID
           set_PrimaryBufferID] in HI, HC, HB, HIDs, HM, HP;
      rewrite ?Hsil in HM; rewrite ?Hsel, ?Hbuf in HP;
      rewrite ?length_app in HIDs; rewrite ?length_app in HM;
      rewrite ?length_app in HP; cbn [length] in HIDs, HM, HP;
      fold n in HIDs, HM, HP;
      exists s'; (split; [reflexivity|]);
      (split; [exact HI|]); (split; [exact HC|]);
      (split; [by rewrite HB, <- app_assoc|]);
      (split; [by rewrite HIDs, <- app_assoc, Nat.add_1_r|]);
      (split; [rewrite HM; destruct (length rest); try done; f_equal; lia|]);
      rewrite HP; cbn [andb]; try done;
      destruct (Nat.leb_spec (S i) (Index sel)), (Nat.leb_spec i (Index sel)),
               (Nat.ltb_spec (Index sel) (S i + length rest)),
               (Nat.ltb_spec (Index sel) (i + S (length rest)));
      cbn [andb]; try done; try lia; try (f_equal; lia).
Qed.

(** C6, as amended -- the loop of lines 145-156, run as [setup] runs it:
    the memory inputs are added to the registry and to [BufferIDs] in input
    order, with consecutive ids; in SIL mode each input becomes the main
    buffer in turn, so the last one is the main buffer after the loop; in
    every other mode, Main included, the loop leaves [MainBufferID] as it
    was; whatever the mode, the input whose index is that of a buffer
    selector becomes the primary buffer, and without such a selector
    [PrimaryBufferID] is left as it was. *)
Theorem addInputBuffers_registers_in_order (s : CompilerInstance) :
  let Invok := Invocation s in
  let n := length (Buffers (SourceMgr s)) in
  exists s',
    addInputBuffers 0 (InputBuffers Invok) s = Val tt s' /\
    Buffers (SourceMgr s') = Buffers (SourceMgr s) ++ InputBuffers Invok /\
    BufferIDs s' =
      BufferIDs s ++ (N.of_nat <$> seq n (length (InputBuffers Invok))) /\
    (InputKind Invok = SIL ->
     forall k, length (InputBuffers Invok) = S k ->
     MainBufferID s' = N.of_nat (n + k)) /\
    (InputKind Invok <> SIL -> MainBufferID s' = MainBufferID s) /\
    (forall sel, PrimaryInput Invok = Some sel -> isBuffer sel = true ->
       (Index sel < length (InputBuffers Invok))%nat ->
       PrimaryBufferID s' = N.of_nat (n + Index sel)) /\
    ((forall sel, PrimaryInput Invok = Some sel ->
        isBuffer sel = false \/ (length (InputBuffers Invok) <= Index sel)%nat) ->
     PrimaryBufferID s' = PrimaryBufferID s).
Proof.
  intros Invok n.
  destruct (addInputBuffers_spec (InputBuffers Invok) 0%nat s)
    as (s' & Heq & _ & _ & HB & HIDs & HM & HP).
  fold Invok in HM, HP. fold n in HIDs, HM, HP.
  exists s'. repeat (split; [done|]). split; [|split; [|split]].
  - intros Hsil k Hk. rewrite HM, Hk. unfold SILMode.
    by rewrite bool_decide_eq_true_2.
  - intros Hsil. rewrite HM. unfold SILMode.
    by rewrite bool_decide_eq_false_2.
  - intros sel Hsel Hbuf Hlt. rewrite HP, Hsel, Hbuf.
    destruct (Nat.leb_spec 0 (Index sel)); [|lia].
    destruct (Nat.ltb_spec (Index sel) (0 + length (InputBuffers Invok))); [|lia].
    cbn. f_equal. lia.
  - intros Hnone. rewrite HP.
    destruct (PrimaryInput Invok) as [sel|]; [|done].
    destruct (Hnone sel eq_refl) as [->|Hge]; [done|].
    destruct (Nat.ltb_spec (Index sel) (0 + length (InputBuffers Invok))); [lia|].
    by rewrite andb_false_r.
Qed.

Lemma addInputBuffers_registers_in_order_witness :
  let Invok := twoMemoryInputs SIL (Some {| Index := 0; Kind := Buffer |}) in
  exists s',
    addInputBuffers 0 (InputBuffers Invok) (newCompilerInstance Invok) = Val tt s' /\
    BufferIDs s' = [0; 1] /\ MainBufferID s' = 1 /\ PrimaryBufferID s' = 0.
Proof.
  intros Invok.
  destruct (addInputBuffers_registers_in_order (newCompilerInstance Invok))
    as (s' & Heq & _ & HIDs & HM & _ & HP & _).
  exists s'. split; [exact Heq|]. split; [exact HIDs|]. split.
  - exact (HM eq_refl 1%nat eq_refl).
  - exact (HP _ eq_refl eq_refl ltac:(cbn; lia)).
Defined.

(** C6, as the specification words it, fails in Main mode: two memory
    inputs, one of them called main.swift, and the loop records neither as
    the main buffer. *)
Lemma memoryInputRecordedAsMain_fails_in_Main_mode :
  ~ memoryInputRecordedAsMain (twoMemoryInputs Main None) /\
  exists s,
    setup (exampleHost None) (twoMemoryInputs Main None)
          (newCompilerInstance (twoMemoryInputs Main None)) = Val false s /\
    BufferIDs s = [0; 1] /\ MainBufferID s = NO_SUCH_BUFFER.
Proof.
  split.
  - intros H.
    specialize (H (or_introl eq_refl) ltac:(discriminate) _ eq_refl).
    apply list_elem_of_In in H. vm_compute in H. intuition discriminate.
  - vm_compute. eexists. repeat split.
Qed.

(** ** The invocation after the registration *)

Lemma registerInputs_Invocation host Invok s0 failed s1 :
  registerInputs host Invok s0 = Val failed s1 -> Invocation s1 = Invok.
Proof.
  unfold registerInputs. msimpl. intros Heq.
  destruct (isMacOSX (IRGenTriple Invok) || isiOS (IRGenTriple Invok)) eqn:Hos.
  - destruct (configureContext_spec host Invok s0 Hos)
      as (failed' & s' & Hc & HI & _).
    rewrite Hc in Heq. destruct failed'; [congruence|].
    pose proof (admitBuffers_sameContext host Invok s') as (HI' & _).
    rewrite Heq in HI'. cbn in HI'. congruence.
  - exfalso. revert Heq. unfold configureContext. msimpl.
    destruct (bool_decide (LLVMArgs Invok = [])); cbn;
      by rewrite setTargetConfigurations_unknown_os.
Qed.

(** ** File inputs and the registry *)

Lemma findIdentifier_Some bufs : forall i name j,
  findIdentifier bufs i name = Some j ->
  exists k b, j = i + N.of_nat k /\ bufs !! k = Some b /\
              getBufferIdentifier b = name.
Proof.
  induction bufs as [|b rest IH]; intros i name j; cbn; [done|].
  destruct (findIdentifier rest (N.succ i) name) as [j'|] eqn:Hrest.
  - intros [= <-]. destruct (IH _ _ _ Hrest) as (k & b' & -> & Hk & Hb').
    exists (S k), b'. repeat split; [lia|done..].
  - destruct (String.eqb_spec (getBufferIdentifier b) name) as [Hb|Hb]; [|done].
    intros [= <-]. exists 0%nat, b. repeat split; [lia|done..].
Qed.

Lemma findIdentifier_None bufs : forall i name,
  findIdentifier bufs i name = None <->
  Forall (fun b => getBufferIdentifier b <> name) bufs.
Proof.
  induction bufs as [|b rest IH]; intros i name; cbn.
  - split; [constructor|done].
  - rewrite Forall_cons. specialize (IH (N.succ i) name).
    destruct (findIdentifier rest (N.succ i) name) as [j'|].
    + split; [done|]. intros [_ H]. by apply IH in H.
    + destruct (String.eqb_spec (getBufferIdentifier b) name) as [Hb|Hb].
      * split; [done|]. by intros [? _].
      * split; [|done]. intros _. split; [done|]. by apply IH.
Qed.

(** An id the registry answers with is the id of a registered buffer that
    carries the identifier asked for. *)
Lemma getIDForBufferIdentifier_Some SM name BufferID :
  getIDForBufferIdentifier SM name = Some BufferID ->
  exists Buf, getMemoryBuffer SM BufferID = Some Buf /\
              getBufferIdentifier Buf = name /\
              (BufferID < N.of_nat (length (Buffers SM))).
Proof.
  unfold getIDForBufferIdentifier, getMemoryBuffer. intros H.
  destruct (findIdentifier_Some _ _ _ _ H) as (k & b & -> & Hk & Hb).
  exists b. rewrite N.add_0_l, Nat2N.id. repeat split; [done..|].
  apply lookup_lt_Some in Hk. lia.
Qed.

(** A registered identifier is found. *)
Lemma getIDForBufferIdentifier_registered SM Buf :
  Buf ∈ Buffers SM ->
  is_Some (getIDForBufferIdentifier SM (getBufferIdentifier Buf)).
Proof.
  intros Hin. unfold getIDForBufferIdentifier.
  destruct (findIdentifier _ _ _) eqn:H; [by eexists|].
  apply findIdentifier_None in H. rewrite Forall_forall in H.
  by destruct (H Buf Hin).
Qed.

Section FileInputs.
Context (host : Host).

Lemma selectFromFilename_spec i File BufferID s :
  selectFromFilename i File BufferID s =
  Val tt (set_PrimaryBufferID
            (if primaryIsFilename (Invocation s) i then BufferID
             else PrimaryBufferID s)
            (set_MainBufferID
               (if fileIsMain (Invocation s) File then BufferID
                else MainBufferID s) s)).
Proof.
  unfold selectFromFilename. msimpl.
  destruct (fileIsMain _ _), (primaryIsFilename _ _); cbn; by destruct s.
Qed.

(** One iteration of the file loop, in full. *)
Lemma addInputFilename_spec i File s :
  exists failed s',
    addInputFilename host i File s = Val failed s' /\
    Invocation s' = Invocation s /\
    match getIDForBufferIdentifier (SourceMgr s) File with
    | Some Existing =>
        failed = false /\
        SourceMgr s' = SourceMgr s /\ BufferIDs s' = BufferIDs s /\
        Calls s' = Calls s /\ Diagnostics s' = Diagnostics s /\
        MainBufferID s' =
          (if fileIsMain (Invocation s) File then Existing else MainBufferID s) /\
        PrimaryBufferID s' =
          (if primaryIsFilename (Invocation s) i then Existing
           else PrimaryBufferID s)
    | None =>
        Calls s' = Calls s ++ [OpenInputFile File] /\
        match getFileOrSTDIN host File with
        | inl message =>
            failed = true /\
            SourceMgr s' = SourceMgr s /\ BufferIDs s' = BufferIDs s /\
            Diagnostics s' =
              Diagnostics s ++ [error_open_input_file File message] /\
            MainBufferID s' = MainBufferID s /\
            PrimaryBufferID s' = PrimaryBufferID s
        | inr InputFile =>
            failed = false /\
            Buffers (SourceMgr s') = Buffers (SourceMgr s) ++ [InputFile] /\
            BufferIDs s' =
              BufferIDs s ++ [N.of_nat (length (Buffers (SourceMgr s)))] /\
            Diagnostics s' = Diagnostics s /\
            MainBufferID s' =
              (if fileIsMain (Invocation s) File
               then N.of_nat (length (Buffers (SourceMgr s)))
               else MainBufferID s) /\
            PrimaryBufferID s' =
              (if primaryIsFilename (Invocation s) i
               then N.of_nat (length (Buffers (SourceMgr s)))
               else PrimaryBufferID s)
        end
    end.
Proof.
  unfold addInputFilename. msimpl.
  destruct (getIDForBufferIdentifier (SourceMgr s) File) as [Existing|].
  - rewrite selectFromFilename_spec. do 2 eexists.
    split; [reflexivity|]. cbn. done.
  - cbn. destruct (getFileOrSTDIN host File) as [message|InputFile]; cbn.
    + do 2 eexists. split; [reflexivity|]. cbn. done.
    + rewrite selectFromFilename_spec. do 2 eexists.
      split; [reflexivity|]. cbn. done.
Qed.

End FileInputs.

Lemma registered_mono name s s' more :
  Buffers (SourceMgr s') = Buffers (SourceMgr s) ++ more ->
  registered name s -> registered name s'.
Proof.
  intros HB (Buf & Hin & Hname). exists Buf. split; [|done].
  rewrite HB. set_solver.
Qed.

Lemma registered_found name s :
  registered name s -> is_Some (getIDForBufferIdentifier (SourceMgr s) name).
Proof.
  intros (Buf & Hin & <-). by apply getIDForBufferIdentifier_registered.
Qed.

Lemma found_registered name s BufferID :
  getIDForBufferIdentifier (SourceMgr s) name = Some BufferID ->
  registered name s.
Proof.
  intros H. apply getIDForBufferIdentifier_Some in H as (Buf & Hb & Hn & _).
  exists Buf. split; [|done]. unfold getMemoryBuffer in Hb.
  by eapply list_elem_of_lookup_2.
Qed.

Lemma addCodeCompletionBuffer_spec s :
  exists s' more,
    addCodeCompletionBuffer s = Val tt s' /\
    Invocation s' = Invocation s /\ Calls s' = Calls s /\
    MainBufferID s' = MainBufferID s /\
    PrimaryBufferID s' = PrimaryBufferID s /\
    Buffers (SourceMgr s') = Buffers (SourceMgr s) ++ more /\
    BufferIDs s' =
      BufferIDs s ++ (N.of_nat <$> seq (length (Buffers (SourceMgr s))) (length more)).
Proof.
  unfold addCodeCompletionBuffer. msimpl.
  destruct (CodeCompletionPoint _) as [[MemBuf Offset]|].
  - exists (set_SourceMgr
              (setCodeCompletionPoint
                 {| Buffers := Buffers (SourceMgr s) ++ [MemBuf];
                    CodeCompletionLoc := CodeCompletionLoc (SourceMgr s);
                    HashbangBufferID := HashbangBufferID (SourceMgr s) |}
                 (N.of_nat (length (Buffers (SourceMgr s)))) Offset)
              (set_BufferIDs (BufferIDs s ++ [N.of_nat (length (Buffers (SourceMgr s)))])
                 (set_SourceMgr
                    {| Buffers := Buffers (SourceMgr s) ++ [MemBuf];
                       CodeCompletionLoc := CodeCompletionLoc (SourceMgr s);
                       HashbangBufferID := HashbangBufferID (SourceMgr s) |} s))),
           [MemBuf].
    cbn. done.
  - exists s, []. cbn. by rewrite !app_nil_r.
Qed.

Section NeverReopened.
Context (host : Host).

Lemma addInputFilenames_not_opened name files : forall i s,
  registered name s ->
  extends (fun e => e <> OpenInputFile name) s
          (final (addInputFilenames host i files s)).
Proof.
  induction files as [|File rest IH]; intros i s Hreg; cbn [addInputFilenames].
  - apply extends_refl.
  - msimpl.
    destruct (addInputFilename_spec host i File s) as (failed & s' & -> & _ & Hcase).
    assert (extends (fun e => e <> OpenInputFile name) s s' /\ registered name s')
      as [Hext Hreg'].
    { destruct (getIDForBufferIdentifier (SourceMgr s) File) as [Existing|] eqn:Hfind.
      - destruct Hcase as (_ & HSM & _ & HC & _). split.
        + by apply extends_same.
        + destruct Hreg as (Buf & ? & ?). exists Buf. by rewrite HSM.
      - destruct Hcase as (HC & Hopen). split.
        + eapply extends_one; [exact HC|]. intros [= ->].
          apply registered_found in Hreg as [? Hreg]. congruence.
        + destruct (getFileOrSTDIN host File) as [message|InputFile].
          * destruct Hopen as (_ & HSM & _).
            destruct Hreg as (Buf & ? & ?). exists Buf. by rewrite HSM.
          * destruct Hopen as (_ & HB & _). by eapply registered_mono. }
    destruct failed; cbn; [done|].
    eapply extends_trans; [exact Hext|]. by apply IH.
Qed.

Lemma admitBuffers_not_opened Invok Buf s :
  Buf ∈ InputBuffers Invok ->
  extends (fun e => e <> OpenInputFile (getBufferIdentifier Buf)) s
          (final (admitBuffers host Invok s)).
Proof.
  intros Hin. unfold admitBuffers. msimpl.
  destruct (isIdentifier _ _); cbn; [|apply extends_refl].
  destruct (addCodeCompletionBuffer_spec s)
    as (s1 & more & -> & _ & HC1 & _ & _ & HB1 & _).
  destruct (addInputBuffers_spec (InputBuffers Invok) 0%nat s1)
    as (s2 & -> & _ & HC2 & HB2 & _).
  eapply extends_trans; [apply extends_same; exact HC1|].
  eapply extends_trans; [apply extends_same; exact HC2|].
  apply addInputFilenames_not_opened.
  exists Buf. split; [|done]. rewrite HB2. set_solver.
Qed.

Lemma configureContext_no_open Invok s :
  extends (fun e => ~ isOpenInputFile e) s
          (final (configureContext host Invok s)).
Proof.
  destruct (isMacOSX (IRGenTriple Invok) || isiOS (IRGenTriple Invok)) eqn:Hos.
  - destruct (configureContext_spec host Invok s Hos)
      as (failed & s1 & -> & _ & _ & _ & _ & _ & _ & Hext & _).
    exact Hext.
  - unfold configureContext. msimpl.
    destruct (bool_decide (LLVMArgs Invok = [])); cbn;
      rewrite setTargetConfigurations_unknown_os by done; cbn.
    + by apply extends_same.
    + eapply extends_one; [reflexivity|]. cbn. tauto.
Qed.

Lemma implicitMainBuffer_spec s :
  exists main,
    implicitMainBuffer s = Val tt (set_MainBufferID main s).
Proof.
  unfold implicitMainBuffer. msimpl. unfold id.
  destruct (BufferIDs s) as [|front [|]];
    try (exists (MainBufferID s); by destruct s).
  destruct (MainMode _ && _);
    [by eexists|exists (MainBufferID s); by destruct s].
Qed.

(** A file input that shares its identifier with a memory input is never
    opened by [setup]. *)
Lemma setup_not_opened Invok Buf s :
  Buf ∈ InputBuffers Invok ->
  extends (fun e => e <> OpenInputFile (getBufferIdentifier Buf)) s
          (final (setup host Invok s)).
Proof.
  intros Hin. unfold setup, registerInputs. msimpl.
  pose proof (configureContext_no_open Invok s) as Hcfg.
  eapply (extends_weaken _ (fun e => e <> OpenInputFile (getBufferIdentifier Buf)))
    in Hcfg; [|by intros ? He ->; apply He].
  destruct (configureContext host Invok s) as [[|] s1|msg s1|s1]; cbn in *; try done.
  pose proof (admitBuffers_not_opened Invok Buf s1 Hin) as Hadm.
  destruct (admitBuffers host Invok s1) as [[|] s2|msg s2|s2]; cbn in *;
    try (by eapply extends_trans).
  destruct (implicitMainBuffer_spec s2) as [main ->]. cbn.
  eapply extends_trans; [exact Hcfg|].
  eapply extends_trans; [exact Hadm|]. by apply extends_same.
Qed.

End NeverReopened.

Lemma openedFiles_app l l' : openedFiles (l ++ l') = openedFiles l ++ openedFiles l'.
Proof. apply omap_app. Qed.

Lemma openedFiles_none evs :
  Forall (fun e => ~ isOpenInputFile e) evs -> openedFiles evs = [].
Proof.
  induction 1 as [|e evs He _ IH]; [done|]. cbn.
  destruct e; cbn in *; try done; tauto.
Qed.

Lemma addInputFilename_keeps_registered host name i File s failed s' :
  addInputFilename host i File s = Val failed s' ->
  registered name s -> registered name s'.
Proof.
  intros Heq Hreg.
  destruct (addInputFilename_spec host i File s) as (failed' & s'' & Heq' & _ & Hcase).
  rewrite Heq in Heq'. injection Heq' as <- <-.
  destruct (getIDForBufferIdentifier (SourceMgr s) File) as [Existing|].
  - destruct Hcase as (_ & HSM & _).
    destruct Hreg as (Buf & ? & ?). exists Buf. by rewrite HSM.
  - destruct Hcase as (_ & Hopen).
    destruct (getFileOrSTDIN host File) as [message|InputFile].
    + destruct Hopen as (_ & HSM & _).
      destruct Hreg as (Buf & ? & ?). exists Buf. by rewrite HSM.
    + destruct Hopen as (_ & HB & _). by eapply registered_mono.
Qed.

Lemma addInputFilename_registers host i File s s' :
  namedByPath host File ->
  addInputFilename host i File s = Val false s' ->
  registered File s'.
Proof.
  intros Hnamed Heq.
  destruct (addInputFilename_spec host i File s) as (failed' & s'' & Heq' & _ & Hcase).
  rewrite Heq in Heq'. injection Heq' as <- <-.
  destruct (getIDForBufferIdentifier (SourceMgr s) File) as [Existing|] eqn:Hfind.
  - destruct Hcase as (_ & HSM & _).
    apply found_registered in Hfind as (Buf & ? & ?). exists Buf. by rewrite HSM.
  - destruct Hcase as (_ & Hopen).
    destruct (getFileOrSTDIN host File) as [message|InputFile] eqn:Hfs;
      [by destruct Hopen|].
    destruct Hopen as (_ & HB & _). exists InputFile.
    split; [rewrite HB; set_solver|by apply Hnamed].
Qed.

(** *** A path is opened at most once *)

Lemma timesOpened_app File l l' :
  timesOpened File (l ++ l') = (timesOpened File l + timesOpened File l')%nat.
Proof.
  unfold timesOpened. by rewrite openedFiles_app, filter_app, length_app.
Qed.

Lemma timesOpened_open File F :
  timesOpened File [OpenInputFile F] = if decide (F = File) then 1%nat else 0%nat.
Proof.
  unfold timesOpened. change (openedFiles [OpenInputFile F]) with [F].
  destruct (decide (F = File)) as [HF|HF].
  - by rewrite filter_cons_True.
  - by rewrite filter_cons_False.
Qed.

Lemma timesOpened_none File evs :
  Forall (fun e => ~ isOpenInputFile e) evs -> timesOpened File evs = 0%nat.
Proof. intros H. unfold timesOpened. by rewrite openedFiles_none. Qed.

Section OpenedOnce.
Context (host : Host) (File : string) (Hnamed : namedByPath host File).

(** The file loop opens [File] at most once, and not at all once the
    registry knows it. *)
Lemma addInputFilenames_timesOpened files : forall i s,
  (timesOpened File (Calls (final (addInputFilenames host i files s)))
   <= timesOpened File (Calls s) + 1)%nat /\
  (registered File s ->
   timesOpened File (Calls (final (addInputFilenames host i files s)))
   = timesOpened File (Calls s)).
Proof.
  induction files as [|F rest IH]; intros i s; cbn [addInputFilenames].
  - msimpl. split; [lia|done].
  - msimpl.
    destruct (addInputFilename_spec host i F s)
      as (failed & s1 & Heq & _ & Hcase).
    pose proof (addInputFilename_keeps_registered host File _ _ _ _ _ Heq)
      as Hkeep.
    rewrite Heq.
    destruct (IH (S i) s1) as [IH1 IH2].
    destruct (getIDForBufferIdentifier (SourceMgr s) F) as [Existing|] eqn:Hfind.
    + destruct Hcase as (-> & _ & _ & HC & _). cbn. rewrite HC in IH1, IH2.
      split; [done|]. intros Hreg. by apply IH2, Hkeep.
    + destruct Hcase as (HC & Hopen).
      rewrite HC, timesOpened_app, timesOpened_open in IH1, IH2.
      assert (registered File s -> F <> File) as Hne.
      { intros Hreg ->. apply registered_found in Hreg as [? Hreg]. congruence. }
      destruct failed; cbn.
      * rewrite HC, timesOpened_app, timesOpened_open.
        split; [destruct (decide (F = File)); lia|].
        intros Hreg. rewrite decide_False by by apply Hne. lia.
      * split.
        -- destruct (decide (F = File)) as [->|HF]; [|lia].
           rewrite IH2; [lia|].
           by eapply addInputFilename_registers.
        -- intros Hreg. rewrite IH2 by by apply Hkeep.
           rewrite decide_False by by apply Hne. lia.
Qed.

Lemma setup_timesOpened Invok s :
  (timesOpened File (Calls (final (setup host Invok s)))
   <= timesOpened File (Calls s) + 1)%nat.
Proof.
  unfold setup, registerInputs. msimpl.
  pose proof (configureContext_no_open host Invok s) as (evs & HC0 & Hevs).
  assert (timesOpened File (Calls (final (configureContext host Invok s)))
          = timesOpened File (Calls s)) as H0.
  { by rewrite HC0, timesOpened_app, (timesOpened_none File evs), Nat.add_0_r. }
  destruct (configureContext host Invok s) as [[|] s1|msg s1|s1]; cbn in *;
    try lia.
  unfold admitBuffers. msimpl.
  destruct (isIdentifier _ _); cbn; [|lia].
  destruct (addCodeCompletionBuffer_spec s1)
    as (s2 & more & -> & _ & HC1 & _).
  destruct (addInputBuffers_spec (InputBuffers Invok) 0%nat s2)
    as (s3 & -> & _ & HC2 & _).
  destruct (addInputFilenames_timesOpened (InputFilenames Invok) 0%nat s3)
    as [Hle _].
  rewrite HC2, HC1, H0 in Hle.
  destruct (addInputFilenames host 0 (InputFilenames Invok) s3)
    as [[|] s4|msg s4|s4]; cbn in *; try done.
  by destruct (implicitMainBuffer_spec s4) as [main ->].
Qed.

End OpenedOnce.

(** *** The second use of a path gets the id of the first *)

Lemma findIdentifier_snoc bufs b name : forall i,
  findIdentifier (bufs ++ [b]) i name =
  if String.eqb (getBufferIdentifier b) name
  then Some (i + N.of_nat (length bufs))
  else findIdentifier bufs i name.
Proof.
  induction bufs as [|x rest IH]; intros i; cbn.
  - rewrite N.add_0_r. by destruct (String.eqb _ _).
  - rewrite IH. destruct (String.eqb (getBufferIdentifier b) name); [|done].
    f_equal. lia.
Qed.

Section SharedId.
Context (host : Host).

(** What the iteration for a file named by its path leaves in the registry
    under that path is the id it made its selections with. *)
Lemma addInputFilename_id i File s s1 :
  namedByPath host File ->
  addInputFilename host i File s = Val false s1 ->
  exists BufferID,
    getIDForBufferIdentifier (SourceMgr s1) File = Some BufferID /\
    MainBufferID s1 =
      (if fileIsMain (Invocation s) File then BufferID else MainBufferID s) /\
    PrimaryBufferID s1 =
      (if primaryIsFilename (Invocation s) i then BufferID
       else PrimaryBufferID s).
Proof.
  intros Hnamed Heq.
  destruct (addInputFilename_spec host i File s)
    as (failed' & s'' & Heq' & _ & Hcase).
  rewrite Heq in Heq'. injection Heq' as <- <-.
  destruct (getIDForBufferIdentifier (SourceMgr s) File) as [Existing|] eqn:Hfind.
  - destruct Hcase as (_ & HSM & _ & _ & _ & HM & HP).
    exists Existing. by rewrite HSM.
  - destruct Hcase as (_ & Hopen).
    destruct (getFileOrSTDIN host File) as [message|InputFile] eqn:Hfs;
      [by destruct Hopen|].
    destruct Hopen as (_ & HB & _ & _ & HM & HP).
    exists (N.of_nat (length (Buffers (SourceMgr s)))).
    split; [|done].
    unfold getIDForBufferIdentifier. rewrite HB, findIdentifier_snoc.
    rewrite (Hnamed _ Hfs), String.eqb_refl. by rewrite N.add_0_l.
Qed.

Lemma addInputFilename_keeps_id name BufferID i File s s' :
  namedByPath host File ->
  getIDForBufferIdentifier (SourceMgr s) name = Some BufferID ->
  addInputFilename host i File s = Val false s' ->
  getIDForBufferIdentifier (SourceMgr s') name = Some BufferID.
Proof.
  intros Hnamed Hname Heq.
  destruct (addInputFilename_spec host i File s)
    as (failed' & s'' & Heq' & _ & Hcase).
  rewrite Heq in Heq'. injection Heq' as <- <-.
  destruct (getIDForBufferIdentifier (SourceMgr s) File) as [Existing|] eqn:Hfind.
  - destruct Hcase as (_ & HSM & _). by rewrite HSM.
  - destruct Hcase as (_ & Hopen).
    destruct (getFileOrSTDIN host File) as [message|InputFile] eqn:Hfs;
      [by destruct Hopen|].
    destruct Hopen as (_ & HB & _).
    unfold getIDForBufferIdentifier in *. rewrite HB, findIdentifier_snoc.
    rewrite (Hnamed _ Hfs).
    destruct (String.eqb_spec File name) as [->|Hne]; [congruence|done].
Qed.

Lemma addInputFilenames_keeps_id name BufferID files : forall i s s',
  Forall (namedByPath host) files ->
  getIDForBufferIdentifier (SourceMgr s) name = Some BufferID ->
  addInputFilenames host i files s = Val false s' ->
  getIDForBufferIdentifier (SourceMgr s') name = Some BufferID.
Proof.
  induction files as [|File rest IH]; intros i s s' Hall Hname;
    cbn [addInputFilenames].
  - msimpl. by intros [= <-].
  - apply Forall_cons in Hall as [HFile Hrest]. msimpl.
    destruct (addInputFilename host i File s) as [[|] s1|msg s1|s1] eqn:Heq;
      cbn; try done.
    apply IH; [done|]. by eapply addInputFilename_keeps_id.
Qed.

End SharedId.


Lemma exampleHost_namedByPath ctor File : namedByPath (exampleHost ctor) File.
Proof.
  intros InputFile. cbn. unfold exampleFiles.
  repeat (destruct (String.eqb File _); [by intros [= <-]|]). done.
Qed.



(** ** What [setup] guarantees about ids *)

Lemma idsMatchRegistry_grow s s' more :
  Buffers (SourceMgr s') = Buffers (SourceMgr s) ++ more ->
  BufferIDs s' =
    BufferIDs s ++ (N.of_nat <$> seq (length (Buffers (SourceMgr s))) (length more)) ->
  idsMatchRegistry s -> idsMatchRegistry s'.
Proof.
  unfold idsMatchRegistry. intros -> -> ->.
  by rewrite length_app, seq_app, fmap_app.
Qed.

Lemma mainRegistered_grow s s' more :
  Buffers (SourceMgr s') = Buffers (SourceMgr s) ++ more ->
  MainBufferID s' = MainBufferID s ->
  mainRegistered s -> mainRegistered s'.
Proof.
  unfold mainRegistered. intros -> ->. rewrite length_app. lia.
Qed.

Section SetupIds.
Context (host : Host).

Lemma addInputFilename_ids i File s failed s' :
  addInputFilename host i File s = Val failed s' ->
  idsMatchRegistry s ->
  idsMatchRegistry s' /\
  (mainRegistered s -> mainRegistered s') /\
  (SILMode (Invocation s) = true -> failed = false -> mainRegistered s').
Proof.
  intros Heq Hids.
  destruct (addInputFilename_spec host i File s) as (failed' & s'' & Heq' & _ & Hcase).
  rewrite Heq in Heq'. injection Heq' as <- <-.
  unfold fileIsMain in Hcase.
  destruct (getIDForBufferIdentifier (SourceMgr s) File) as [Existing|] eqn:Hfind.
  - destruct Hcase as (_ & HSM & HIDs & _ & _ & HM & _).
    apply getIDForBufferIdentifier_Some in Hfind as (_ & _ & _ & Hlt).
    unfold idsMatchRegistry, mainRegistered. rewrite HSM, HIDs, HM.
    split; [done|]. split.
    + intros Hmain. by destruct (_ || _).
    + by intros -> _.
  - destruct Hcase as (_ & Hopen).
    destruct (getFileOrSTDIN host File) as [message|InputFile].
    + destruct Hopen as (-> & HSM & HIDs & _ & HM & _).
      unfold idsMatchRegistry, mainRegistered. rewrite HSM, HIDs, HM. done.
    + destruct Hopen as (_ & HB & HIDs & _ & HM & _). split; [|split].
      * by eapply (idsMatchRegistry_grow s s' [InputFile]).
      * unfold mainRegistered. rewrite HB, HM, length_app. cbn.
        destruct (_ || _); lia.
      * intros Hsil _. unfold mainRegistered.
        rewrite HB, HM, Hsil, length_app. cbn. lia.
Qed.

Lemma addInputFilenames_ids files : forall i s s',
  addInputFilenames host i files s = Val false s' ->
  idsMatchRegistry s ->
  idsMatchRegistry s' /\
  (mainRegistered s -> mainRegistered s') /\
  (SILMode (Invocation s) = true -> files <> [] -> mainRegistered s').
Proof.
  induction files as [|File rest IH]; intros i s s'; cbn [addInputFilenames].
  - intros [= <-] Hids. done.
  - msimpl. intros Heq Hids.
    destruct (addInputFilename_spec host i File s) as (failed & s1 & Heq1 & HI & _).
    destruct (addInputFilename_ids _ _ _ _ _ Heq1 Hids) as (Hids1 & Hkeep & Hsil).
    rewrite Heq1 in Heq. destruct failed; [done|].
    destruct (IH _ _ _ Heq Hids1) as (Hids' & Hkeep' & _).
    split; [done|]. split; [tauto|]. intros Hmode _. apply Hkeep', Hsil; done.
Qed.

Lemma admitBuffers_ids Invok s s' :
  Invocation s = Invok ->
  admitBuffers host Invok s = Val false s' ->
  idsMatchRegistry s ->
  idsMatchRegistry s' /\
  (InputKind Invok = SIL ->
   InputBuffers Invok <> [] \/ InputFilenames Invok <> [] ->
   mainRegistered s').
Proof.
  intros HInv. unfold admitBuffers. msimpl.
  destruct (isIdentifier _ _); cbn; [|done].
  destruct (addCodeCompletionBuffer_spec s)
    as (s1 & more & -> & HI1 & _ & HM1 & _ & HB1 & HIDs1).
  destruct (addInputBuffers_spec (InputBuffers Invok) 0%nat s1)
    as (s2 & -> & HI2 & _ & HB2 & HIDs2 & HM2 & _).
  intros Heq Hids.
  assert (idsMatchRegistry s2) as Hids2.
  { eapply idsMatchRegistry_grow; [exact HB2|exact HIDs2|].
    by eapply idsMatchRegistry_grow. }
  destruct (addInputFilenames_ids _ _ _ _ Heq Hids2) as (Hids' & Hkeep & Hfiles).
  split; [done|]. intros HK Hsome.
  assert (SILMode (Invocation s2) = true) as Hsil.
  { unfold SILMode. rewrite HI2, HI1, HInv. by apply bool_decide_eq_true_2. }
  destruct (decide (InputBuffers Invok = [])) as [Hnil|Hcons].
  - apply Hfiles; [done|]. by destruct Hsome.
  - apply Hkeep. unfold mainRegistered. rewrite HM2, HB2, length_app.
    unfold SILMode. rewrite HI1, HInv, bool_decide_eq_true_2 by done.
    destruct (InputBuffers Invok); [done|]. cbn. lia.
Qed.

(** After a successful [setup] of a fresh instance, [BufferIDs] is the list
    of registered ids, and in SIL mode any input at all leaves a registered
    main buffer. *)
Lemma setup_ids Invok s :
  setup host Invok (newCompilerInstance Invok) = Val false s ->
  idsMatchRegistry s /\
  (InputKind Invok = SIL ->
   InputBuffers Invok <> [] \/ InputFilenames Invok <> [] ->
   mainRegistered s).
Proof.
  unfold setup, registerInputs. msimpl.
  destruct (isMacOSX (IRGenTriple Invok) || isiOS (IRGenTriple Invok)) eqn:Hos.
  - destruct (configureContext_spec host Invok (newCompilerInstance Invok) Hos)
      as (failed & s1 & -> & HI & _ & HSM & HIDs & _).
    destruct failed; [done|].
    destruct (admitBuffers host Invok s1) as [[|] s2|msg s2|s2] eqn:Hadm; try done.
    destruct (implicitMainBuffer_spec s2) as [main Himp].
    rewrite Himp. intros [= <-].
    assert (idsMatchRegistry s1) as Hids1.
    { unfold idsMatchRegistry. by rewrite HSM, HIDs. }
    destruct (admitBuffers_ids _ _ _ HI Hadm Hids1) as (Hids2 & Hmain2).
    split; [exact Hids2|]. intros HK Hsome.
    specialize (Hmain2 HK Hsome).
    revert Himp. unfold implicitMainBuffer. msimpl. unfold id, MainMode.
    pose proof (admitBuffers_sameContext host Invok s1) as (HI2 & _).
    rewrite Hadm in HI2. cbn in HI2. rewrite HI2, HI, HK.
    rewrite bool_decide_eq_false_2 by done.
    destruct (BufferIDs s2) as [|front [|]]; intros [= <-]; exact Hmain2.
  - unfold configureContext. msimpl.
    destruct (bool_decide (LLVMArgs Invok = [])); cbn;
      by rewrite setTargetConfigurations_unknown_os.
Qed.

End SetupIds.

(** ** [performParse]: the library loop *)

Lemma sameInputs_refl s : sameInputs s s.
Proof. by unfold sameInputs. Qed.

Lemma sameInputs_trans s1 s2 s3 :
  sameInputs s1 s2 -> sameInputs s2 s3 -> sameInputs s1 s3.
Proof.
  unfold sameInputs.
  intros (-> & -> & -> & -> & ->) (-> & -> & -> & -> & ->). done.
Qed.

Lemma loadFails_sameInputs host s s' BufferID :
  sameInputs s s' -> loadFails host s' BufferID = loadFails host s BufferID.
Proof.
  intros (_ & HB & _ & HM & _). unfold loadFails, getMemoryBuffer.
  by rewrite HB, HM.
Qed.

Lemma alter_appended {A} (f : A -> A) (l : list A) (x : A) :
  alter f (length l) (l ++ [x]) = l ++ [f x].
Proof. induction l as [|y l IH]; cbn; [done|]. by rewrite IH. Qed.

Section LibraryLoop.
Context (host : Host).

Lemma addFile_spec F s Mod :
  MainModule s = Some Mod ->
  addFile F s =
  Val (length (getFiles Mod))
      (set_MainModule (Some {| getName := getName Mod;
                               getFiles := getFiles Mod ++ [F] |}) s).
Proof. intros H. unfold addFile. msimpl. unfold id. by rewrite H. Qed.

(** One iteration of the library loop. *)
Lemma parseLibraryFile_iter DelayedCB BufferID hadLoadError PS s Mod :
  MainModule s = Some Mod ->
  let r := parseLibraryFile host DelayedCB BufferID hadLoadError PS s in
  exists evs more,
    sameInputs s (final r) /\
    Calls (final r) = Calls s ++ evs /\
    Forall (isLibraryEvent (MainBufferID s)) evs /\
    MainModule (final r)
      = Some {| getName := getName Mod; getFiles := getFiles Mod ++ more |} /\
    (~ assertionFailed r ->
     exists PS',
       r = Val (hadLoadError || loadFails host s BufferID, PS') (final r) /\
       (BufferID <> MainBufferID s -> attempted BufferID evs)).
Proof.
  intros HMod r. subst r. unfold parseLibraryFile, loadFails. msimpl. unfold id.
  destruct (N.eqb_spec BufferID (MainBufferID s)) as [Hmain|Hmain]; cbn.
  { exists [], []. rewrite !app_nil_r, orb_false_r.
    repeat split; try done; [by destruct Mod|]. intros _. by exists PS. }
  destruct (getMemoryBuffer (SourceMgr s) BufferID) as [Buf|]; cbn.
  2:{ exists [], []. rewrite !app_nil_r. repeat split; try done.
      by destruct Mod. }
  destruct (isSerializedAST host (getBuffer Buf)); cbn.
  - destruct (loadAST host Buf) eqn:Hload; cbn.
    + erewrite addFile_spec by (cbn; exact HMod). cbn.
      exists [LoadAST BufferID true], [SerializedASTFile BufferID].
      repeat split; try done.
      * by repeat constructor.
      * intros _. exists PS. rewrite orb_false_r. split; [done|].
        intros _. by constructor.
    + exists [LoadAST BufferID false], []. rewrite app_nil_r.
      repeat split; try done.
      * by repeat constructor.
      * by destruct Mod.
      * intros _. exists PS. rewrite orb_true_r. split; [done|].
        intros _. by constructor.
  - erewrite addFile_spec by exact HMod. cbn.
    destruct (N.eqb BufferID (PrimaryBufferID s)); cbn;
      destruct (parseIntoSourceFile host (SourceMgr s) Library BufferID false PS
                                    DelayedCB) as [[appended Done] PS'];
      cbn; unfold appendDeclsAt; cbn; rewrite alter_appended;
      destruct Done; cbn.
    all: eexists _, [_].
    all: split; [done|].
    all: split; [try rewrite <- app_assoc; reflexivity|].
    all: split; [by repeat constructor|].
    all: split; [reflexivity|].
    all: try (intros []; done).
    all: intros _; exists PS'; rewrite orb_false_r.
    all: split; [done|]; intros _; by constructor.
Qed.

Lemma parseLibraryFiles_loop DelayedCB ids : forall hadLoadError PS s Mod,
  MainModule s = Some Mod ->
  let r := parseLibraryFiles host DelayedCB ids hadLoadError PS s in
  exists evs more,
    sameInputs s (final r) /\
    Calls (final r) = Calls s ++ evs /\
    Forall (isLibraryEvent (MainBufferID s)) evs /\
    MainModule (final r)
      = Some {| getName := getName Mod; getFiles := getFiles Mod ++ more |} /\
    (~ assertionFailed r ->
     exists PS',
       r = Val (hadLoadError || existsb (loadFails host s) ids, PS') (final r) /\
       (forall BufferID, BufferID ∈ ids -> BufferID <> MainBufferID s ->
                         attempted BufferID evs)).
Proof.
  induction ids as [|BufferID rest IH]; intros flag PS s Mod HMod r; subst r;
    cbn [parseLibraryFiles existsb].
  - exists [], []. rewrite !app_nil_r, orb_false_r.
    split; [apply sameInputs_refl|]. split; [done|]. split; [done|].
    split; [cbn; by destruct Mod|].
    intros _. exists PS. split; [done|]. set_solver.
  - msimpl.
    destruct (parseLibraryFile_iter DelayedCB BufferID flag PS s Mod HMod)
      as (evs1 & more1 & Hsame1 & HC1 & HF1 & HM1 & Hval1).
    destruct (parseLibraryFile host DelayedCB BufferID flag PS s)
      as [[flag1 PS1] s1|msg s1|s1] eqn:Hiter; cbn in *.
    + destruct (Hval1 ltac:(tauto)) as (PS1' & [= -> ->] & Hatt1).
      destruct (IH (flag || loadFails host s BufferID) PS1' s1 _ HM1)
        as (evs2 & more2 & Hsame2 & HC2 & HF2 & HM2 & Hval2).
      cbn in HM2.
      pose proof Hsame1 as (_ & _ & _ & HMain & _).
      exists (evs1 ++ evs2), (more1 ++ more2).
      split; [by eapply sameInputs_trans|].
      split; [by rewrite HC2, HC1, app_assoc|].
      split; [apply Forall_app; split; [done|by rewrite <- HMain]|].
      split; [by rewrite HM2, app_assoc|].
      intros Hok. destruct (Hval2 Hok) as (PS' & Heq & Hatt2).
      exists PS'. split.
      * assert (existsb (loadFails host s1) rest
                = existsb (loadFails host s) rest) as Hex.
        { clear -Hsame1. induction rest as [|x rest IHr]; cbn; [done|].
          by rewrite IHr, (loadFails_sameInputs host s s1). }
        rewrite Hex, <- orb_assoc in Heq. exact Heq.
      * intros id [->|Hin]%elem_of_cons Hne.
        -- apply Exists_app. left. by apply Hatt1.
        -- apply Exists_app. right. apply Hatt2; [done|by rewrite HMain].
    + exists evs1, more1. do 4 (split; [done|]). intros Hok. by destruct Hok.
    + exists evs1, more1. do 4 (split; [done|]). intros _.
      exfalso. by destruct (Hval1 ltac:(tauto)) as (? & ? & _).
Qed.

End LibraryLoop.

(** ** [performParse]: the main-file loop and what follows it *)

Lemma chunkCheckCondition_sameInputs s s' :
  sameInputs s s' -> chunkCheckCondition s' = chunkCheckCondition s.
Proof.
  intros (HI & _ & _ & HM & HP). unfold chunkCheckCondition.
  by rewrite HI, HM, HP.
Qed.

Section MainFileLoop.
Context (host : Host).

Lemma pumpMainFile_loop fuel : forall Kind MainFileID DelayedCB CurTUElem PS s
    Mod SF rest,
  MainModule s = Some Mod ->
  getFiles Mod = SourceFileUnit SF :: rest ->
  CurTUElem = length (Decls SF) ->
  let r := pumpMainFile host fuel Kind MainFileID DelayedCB CurTUElem PS s in
  exists evs SF',
    sameInputs s (final r) /\
    Calls (final r) = Calls s ++ evs /\
    pumpTrace MainFileID (chunkCheckCondition s) CurTUElem evs /\
    MainModule (final r)
      = Some {| getName := getName Mod; getFiles := SourceFileUnit SF' :: rest |} /\
    ~ assertionFailed r.
Proof.
  induction fuel as [|fuel IH];
    intros Kind mid CB cur PS s Mod SF rest HMod HFiles Hcur r; subst r;
    cbn [pumpMainFile].
  - exists [], SF. rewrite app_nil_r. cbn.
    split; [apply sameInputs_refl|]. rewrite HMod, <- HFiles.
    repeat split; try done. by destruct Mod. tauto.
  - msimpl. unfold id.
    destruct (parseIntoSourceFile host (SourceMgr s) Kind mid (TheSILModule s)
                                  PS CB) as [[appended Done] PS'].
    cbn. rewrite HMod. cbn. unfold appendDeclsAt. rewrite HFiles. cbn.
    set (SF1 := {| SFKind := SFKind SF; getBufferID := getBufferID SF;
                   Decls := Decls SF ++ appended |}).
    destruct (chunkCheckCondition s) eqn:Hcond; cbn;
      unfold mainFileDeclsSize; cbn; destruct Done; cbn.
    + eexists [_; _], SF1. rewrite <- app_assoc. cbn.
      split; [done|]. repeat split; try done. tauto.
    + match goal with |- context [pumpMainFile host fuel Kind mid CB ?c PS' ?t] =>
        destruct (IH Kind mid CB c PS' t _ SF1 rest eq_refl eq_refl eq_refl)
          as (evs & SF' & Hsame & HC & HT & HM & Hok) end.
      rewrite (chunkCheckCondition_sameInputs s) in HT by done.
      rewrite Hcond in HT. cbn in HC, HM.
      exists (ParseIntoSourceFile mid appended false
                :: TypeCheckChunk (Some mid) cur :: evs), SF'.
      split; [by eapply sameInputs_trans; [|exact Hsame]|].
      split; [by rewrite HC, <- !app_assoc|].
      split; [|done]. cbn. repeat split; try done.
      by rewrite Hcur, <- length_app.
    + eexists [_], SF1. cbn.
      split; [done|]. repeat split; try done. tauto.
    + match goal with |- context [pumpMainFile host fuel Kind mid CB ?c PS' ?t] =>
        destruct (IH Kind mid CB c PS' t _ SF1 rest eq_refl eq_refl eq_refl)
          as (evs & SF' & Hsame & HC & HT & HM & Hok) end.
      rewrite (chunkCheckCondition_sameInputs s) in HT by done.
      rewrite Hcond in HT. cbn in HC, HM.
      exists (ParseIntoSourceFile mid appended false :: evs), SF'.
      split; [by eapply sameInputs_trans; [|exact Hsame]|].
      split; [by rewrite HC, <- !app_assoc|].
      split; [|done]. cbn. split; [done|].
      by rewrite Hcur, <- length_app.
Qed.

Lemma typeCheckFiles_spec files : forall s,
  typeCheckFiles files s =
  Val tt (set_Calls
            (Calls s ++ flat_map (wholeFileCheck (PrimaryBufferID s)) files) s).
Proof.
  induction files as [|F rest IH]; intros s; cbn [typeCheckFiles flat_map].
  - rewrite app_nil_r. msimpl. by destruct s.
  - destruct F as [SF|BufferID]; cbn [wholeFileCheck app].
    + msimpl. unfold id.
      destruct (_ || _); cbn; rewrite IH; cbn; [|done].
      by rewrite <- app_assoc.
    + apply IH.
Qed.

Lemma wholeFileCheck_tail primary files :
  Forall (isTailEvent primary) (flat_map (wholeFileCheck primary) files).
Proof.
  induction files as [|[SF|BufferID] rest IH]; cbn; try done.
  destruct (N.eqb_spec primary NO_SUCH_BUFFER) as [Hp|Hp]; cbn.
  { constructor; [by left|done]. }
  destruct (getBufferID SF) as [BufferID|] eqn:HSF; [|done].
  destruct (N.eqb_spec BufferID primary) as [->|Hne]; cbn; [|done].
  constructor; [by right|done].
Qed.

Lemma typeCheckInputs_spec s :
  exists evs,
    typeCheckInputs host s = Val tt (set_Calls (Calls s ++ evs) s) /\
    Forall (isTailEvent (PrimaryBufferID s)) evs /\
    (ParseOnly (Invocation s) = true -> evs = []).
Proof.
  unfold typeCheckInputs. msimpl. unfold id.
  destruct (ParseOnly (Invocation s)).
  - exists []. rewrite app_nil_r. split; [by destruct s|done].
  - rewrite typeCheckFiles_spec. cbn.
    set (evs := flat_map (wholeFileCheck (PrimaryBufferID s))
                  match MainModule s with Some Mod => getFiles Mod | None => [] end).
    destruct (hasStdlibModule host); cbn.
    + exists (evs ++ [RecordKnownProtocols]).
      split; [by rewrite app_assoc|]. split; [|done].
      apply Forall_app. split; [apply wholeFileCheck_tail|].
      by repeat constructor.
    + exists evs. split; [done|]. split; [apply wholeFileCheck_tail|done].
Qed.

End MainFileLoop.

(** ** [performParse] as a whole *)

Lemma sameInputs_mainFileOnly Kind s s' :
  sameInputs s s' -> mainFileOnly Kind s' = mainFileOnly Kind s.
Proof. intros (_ & _ & _ & HM & _). unfold mainFileOnly. by rewrite HM. Qed.

Section PerformParse.
Context (host : Host).

Lemma createMainModule_spec s :
  let r := createMainModule s in
  sameInputs s (final r) /\
  Calls (final r) = Calls s /\
  MainModule (final r)
    = Some {| getName := ModuleName (Invocation s); getFiles := [] |} /\
  (~ assertionFailed r -> r = Val tt (final r)) /\
  (assertionFailed r <->
   InputKind (Invocation s) = SIL /\ ~ SILAssertionsHold s).
Proof.
  unfold createMainModule, createSILModule, SILAssertionsHold. msimpl. unfold id.
  destruct (decide (InputKind (Invocation s) = SIL)) as [HK|HK];
    [rewrite bool_decide_eq_true_2 by done|rewrite bool_decide_eq_false_2 by done];
    cbn.
  2:{ repeat split; try done; tauto. }
  destruct (Nat.eqb_spec (length (BufferIDs s)) 1) as [Hlen|Hlen]; cbn.
  2:{ repeat split; try done; tauto. }
  destruct (N.eqb_spec (MainBufferID s) NO_SUCH_BUFFER) as [Hmain|Hmain]; cbn.
  { repeat split; try done; tauto. }
  repeat split; try done; tauto.
Qed.

Lemma addMainSourceFile_spec Kind s name :
  MainModule s = Some {| getName := name; getFiles := [] |} ->
  let r := addMainSourceFile Kind s in
  sameInputs s (final r) /\
  Calls (final r) = Calls s /\
  (~ assertionFailed r ->
   r = Val tt (final r) /\
   MainModule (final r)
     = Some {| getName := name; getFiles := mainFileOnly Kind s |}) /\
  (assertionFailed r ->
   MainBufferID s <> NO_SUCH_BUFFER /\ Kind <> Main /\ Kind <> SIL).
Proof.
  intros HMod. unfold addMainSourceFile, mainFileOnly. msimpl. unfold id.
  destruct (N.eqb_spec (MainBufferID s) NO_SUCH_BUFFER) as [Hmain|Hmain]; cbn.
  { split; [apply sameInputs_refl|]. repeat split; try done. }
  destruct (decide (Kind = Main)) as [HK|HK];
    [rewrite (bool_decide_eq_true_2 (Kind = Main)) by done
    |rewrite (bool_decide_eq_false_2 (Kind = Main)) by done]; cbn.
  - erewrite addFile_spec by (cbn; exact HMod). cbn.
    destruct (N.eqb (MainBufferID s) (PrimaryBufferID s)); cbn;
      repeat split; try done.
  - destruct (decide (Kind = SIL)) as [HS|HS];
      [rewrite bool_decide_eq_true_2 by done
      |rewrite bool_decide_eq_false_2 by done]; cbn.
    + erewrite addFile_spec by (cbn; exact HMod). cbn.
      destruct (N.eqb (MainBufferID s) (PrimaryBufferID s)); cbn;
        repeat split; try done.
    + repeat split; try done; tauto.
Qed.

Lemma parseMainFile_spec fuel Kind DelayedCB PS s name more :
  MainModule s
    = Some {| getName := name; getFiles := mainFileOnly Kind s ++ more |} ->
  let r := parseMainFile host fuel Kind DelayedCB PS s in
  exists evs,
    sameInputs s (final r) /\
    Calls (final r) = Calls s ++ evs /\
    pumpTrace (MainBufferID s) (chunkCheckCondition s) 0 evs /\
    (MainBufferID s = NO_SUCH_BUFFER -> evs = []) /\
    ~ assertionFailed r.
Proof.
  intros HMod r. subst r. unfold parseMainFile, getMainSourceFile. msimpl.
  unfold id. revert HMod. unfold mainFileOnly.
  destruct (N.eqb_spec (MainBufferID s) NO_SUCH_BUFFER) as [Hmain|Hmain]; cbn.
  { intros _. exists []. rewrite app_nil_r.
    split; [apply sameInputs_refl|]. repeat split; try done; tauto. }
  intros HMod. rewrite HMod. cbn. rewrite bool_decide_eq_true_2 by done. cbn.
  edestruct (pumpMainFile_loop host fuel Kind (MainBufferID s) DelayedCB 0%nat PS s)
    as (evs & SF' & Hsame & HC & HT & _ & Hok); [exact HMod|reflexivity..|].
  exists evs. repeat split; try done. all: apply Hsame.
Qed.

Lemma parseLibraryFiles_only_main DelayedCB ids : forall hadLoadError PS s,
  Forall (fun BufferID => BufferID = MainBufferID s) ids ->
  parseLibraryFiles host DelayedCB ids hadLoadError PS s
    = Val (hadLoadError, PS) s.
Proof.
  induction ids as [|BufferID rest IH]; intros flag PS s Hids;
    cbn [parseLibraryFiles]; [done|].
  apply Forall_cons in Hids as [-> Hrest]. msimpl.
  unfold parseLibraryFile. msimpl. unfold id. rewrite N.eqb_refl. cbn.
  by apply IH.
Qed.

(** The calls of [parseAndCheck], phase by phase. *)
Lemma parseAndCheck_trace fuel Kind DelayedCB s name :
  MainModule s = Some {| getName := name; getFiles := mainFileOnly Kind s |} ->
  let r := parseAndCheck host fuel Kind DelayedCB s in
  exists evsLib evsPump evsTail,
    sameInputs s (final r) /\
    Calls (final r) = Calls s ++ evsLib ++ evsPump ++ evsTail /\
    Forall (isLibraryEvent (MainBufferID s)) evsLib /\
    pumpTrace (MainBufferID s) (chunkCheckCondition s) 0 evsPump /\
    (MainBufferID s = NO_SUCH_BUFFER -> evsPump = []) /\
    Forall (isTailEvent (PrimaryBufferID s)) evsTail /\
    (ParseOnly (Invocation s) = true ->
     Forall (fun e => e = PerformDelayedParsing) evsTail) /\
    (~ assertionFailed r ->
     (forall BufferID, BufferID ∈ BufferIDs s -> BufferID <> MainBufferID s ->
                       attempted BufferID evsLib) /\
     (existsb (loadFails host s) (BufferIDs s) = true ->
      r = Val tt (final r) /\ evsPump = [] /\ evsTail = [])) /\
    (assertionFailed r ->
     exists BufferID, BufferID ∈ BufferIDs s /\ BufferID <> MainBufferID s).
Proof.
  intros HMod r. subst r. unfold parseAndCheck. msimpl.
  destruct (parseLibraryFiles_loop host DelayedCB (BufferIDs s) false
              (PersistentState0 host) s _ HMod)
    as (evsLib & more & Hsame1 & HC1 & HF1 & HM1 & Hval1).
  cbn in HM1, Hval1.
  assert (assertionFailed
            (parseLibraryFiles host DelayedCB (BufferIDs s) false
               (PersistentState0 host) s) ->
          exists BufferID, BufferID ∈ BufferIDs s /\ BufferID <> MainBufferID s)
    as Hfail.
  { intros Hf.
    destruct (decide (Forall (fun BufferID => BufferID = MainBufferID s)
                             (BufferIDs s))) as [Hall|Hnot].
    - by rewrite parseLibraryFiles_only_main in Hf.
    - apply not_Forall_Exists in Hnot; [|intros ?; apply _].
      apply Exists_exists in Hnot as (BufferID & Hin & Hne). eauto. }
  destruct (parseLibraryFiles host DelayedCB (BufferIDs s) false
              (PersistentState0 host) s)
    as [[hadLoadError PS1] s1|msg s1|s1] eqn:Hlib; cbn in *.
  2:{ exists evsLib, [], []. rewrite !app_nil_r.
      do 6 (split; [done|]). split; [done|]. split; [tauto|]. done. }
  2:{ exfalso. by destruct (Hval1 ltac:(tauto)) as (? & ? & _). }
  destruct (Hval1 ltac:(tauto)) as (PS1' & [= -> ->] & Hatt).
  destruct (existsb (loadFails host s) (BufferIDs s)) eqn:Hload; cbn.
  { exists evsLib, [], []. rewrite !app_nil_r.
    do 6 (split; [done|]). split; [done|]. split; [|tauto]. done. }
  rewrite <- (sameInputs_mainFileOnly Kind s s1) in HM1 by done.
  destruct (parseMainFile_spec fuel Kind DelayedCB PS1' s1 _ _ HM1)
    as (evsPump & Hsame2 & HC2 & HT2 & Hnone2 & Hok2).
  rewrite (chunkCheckCondition_sameInputs s s1) in HT2 by done.
  pose proof Hsame1 as (HI1 & _ & _ & HMain1 & _).
  rewrite HMain1 in HT2, Hnone2.
  destruct (parseMainFile host fuel Kind DelayedCB PS1' s1)
    as [PS2 s2|msg s2|s2] eqn:Hmain; cbn in *.
  2:{ tauto. }
  2:{ exists evsLib, evsPump, []. rewrite !app_nil_r.
      split; [by eapply sameInputs_trans|].
      split; [by rewrite HC2, HC1, app_assoc|].
      do 4 (split; [done|]). split; [done|]. split; [|tauto].
      intros _. split; [done|]. done. }
  destruct (typeCheckInputs_spec host s2) as (evsTC & -> & HFT & Hpo). cbn.
  pose proof Hsame2 as (HI2 & _).
  assert (sameInputs s s2) as Hsame by by eapply sameInputs_trans.
  pose proof Hsame as (_ & _ & _ & _ & HP).
  rewrite HP in HFT.
  destruct (bool_decide (is_Some DelayedCB)); cbn.
  - exists evsLib, evsPump, (evsTC ++ [PerformDelayedParsing]).
    split; [done|].
    split; [by rewrite HC2, HC1, <- !app_assoc|].
    do 3 (split; [done|]).
    split; [apply Forall_app; split; [done|by repeat constructor]|].
    split; [intros Hp; rewrite Hpo by (by rewrite HI2, HI1);
            by repeat constructor|].
    split; [|tauto]. intros _. split; [done|]. done.
  - exists evsLib, evsPump, evsTC.
    split; [done|].
    split; [by rewrite HC2, HC1, <- !app_assoc|].
    do 3 (split; [done|]). split; [done|].
    split; [intros Hp; rewrite Hpo by (by rewrite HI2, HI1); constructor|].
    split; [|tauto]. intros _. split; [done|]. done.
Qed.

(** The calls of [performParse]: those of the library loop, then those of
    the main-file loop, then the whole-file checks and the delayed parsing;
    with what decides whether it stops at an assertion. *)
Lemma performParse_trace fuel s :
  let r := performParse host fuel s in
  exists evsLib evsPump evsTail,
    sameInputs s (final r) /\
    Calls (final r) = Calls s ++ evsLib ++ evsPump ++ evsTail /\
    Forall (isLibraryEvent (MainBufferID s)) evsLib /\
    pumpTrace (MainBufferID s) (chunkCheckCondition s) 0 evsPump /\
    (MainBufferID s = NO_SUCH_BUFFER -> evsPump = []) /\
    Forall (isTailEvent (PrimaryBufferID s)) evsTail /\
    (ParseOnly (Invocation s) = true ->
     Forall (fun e => e = PerformDelayedParsing) evsTail) /\
    (InputKind (Invocation s) <> REPL -> ~ assertionFailed r ->
     (forall BufferID, BufferID ∈ BufferIDs s -> BufferID <> MainBufferID s ->
                       attempted BufferID evsLib) /\
     (existsb (loadFails host s) (BufferIDs s) = true ->
      r = Val tt (final r) /\ evsPump = [] /\ evsTail = [])) /\
    (assertionFailed r ->
     (InputKind (Invocation s) = SIL /\ ~ SILAssertionsHold s) \/
     (MainBufferID s <> NO_SUCH_BUFFER /\ InputKind (Invocation s) <> Main /\
      InputKind (Invocation s) <> SIL) \/
     (exists BufferID, BufferID ∈ BufferIDs s /\ BufferID <> MainBufferID s)).
Proof.
  intros r. subst r. unfold performParse. msimpl.
  destruct (createMainModule_spec s) as (Hsame0 & HC0 & HM0 & Hval0 & Hfail0).
  destruct (createMainModule s) as [[] s0|msg s0|s0] eqn:Hcreate; cbn in *.
  2:{ exists [], [], []. rewrite !app_nil_r.
      do 6 (split; [done|]). split; [done|]. split; [tauto|].
      intros _. left. by apply Hfail0. }
  2:{ exfalso. by specialize (Hval0 ltac:(tauto)). }
  destruct (decide (InputKind (Invocation s) = REPL)) as [HK|HK];
    [rewrite bool_decide_eq_true_2 by done
    |rewrite bool_decide_eq_false_2 by done].
  { erewrite addFile_spec by exact HM0. cbn.
    exists [], [], []. rewrite !app_nil_r.
    do 6 (split; [done|]). split; [done|]. split; [tauto|]. tauto. }
  destruct (addMainSourceFile_spec (InputKind (Invocation s)) s0 _ HM0)
    as (Hsame1 & HC1 & Hval1 & Hfail1).
  pose proof Hsame0 as (HI0 & _ & HIDs0 & HMain0 & HP0).
  destruct (addMainSourceFile (InputKind (Invocation s)) s0)
    as [[] s1|msg s1|s1] eqn:Hadd; cbn in *.
  2:{ exists [], [], []. rewrite !app_nil_r.
      split; [by eapply sameInputs_trans|]. split; [congruence|].
      do 4 (split; [done|]). split; [done|]. split; [tauto|].
      intros _. right. left. rewrite <- HMain0. by apply Hfail1. }
  2:{ exfalso. by destruct (Hval1 ltac:(tauto)) as [? _]. }
  destruct (Hval1 ltac:(tauto)) as [_ HM1].
  assert (sameInputs s s1) as Hsame by by eapply sameInputs_trans.
  rewrite <- (sameInputs_mainFileOnly _ s0 s1) in HM1 by done.
  destruct (parseAndCheck_trace fuel (InputKind (Invocation s))
              (selectDelayedCB s0) s1 _ HM1)
    as (evsLib & evsPump & evsTail & Hsame2 & HC2 & HFL & HT & Hnone & HFT
        & Hpo & Hval2 & Hfail2).
  pose proof Hsame as (HI & _ & HIDs & HMain & HP).
  rewrite (chunkCheckCondition_sameInputs s s1) in HT by done.
  rewrite HMain in HFL, HT, Hnone, Hval2, Hfail2.
  rewrite HP in HFT. rewrite HI in Hpo. rewrite HIDs in Hval2, Hfail2.
  assert (existsb (loadFails host s1) (BufferIDs s)
          = existsb (loadFails host s) (BufferIDs s)) as Hex.
  { clear -Hsame. induction (BufferIDs s) as [|x l IH]; cbn; [done|].
    by rewrite IH, (loadFails_sameInputs host s s1). }
  rewrite Hex in Hval2.
  exists evsLib, evsPump, evsTail.
  split; [by eapply sameInputs_trans|]. split; [by rewrite HC2, HC1, HC0|].
  do 5 (split; [done|]). split; [by intros _|].
  intros Hf. right. right. by apply Hfail2.
Qed.

End PerformParse.

(** ** Fuel

    The fuel only bounds the number of pumps: once the main-file loop has
    returned, more fuel changes nothing. *)

Lemma pumpMainFile_more_fuel host k fuel : forall Kind MainFileID DelayedCB
    CurTUElem PS s PS' s',
  pumpMainFile host fuel Kind MainFileID DelayedCB CurTUElem PS s = Val PS' s' ->
  pumpMainFile host (fuel + k) Kind MainFileID DelayedCB CurTUElem PS s
    = Val PS' s'.
Proof.
  induction fuel as [|fuel IH]; intros Kind mid CB cur PS s PS' s';
    cbn [pumpMainFile Nat.add]; [done|].
  msimpl. unfold id.
  destruct (parseIntoSourceFile host (SourceMgr s) Kind mid (TheSILModule s)
                                PS CB) as [[appended Done] PS1].
  cbn. destruct (chunkCheckCondition s); cbn; destruct Done; cbn; try done;
    apply IH.
Qed.

Lemma performParse_more_fuel host k fuel s s' :
  performParse host fuel s = Val tt s' ->
  performParse host (fuel + k) s = Val tt s'.
Proof.
  unfold performParse, parseAndCheck, parseMainFile. msimpl. unfold id.
  destruct (createMainModule s) as [[] s0|msg s0|s0]; try done.
  destruct (bool_decide (InputKind (Invocation s) = REPL)); [done|].
  destruct (addMainSourceFile _ s0) as [[] s1|msg s1|s1]; try done.
  destruct (parseLibraryFiles host _ _ _ _ s1) as [[[|] PS1] s2|msg s2|s2];
    try done.
  destruct (MainBufferID s2 =? NO_SUCH_BUFFER); [done|].
  destruct (getMainSourceFile _ s2) as [MainFile s3|msg s3|s3]; try done.
  destruct (getBufferID MainFile) as [MainFileID|]; [|done].
  destruct (pumpMainFile host fuel _ _ _ _ _ s3) as [PS2 s4|msg s4|s4] eqn:Hpump;
    try done.
  by rewrite (pumpMainFile_more_fuel _ k _ _ _ _ _ _ _ _ _ Hpump).
Qed.

(** ** Parse-only mode *)

Lemma pumpTrace_unchecked main : forall evs CurTUElem,
  pumpTrace main false CurTUElem evs ->
  Forall (fun e => exists appended Done,
                     e = ParseIntoSourceFile main appended Done) evs.
Proof.
  induction evs as [|e evs IH]; intros cur; cbn; [done|].
  destruct e; try done. intros [-> Hrest]. constructor; [eauto|].
  by eapply IH.
Qed.

Lemma chunkCheckCondition_parse_only s :
  ParseOnly (Invocation s) = true -> chunkCheckCondition s = false.
Proof. unfold chunkCheckCondition. by intros ->. Qed.

(** C9 -- with [ParseOnly] set, every call [performParse] makes, however it
    ends, is something other than a chunk check or a whole-file check. *)
Theorem performParse_parse_only (host : Host) (fuel : nat)
  (s : CompilerInstance) :
  ParseOnly (Invocation s) = true ->
  extends (fun e => ~ isTypeCheck e) s (final (performParse host fuel s)).
Proof.
  intros Hpo.
  destruct (performParse_trace host fuel s)
    as (evsLib & evsPump & evsTail & _ & HC & HFL & HT & _ & _ & HFT & _).
  rewrite (chunkCheckCondition_parse_only s Hpo) in HT.
  apply pumpTrace_unchecked in HT. specialize (HFT Hpo).
  exists (evsLib ++ evsPump ++ evsTail). split; [done|].
  rewrite !Forall_app. repeat split.
  - eapply Forall_impl; [exact HFL|]. intros e He. destruct e; cbn in *; tauto.
  - eapply Forall_impl; [exact HT|]. intros e (? & ? & ->). cbn. tauto.
  - eapply Forall_impl; [exact HFT|]. intros e ->. cbn. tauto.
Qed.

Lemma performParse_parse_only_witness :
  let host := exampleHost None in
  let s := afterSetup host
             (exampleInvocation Main macosx_x86_64 [] ["a.swift"; "main.swift"]
                                None true) in
  ParseOnly (Invocation s) = true /\
  extends (fun e => ~ isTypeCheck e) s (final (performParse host 5 s)) /\
  Calls (final (performParse host 5 s))
    = [OpenInputFile "a.swift"; OpenInputFile "main.swift";
       ParseIntoSourceFile 0 ["x"; "y"] true; PerformNameBinding 0;
       ParseIntoSourceFile 1 ["a"] false; ParseIntoSourceFile 1 ["b"] true].
Proof.
  intros host s.
  assert (ParseOnly (Invocation s) = true) as Hpo by (vm_compute; reflexivity).
  split; [exact Hpo|]. split; [exact (performParse_parse_only host 5 s Hpo)|].
  vm_compute. reflexivity.
Defined.

(** ** A serialized module that fails to load *)

Lemma existsb_loadFails host s BufferID Buf :
  BufferID ∈ BufferIDs s -> BufferID <> MainBufferID s ->
  getMemoryBuffer (SourceMgr s) BufferID = Some Buf ->
  isSerializedAST host (getBuffer Buf) = true ->
  loadAST host Buf = false ->
  existsb (loadFails host s) (BufferIDs s) = true.
Proof.
  intros Hin Hne HBuf Hser Hload. apply existsb_exists. exists BufferID.
  split; [by apply list_elem_of_In|]. unfold loadFails.
  rewrite HBuf, Hser, Hload. by destruct (N.eqb_spec BufferID (MainBufferID s)).
Qed.

(** C1 -- some registered buffer other than the main one is a serialized
    module whose loading fails, and [performParse] does not stop at an
    assertion: then it returns, whatever the fuel, and the calls it made are
    those of the library loop alone -- every registered buffer other than
    the main one was handed to the loader or to the parser, the main buffer
    was not parsed, nothing was type-checked, no delayed parsing was run. *)
Theorem performParse_load_error (host : Host) (fuel : nat)
  (s : CompilerInstance) :
  InputKind (Invocation s) <> REPL ->
  (exists BufferID Buf,
     BufferID ∈ BufferIDs s /\ BufferID <> MainBufferID s /\
     getMemoryBuffer (SourceMgr s) BufferID = Some Buf /\
     isSerializedAST host (getBuffer Buf) = true /\
     loadAST host Buf = false) ->
  ~ assertionFailed (performParse host fuel s) ->
  exists evs,
    performParse host fuel s = Val tt (final (performParse host fuel s)) /\
    Calls (final (performParse host fuel s)) = Calls s ++ evs /\
    (forall BufferID, BufferID ∈ BufferIDs s -> BufferID <> MainBufferID s ->
                      attempted BufferID evs) /\
    Forall (isLibraryEvent (MainBufferID s)) evs /\
    Forall (fun e => ~ isTypeCheck e) evs.
Proof.
  intros HK (BufferID & Buf & Hin & Hne & HBuf & Hser & Hload) Hok.
  destruct (performParse_trace host fuel s)
    as (evsLib & evsPump & evsTail & _ & HC & HFL & _ & _ & _ & _ & Hval & _).
  destruct (Hval HK Hok) as (Hatt & Hflag).
  destruct (Hflag (existsb_loadFails _ _ _ _ Hin Hne HBuf Hser Hload))
    as (Hr & -> & ->).
  rewrite !app_nil_r in HC. exists evsLib. repeat split; try done.
  eapply Forall_impl; [exact HFL|]. intros e He. destruct e; cbn in *; tauto.
Qed.

Lemma performParse_load_error_witness :
  let host := exampleHost None in
  let s := afterSetup host
             (exampleInvocation Main macosx_x86_64 []
                ["bad.swiftmodule"; "main.swift"; "a.swift"] None false) in
  performParse host 0 s = Val tt (final (performParse host 0 s)) /\
  Calls (final (performParse host 0 s))
    = [OpenInputFile "bad.swiftmodule"; OpenInputFile "main.swift";
       OpenInputFile "a.swift"; LoadAST 0 false;
       ParseIntoSourceFile 2 ["x"; "y"] true; PerformNameBinding 2].
Proof.
  intros host s.
  assert (InputKind (Invocation s) <> REPL) as HK by (vm_compute; discriminate).
  assert (exists BufferID Buf,
            BufferID ∈ BufferIDs s /\ BufferID <> MainBufferID s /\
            getMemoryBuffer (SourceMgr s) BufferID = Some Buf /\
            isSerializedAST host (getBuffer Buf) = true /\
            loadAST host Buf = false) as Hbad.
  { exists 0, {| getBufferIdentifier := "bad.swiftmodule";
                 getBuffer := "#corrupt" |}.
    split; [vm_compute; apply list_elem_of_here|].
    split; [vm_compute; discriminate|]. repeat split; vm_compute; reflexivity. }
  assert (~ assertionFailed (performParse host 0 s)) as Hok
    by (vm_compute; tauto).
  destruct (performParse_load_error host 0%nat s HK Hbad Hok)
    as (evs & Hr & _).
  split; [exact Hr|]. vm_compute. reflexivity.
Defined.

(** ** Chunk checks in the main-file loop *)

Lemma middle_split {A} (P : A -> Prop) (l1 l2 l3 pre : list A) x post :
  Forall (fun e => ~ P e) l1 -> Forall (fun e => ~ P e) l3 -> P x ->
  l1 ++ l2 ++ l3 = pre ++ x :: post ->
  exists p q, pre = l1 ++ p /\ l2 = p ++ x :: q /\ post = q ++ l3.
Proof.
  intros H1 H3 Hx. revert pre.
  induction H1 as [|y l1 Hy _ IH1]; intros pre; cbn.
  - revert pre. induction l2 as [|y l2 IH2]; intros pre Heq; cbn in *.
    + exfalso. rewrite Forall_forall in H3. apply (H3 x); [|done].
      rewrite Heq. set_solver.
    + destruct pre as [|y' pre]; cbn in *.
      * injection Heq as -> <-. by exists [], l2.
      * injection Heq as -> Heq.
        destruct (IH2 _ Heq) as (p & q & -> & -> & ->). by exists (y' :: p), q.
  - destruct pre as [|y' pre]; cbn; intros Heq.
    + injection Heq as -> _. done.
    + injection Heq as -> Heq.
      destruct (IH1 _ Heq) as (p & q & -> & -> & ->). by exists p, q.
Qed.

Lemma declsParsed_app main l l' :
  declsParsed main (l ++ l') = (declsParsed main l + declsParsed main l')%nat.
Proof. apply sum_list_with_app. Qed.

Lemma declsParsed_library main evs :
  Forall (isLibraryEvent main) evs -> declsParsed main evs = 0%nat.
Proof.
  induction 1 as [|e evs He _ IH]; [done|].
  unfold declsParsed in *. cbn. rewrite IH.
  destruct e; cbn in *; try done.
  by destruct (N.eqb_spec BufferID main).
Qed.

Lemma pumpTrace_checked main : forall n pre l CurTUElem appended Done post,
  (length pre <= n)%nat ->
  pumpTrace main true CurTUElem l ->
  l = pre ++ ParseIntoSourceFile main appended Done :: post ->
  exists post',
    post = TypeCheckChunk (Some main) (CurTUElem + declsParsed main pre) :: post'.
Proof.
  induction n as [|n IH]; intros pre l cur appended Done post Hlen HT ->.
  - destruct pre; [|cbn in Hlen; lia]. cbn in HT. destruct HT as [_ HT].
    destruct post as [|[] post']; try done. destruct HT as (-> & -> & _).
    exists post'. unfold declsParsed. cbn. by rewrite Nat.add_0_r.
  - destruct pre as [|e [|e' pre]].
    + cbn in HT. destruct HT as [_ HT].
      destruct post as [|[] post']; try done. destruct HT as (-> & -> & _).
      exists post'. unfold declsParsed. cbn. by rewrite Nat.add_0_r.
    + cbn in HT. destruct e; try done. by destruct HT as [_ HT].
    + cbn in HT. destruct e; try done. destruct HT as [-> HT].
      destruct e'; try done. destruct HT as (-> & -> & HT).
      destruct (IH pre _ _ appended Done post ltac:(cbn in Hlen; lia) HT eq_refl)
        as (post' & ->).
      exists post'. unfold declsParsed. cbn. rewrite N.eqb_refl.
      do 2 f_equal. lia.
Qed.

Lemma pumpTrace_events main checked : forall n evs CurTUElem,
  (length evs <= n)%nat ->
  pumpTrace main checked CurTUElem evs -> Forall (isPumpEvent main) evs.
Proof.
  induction n as [|n IH]; intros evs cur Hlen HT.
  - destruct evs; [done|cbn in Hlen; lia].
  - destruct evs as [|e evs]; [done|]. cbn in HT.
    destruct e; try done. destruct HT as [-> HT]. constructor; [done|].
    destruct checked.
    + destruct evs as [|[] evs]; try done. destruct HT as (-> & -> & HT).
      constructor; [done|]. eapply IH; [|exact HT]. cbn in Hlen. lia.
    + eapply IH; [|exact HT]. cbn in Hlen. lia.
Qed.

(** C2, as amended -- the calls of [performParse], however it ends: when
    parse-only mode is off and (no primary buffer is designated or the main
    buffer is the primary one), every pump of the main file is followed at
    once by the type-checking of the main file from the number of
    declarations parsed into it before that pump, that is, of the
    declarations of the chunk; in every other case -- parse-only mode, or a
    primary buffer other than the main one -- no chunk is type-checked. *)
Theorem performParse_chunk_checks (host : Host) (fuel : nat)
  (s : CompilerInstance) :
  exists evs,
    Calls (final (performParse host fuel s)) = Calls s ++ evs /\
    (chunkCheckCondition s = true ->
     forall pre appended Done post,
       evs = pre ++ ParseIntoSourceFile (MainBufferID s) appended Done :: post ->
       exists post',
         post = TypeCheckChunk (Some (MainBufferID s))
                               (declsParsed (MainBufferID s) pre) :: post') /\
    (chunkCheckCondition s = false ->
     Forall (fun e => ~ isChunkCheck e) evs).
Proof.
  destruct (performParse_trace host fuel s)
    as (evsLib & evsPump & evsTail & _ & HC & HFL & HT & _ & HFT & _).
  exists (evsLib ++ evsPump ++ evsTail). split; [done|]. split.
  - intros Hcond pre appended Done post Heq. rewrite Hcond in HT.
    assert (Forall (fun e => ~ isPumpOf (MainBufferID s) e) evsLib) as H1.
    { eapply Forall_impl; [exact HFL|].
      intros e He; destruct e; cbn in *; tauto. }
    assert (Forall (fun e => ~ isPumpOf (MainBufferID s) e) evsTail) as H3.
    { eapply Forall_impl; [exact HFT|].
      intros e He; destruct e; cbn in *; tauto. }
    destruct (middle_split (isPumpOf (MainBufferID s)) evsLib evsPump evsTail
                pre (ParseIntoSourceFile (MainBufferID s) appended Done) post
                H1 H3 eq_refl Heq)
      as (p & q & -> & -> & ->).
    destruct (pumpTrace_checked _ _ p _ _ _ _ _ (Nat.le_refl _) HT eq_refl)
      as (post' & ->).
    exists (post' ++ evsTail).
    by rewrite declsParsed_app, (declsParsed_library _ evsLib).
  - intros Hcond. rewrite Hcond in HT. apply pumpTrace_unchecked in HT.
    rewrite !Forall_app. repeat split.
    + eapply Forall_impl; [exact HFL|]. intros e He. destruct e; cbn in *; tauto.
    + eapply Forall_impl; [exact HT|]. intros e (? & ? & ->). cbn. tauto.
    + eapply Forall_impl; [exact HFT|]. intros e He. destruct e; cbn in *; tauto.
Qed.

Lemma performParse_chunk_checks_witness :
  let host := exampleHost None in
  let s := afterSetup host
             (exampleInvocation Main macosx_x86_64 [] ["a.swift"; "main.swift"]
                                None false) in
  chunkCheckCondition s = true /\
  exists evs,
    Calls (final (performParse host 5 s)) = Calls s ++ evs /\
    forall pre appended Done post,
      evs = pre ++ ParseIntoSourceFile (MainBufferID s) appended Done :: post ->
      exists post',
        post = TypeCheckChunk (Some (MainBufferID s))
                              (declsParsed (MainBufferID s) pre) :: post'.
Proof.
  intros host s.
  assert (chunkCheckCondition s = true) as Hcond by (vm_compute; reflexivity).
  split; [exact Hcond|].
  destruct (performParse_chunk_checks host 5 s) as (evs & HC & Hchk & _).
  exists evs. split; [exact HC|]. exact (Hchk Hcond).
Defined.

(** C2, as the specification words it, fails when a primary buffer other
    than the main one is designated: with a.swift primary and main.swift the
    main file, the specification's condition holds whether or not parse-only
    mode is set, the main file is pumped, and no chunk is type-checked. *)
Lemma chunkCheckedAsSpecified_fails_with_other_primary :
  ~ chunkCheckedAsSpecified (exampleHost None) 5
      (afterSetup (exampleHost None) (libraryIsPrimary false)) /\
  ~ chunkCheckedAsSpecified (exampleHost None) 5
      (afterSetup (exampleHost None) (libraryIsPrimary true)).
Proof.
  split; intros H.
  all: destruct (H ltac:(vm_compute; reflexivity) ["a"] false
                   ltac:(apply list_elem_of_In; vm_compute; tauto))
         as [StartElem Hin].
  all: apply list_elem_of_In in Hin; vm_compute in Hin.
  all: intuition discriminate.
Qed.

(** ** Whole-file checks *)

(** With a primary buffer designated, the only file [performParse] checks as
    a whole is the primary one. *)
Lemma performParse_whole_file_checks_primary (host : Host) (fuel : nat)
  (s : CompilerInstance) :
  PrimaryBufferID s <> NO_SUCH_BUFFER ->
  exists evs,
    Calls (final (performParse host fuel s)) = Calls s ++ evs /\
    forall SF, TypeCheckWholeFile SF ∈ evs -> SF = Some (PrimaryBufferID s).
Proof.
  intros Hprimary.
  destruct (performParse_trace host fuel s)
    as (evsLib & evsPump & evsTail & _ & HC & HFL & HT & _ & HFT & _).
  exists (evsLib ++ evsPump ++ evsTail). split; [done|].
  apply (pumpTrace_events _ _ _ _ _ (Nat.le_refl _)) in HT.
  rewrite Forall_forall in HFL, HT, HFT.
  intros SF [Hin|[Hin|Hin]%elem_of_app]%elem_of_app.
  - by apply HFL in Hin.
  - by apply HT in Hin.
  - apply HFT in Hin. cbn in Hin. tauto.
Qed.

(** C3 -- one input, a.swift, which the fallback makes the main file, no
    primary buffer, type-checking on: the main file is pumped twice and
    type-checked chunk by chunk, and then the loop of lines 318-323 checks
    it once more as a whole. *)
Theorem performParse_checks_main_file_as_a_whole :
  let host := exampleHost None in
  let s := afterSetup host
             (exampleInvocation Main macosx_x86_64 [] ["a.swift"] None false) in
  MainBufferID s = 0 /\
  performParse host 5 s = Val tt (final (performParse host 5 s)) /\
  Calls (final (performParse host 5 s))
    = [OpenInputFile "a.swift";
       ParseIntoSourceFile 0 ["x"] false; TypeCheckChunk (Some 0) 0;
       ParseIntoSourceFile 0 ["y"] true; TypeCheckChunk (Some 0) 1;
       TypeCheckWholeFile (Some 0)].
Proof. vm_compute. done. Qed.

(** ** The assertions of SIL mode *)

Lemma setup_Invocation host Invok s0 failed s :
  setup host Invok s0 = Val failed s -> Invocation s = Invok.
Proof.
  unfold setup. msimpl.
  destruct (registerInputs host Invok s0) as [[|] s1|msg s1|s1] eqn:Hreg;
    try done.
  - intros [= <- <-]. by eapply registerInputs_Invocation.
  - destruct (implicitMainBuffer_spec s1) as [main ->]. intros [= <- <-].
    cbn. by eapply registerInputs_Invocation.
Qed.

(** C10, as amended -- a SIL-mode [setup] of a fresh instance that succeeded
    does not by itself make the two assertions of lines 213-214 hold; it
    does when the invocation has at least one input and exactly one buffer
    came to be registered: that buffer is then the main buffer, and
    [performParse] does not stop at any assertion, whatever the fuel. *)
Theorem setup_SIL_single_buffer (host : Host) (Invok : CompilerInvocation)
  (s : CompilerInstance) :
  InputKind Invok = SIL ->
  setup host Invok (newCompilerInstance Invok) = Val false s ->
  InputBuffers Invok <> [] \/ InputFilenames Invok <> [] ->
  length (BufferIDs s) = 1%nat ->
  SILAssertionsHold s /\
  BufferIDs s = [MainBufferID s] /\
  forall fuel, ~ assertionFailed (performParse host fuel s).
Proof.
  intros HK Hsetup Hsome Hone.
  destruct (setup_ids host Invok s Hsetup) as (Hids & Hmain).
  specialize (Hmain HK Hsome).
  pose proof (setup_Invocation _ _ _ _ _ Hsetup) as HI.
  unfold idsMatchRegistry in Hids. unfold mainRegistered in Hmain.
  assert (length (Buffers (SourceMgr s)) = 1%nat) as Hlen.
  { rewrite Hids, length_fmap, length_seq in Hone. done. }
  rewrite Hlen in Hids, Hmain. cbn in Hids.
  assert (MainBufferID s = 0) as HM by lia.
  assert (SILAssertionsHold s) as Hhold.
  { split; [done|]. rewrite HM. done. }
  split; [done|]. split; [by rewrite Hids, HM|].
  intros fuel Hfail.
  destruct (performParse_trace host fuel s)
    as (_ & _ & _ & _ & _ & _ & _ & _ & _ & _ & _ & Hwhy).
  rewrite HI, HK in Hwhy.
  destruct (Hwhy Hfail) as [[_ Hno]|[(_ & _ & Hno)|(BufferID & Hin & Hne)]];
    [done..|].
  rewrite Hids in Hin. rewrite HM in Hne.
  by apply list_elem_of_singleton in Hin.
Qed.

Lemma setup_SIL_single_buffer_witness :
  let host := exampleHost None in
  let Invok := exampleInvocation SIL macosx_x86_64 [] ["a.swift"] None false in
  let s := afterSetup host Invok in
  setup host Invok (newCompilerInstance Invok) = Val false s /\
  SILAssertionsHold s /\ BufferIDs s = [MainBufferID s] /\
  ~ assertionFailed (performParse host 5 s).
Proof.
  intros host Invok s.
  assert (setup host Invok (newCompilerInstance Invok) = Val false s) as Hsetup
    by (vm_compute; reflexivity).
  assert (length (BufferIDs s) = 1%nat) as Hone by (vm_compute; reflexivity).
  assert (InputFilenames Invok <> []) as Hsome by discriminate.
  destruct (setup_SIL_single_buffer host Invok s eq_refl Hsetup
              (or_intror Hsome) Hone)
    as (Hhold & Hids & Hok).
  split; [exact Hsetup|]. split; [exact Hhold|]. split; [exact Hids|].
  exact (Hok 5%nat).
Defined.

(** C10, as the specification words it, fails: a SIL-mode [setup] with two
    memory inputs succeeds, and [performParse] then stops at the first
    assertion. *)
Lemma SILAssertionsNeverFire_fails_with_two_inputs :
  ~ SILAssertionsNeverFire (exampleHost None) (twoMemoryInputs SIL None) /\
  performParse (exampleHost None) 5
    (afterSetup (exampleHost None) (twoMemoryInputs SIL None))
  = AssertFail "BufferIDs.size() == 1"
      (final (performParse (exampleHost None) 5
                (afterSetup (exampleHost None) (twoMemoryInputs SIL None)))).
Proof.
  split.
  - intros H.
    assert (setup (exampleHost None) (twoMemoryInputs SIL None)
                  (newCompilerInstance (twoMemoryInputs SIL None))
            = Val false (afterSetup (exampleHost None) (twoMemoryInputs SIL None)))
      as Hsetup by (vm_compute; reflexivity).
    apply (H eq_refl _ Hsetup 5%nat). vm_compute. exact I.
  - vm_compute. reflexivity.
Qed.

(** * Further properties of [setup] *)

(** ** The loader chain, in order *)

Section LoaderOrder.
Context (host : Host).

Lemma configureContext_loaders Invok s0 :
  isMacOSX (IRGenTriple Invok) || isiOS (IRGenTriple Invok) = true ->
  ModuleLoaders (final (configureContext host Invok s0)) =
    (if EnableSourceImport Invok
     then [SourceLoader (negb (actionIsImmediate Invok))] else []) ++
    [SerializedModuleLoader] ++
    match getClangImporterCtor host with
    | Some ImporterCtor => if ImporterCtor Invok then [ClangImporter] else []
    | None => []
    end.
Proof.
  intros Hos. unfold configureContext, wireClangImporter. msimpl.
  assert (forall t, Invocation t = Invok ->
            exists opts, setTargetConfigurations t
                         = Val tt (set_TargetConfigOptions opts t)) as Htc.
  { intros t Ht. apply setTargetConfigurations_known_os. by rewrite Ht. }
  destruct (bool_decide (LLVMArgs Invok = [])); cbn;
    (match goal with |- context [setTargetConfigurations ?t] =>
       destruct (Htc t eq_refl) as [opts ->] end);
    cbn; destruct (EnableSourceImport Invok); cbn;
    destruct (getClangImporterCtor host) as [ImporterCtor|]; cbn;
    try destruct (ImporterCtor Invok);
    try destruct (String.eqb (SDKPath Invok) EmptyString);
    cbn; done.
Qed.

End LoaderOrder.

(** X1 -- for a target whose OS is accepted, however [setup] ends the
    loaders of the context are, in this order: the source loader if source
    import is enabled (delayed unless the action is immediate), the
    serialized-module loader, and the Clang importer if its constructor is
    linked in and returned one.  Loaders the instance had before, from an
    earlier [setup], are gone. *)
Theorem setup_loader_order (host : Host) (Invok : CompilerInvocation)
  (s0 : CompilerInstance) :
  isMacOSX (IRGenTriple Invok) || isiOS (IRGenTriple Invok) = true ->
  ModuleLoaders (final (setup host Invok s0)) =
    (if EnableSourceImport Invok
     then [SourceLoader (negb (actionIsImmediate Invok))] else []) ++
    [SerializedModuleLoader] ++
    match getClangImporterCtor host with
    | Some ImporterCtor => if ImporterCtor Invok then [ClangImporter] else []
    | None => []
    end.
Proof.
  intros Hos. rewrite <- (configureContext_loaders host Invok s0 Hos).
  destruct (configureContext_spec host Invok s0 Hos)
    as (failed & s1 & Heq & _).
  rewrite Heq. cbn. destruct failed.
  - by rewrite (setup_stops_at_configureContext _ _ _ _ Heq).
  - by destruct (setup_after_configureContext _ _ _ _ Heq) as (_ & -> & _).
Qed.

Lemma setup_loader_order_witness :
  ModuleLoaders
    (final (setup (exampleHost (Some (fun _ => true))) fullInvocation
                  (set_Context [ClangImporter; ClangImporter] []
                     (newCompilerInstance fullInvocation))))
  = [SourceLoader false; SerializedModuleLoader; ClangImporter].
Proof.
  exact (setup_loader_order (exampleHost (Some (fun _ => true))) fullInvocation
           (set_Context [ClangImporter; ClangImporter] []
              (newCompilerInstance fullInvocation)) eq_refl).
Defined.

(** ** Diagnostics *)

Lemma addCodeCompletionBuffer_full s :
  exists s',
    addCodeCompletionBuffer s = Val tt s' /\
    Invocation s' = Invocation s /\ Diagnostics s' = Diagnostics s /\
    Calls s' = Calls s /\
    MainBufferID s' = MainBufferID s /\
    PrimaryBufferID s' = PrimaryBufferID s /\
    match CodeCompletionPoint (Invocation s) with
    | Some (MemBuf, Offset) =>
        Buffers (SourceMgr s') = Buffers (SourceMgr s) ++ [MemBuf] /\
        BufferIDs s' = BufferIDs s ++ [N.of_nat (length (Buffers (SourceMgr s)))] /\
        CodeCompletionLoc (SourceMgr s')
          = Some (N.of_nat (length (Buffers (SourceMgr s))), Offset)
    | None => SourceMgr s' = SourceMgr s /\ BufferIDs s' = BufferIDs s
    end.
Proof.
  unfold addCodeCompletionBuffer. msimpl.
  destruct (CodeCompletionPoint _) as [[MemBuf Offset]|];
    eexists; (split; [reflexivity|]); cbn; done.
Qed.

Lemma addInputBuffers_frame bufs : forall i s,
  Diagnostics (final (addInputBuffers i bufs s)) = Diagnostics s /\
  CodeCompletionLoc (SourceMgr (final (addInputBuffers i bufs s)))
    = CodeCompletionLoc (SourceMgr s).
Proof.
  induction bufs as [|Buf rest IH]; intros i s; cbn [addInputBuffers]; [done|].
  msimpl.
  destruct (SILMode _), (primaryIsBuffer _ _); cbn;
    (match goal with |- context [addInputBuffers (S i) rest ?t] =>
       destruct (IH (S i) t) as [-> ->] end); done.
Qed.

Section Diagnostics.
Context (host : Host).

Lemma addInputFilenames_diagnostics files : forall i s failed s',
  addInputFilenames host i files s = Val failed s' ->
  if failed then
    exists File message,
      File ∈ files /\ getFileOrSTDIN host File = inl message /\
      Diagnostics s' = Diagnostics s ++ [error_open_input_file File message] /\
      exists calls, Calls s' = calls ++ [OpenInputFile File]
  else Diagnostics s' = Diagnostics s.
Proof.
  induction files as [|File rest IH]; intros i s failed s';
    cbn [addInputFilenames].
  - by intros [= <- <-].
  - msimpl.
    destruct (addInputFilename_spec host i File s)
      as (failed1 & s1 & -> & _ & Hcase).
    destruct failed1.
    + intros [= <- <-].
      destruct (getIDForBufferIdentifier (SourceMgr s) File);
        [by destruct Hcase|].
      destruct Hcase as (HC & Hopen).
      destruct (getFileOrSTDIN host File) as [message|InputFile] eqn:Hfs;
        [|by destruct Hopen].
      destruct Hopen as (_ & _ & _ & HD & _).
      exists File, message.
      split; [by apply elem_of_cons; left|]. do 2 (split; [done|]).
      by eexists.
    + intros Hrest. specialize (IH _ _ _ _ Hrest).
      assert (Diagnostics s1 = Diagnostics s) as HD1.
      { destruct (getIDForBufferIdentifier (SourceMgr s) File).
        - by destruct Hcase as (_ & _ & _ & _ & ? & _).
        - destruct Hcase as (_ & Hopen).
          destruct (getFileOrSTDIN host File); [by destruct Hopen|].
          by destruct Hopen as (_ & _ & _ & ? & _). }
      rewrite HD1 in IH. destruct failed; [|done].
      destruct IH as (F & m & Hin & Hfs & HD & HC). exists F, m.
      split; [by apply elem_of_cons; right|done].
Qed.

Lemma admitBuffers_diagnostics Invok s failed s' :
  admitBuffers host Invok s = Val failed s' ->
  if failed then
    exists File message,
      File ∈ InputFilenames Invok /\ getFileOrSTDIN host File = inl message /\
      Diagnostics s' = Diagnostics s ++ [error_open_input_file File message] /\
      exists calls, Calls s' = calls ++ [OpenInputFile File]
  else Diagnostics s' = Diagnostics s.
Proof.
  unfold admitBuffers. msimpl.
  destruct (isIdentifier _ _); cbn; [|done].
  destruct (addCodeCompletionBuffer_full s) as (s1 & -> & _ & HD1 & _).
  destruct (addInputBuffers_spec (InputBuffers Invok) 0%nat s1) as (s2 & Heq2 & _).
  destruct (addInputBuffers_frame (InputBuffers Invok) 0%nat s1) as [HD2 _].
  rewrite Heq2 in HD2 |- *. cbn in HD2. rewrite <- HD1, <- HD2.
  apply addInputFilenames_diagnostics.
Qed.

End Diagnostics.

(** X2 -- [setup] returns [true] exactly when it has emitted a diagnostic,
    and then exactly one: a call that returns [false] leaves the
    diagnostics as they were; a call that returns [true] has added one
    diagnostic, which is the importer's creation failure, the importer not
    being linked in, or the failure to open one of the input files, with
    the message the file system gave; in that last case the failed attempt
    to open that file is the last call [setup] made. *)
Theorem setup_diagnostics (host : Host) (Invok : CompilerInvocation)
  (s0 s : CompilerInstance) (failed : bool) :
  setup host Invok s0 = Val failed s ->
  if failed then
    exists d,
      Diagnostics s = Diagnostics s0 ++ [d] /\
      (d = error_clang_importer_create_fail \/
       d = error_clang_importer_not_linked_in \/
       exists File message,
         d = error_open_input_file File message /\
         File ∈ InputFilenames Invok /\
         getFileOrSTDIN host File = inl message /\
         exists calls, Calls s = calls ++ [OpenInputFile File])
  else Diagnostics s = Diagnostics s0.
Proof.
  intros Hsetup.
  destruct (isMacOSX (IRGenTriple Invok) || isiOS (IRGenTriple Invok)) eqn:Hos.
  2:{ exfalso. revert Hsetup. unfold setup, registerInputs, configureContext.
      msimpl. destruct (bool_decide (LLVMArgs Invok = [])); cbn;
        by rewrite setTargetConfigurations_unknown_os. }
  destruct (configureContext_spec host Invok s0 Hos)
    as (failed1 & s1 & Hcfg & _ & _ & _ & _ & _ & _ & _ & Hcase).
  destruct failed1.
  - rewrite (setup_stops_at_configureContext _ _ _ _ Hcfg) in Hsetup.
    injection Hsetup as <- <-.
    destruct (getClangImporterCtor host) as [ImporterCtor|].
    + destruct (ImporterCtor Invok); [by destruct Hcase|].
      destruct Hcase as [_ ->]. eauto.
    + destruct (String.eqb (SDKPath Invok) EmptyString); [by destruct Hcase|].
      destruct Hcase as [_ ->]. eauto.
  - assert (Diagnostics s1 = Diagnostics s0) as HD1.
    { destruct (getClangImporterCtor host) as [ImporterCtor|].
      - destruct (ImporterCtor Invok);
          [by destruct Hcase as (_ & ? & _)|by destruct Hcase].
      - destruct (String.eqb (SDKPath Invok) EmptyString); by destruct Hcase. }
    revert Hsetup. unfold setup, registerInputs. msimpl. rewrite Hcfg.
    destruct (admitBuffers host Invok s1) as [failed2 s2|msg s2|s2] eqn:Hadm;
      try done.
    pose proof (admitBuffers_diagnostics host _ _ _ _ Hadm) as Hdiag.
    destruct failed2.
    + intros [= <- <-]. destruct Hdiag as (File & message & Hin & Hfs & HD & HC).
      exists (error_open_input_file File message). rewrite HD, HD1.
      split; [done|]. right. right. eauto 10.
    + destruct (implicitMainBuffer_spec s2) as [main ->]. intros [= <- <-].
      cbn. congruence.
Qed.

Lemma setup_diagnostics_witness :
  let host := exampleHost None in
  let Invok :=
    exampleInvocation Main macosx_x86_64 [] ["a.swift"; "gone.swift"; "b.swift"]
                      None false in
  let s := afterSetup host Invok in
  setup host Invok (newCompilerInstance Invok) = Val true s /\
  exists d, Diagnostics s = [] ++ [d].
Proof.
  intros host Invok s.
  assert (setup host Invok (newCompilerInstance Invok) = Val true s) as Hsetup
    by (vm_compute; reflexivity).
  split; [exact Hsetup|].
  destruct (setup_diagnostics host Invok _ s true Hsetup) as (d & Hd & _).
  by exists d.
Defined.

(** ** The selected buffers *)

Section Selection.
Context (host : Host).

Lemma configureContext_selection Invok s :
  SourceMgr (final (configureContext host Invok s)) = SourceMgr s /\
  BufferIDs (final (configureContext host Invok s)) = BufferIDs s /\
  MainBufferID (final (configureContext host Invok s)) = MainBufferID s /\
  PrimaryBufferID (final (configureContext host Invok s)) = PrimaryBufferID s.
Proof.
  destruct (isMacOSX (IRGenTriple Invok) || isiOS (IRGenTriple Invok)) eqn:Hos.
  - destruct (configureContext_spec host Invok s Hos)
      as (failed & s1 & -> & _ & _ & ? & ? & ? & ? & _).
    done.
  - unfold configureContext. msimpl.
    destruct (bool_decide (LLVMArgs Invok = [])); cbn;
      by rewrite setTargetConfigurations_unknown_os.
Qed.

Lemma addInputFilenames_main_other_kind files : forall i s,
  SILMode (Invocation s) = false -> MainMode (Invocation s) = false ->
  MainBufferID (final (addInputFilenames host i files s)) = MainBufferID s.
Proof.
  induction files as [|File rest IH]; intros i s Hsil Hmain;
    cbn [addInputFilenames]; [done|].
  msimpl.
  destruct (addInputFilename_spec host i File s)
    as (failed & s1 & -> & HI & Hcase).
  assert (MainBufferID s1 = MainBufferID s) as HM.
  { unfold fileIsMain in Hcase. rewrite Hsil, Hmain in Hcase. cbn in Hcase.
    destruct (getIDForBufferIdentifier (SourceMgr s) File).
    - by destruct Hcase as (_ & _ & _ & _ & _ & ? & _).
    - destruct Hcase as (_ & Hopen).
      destruct (getFileOrSTDIN host File).
      + by destruct Hopen as (_ & _ & _ & _ & ? & _).
      + by destruct Hopen as (_ & _ & _ & _ & ? & _). }
  destruct failed; cbn; [done|].
  rewrite IH by (by rewrite HI). done.
Qed.

End Selection.

(** X3 -- a main buffer is designated only for the Main and SIL input
    kinds: with any other kind [setup], however it ends, leaves
    [MainBufferID] as it found it, whatever the names of the inputs and
    however many there are.  On a fresh instance no main buffer is
    designated, so the assertion of line 241 of [performParse] holds after
    such a [setup]. *)
Theorem setup_main_only_for_Main_or_SIL (host : Host)
  (Invok : CompilerInvocation) (s0 : CompilerInstance) :
  InputKind Invok <> Main -> InputKind Invok <> SIL ->
  MainBufferID (final (setup host Invok s0)) = MainBufferID s0.
Proof.
  intros HnM HnS.
  destruct (configureContext_selection host Invok s0) as (_ & _ & HM0 & _).
  unfold setup, registerInputs. msimpl.
  destruct (configureContext host Invok s0) as [[|] s1|msg s1|s1] eqn:Hcfg;
    cbn in *; try done.
  assert (Invocation s1 = Invok) as HI1.
  { destruct (isMacOSX (IRGenTriple Invok) || isiOS (IRGenTriple Invok)) eqn:Hos.
    - destruct (configureContext_spec host Invok s0 Hos)
        as (failed & s1' & Heq & HI & _). congruence.
    - revert Hcfg. unfold configureContext. msimpl.
      destruct (bool_decide (LLVMArgs Invok = [])); cbn;
        by rewrite setTargetConfigurations_unknown_os. }
  assert (SILMode Invok = false) as Hsil
    by (unfold SILMode; by rewrite bool_decide_eq_false_2).
  assert (MainMode Invok = false) as Hmain
    by (unfold MainMode; by rewrite bool_decide_eq_false_2).
  assert (MainBufferID (final (admitBuffers host Invok s1)) = MainBufferID s1)
    as HM1.
  { unfold admitBuffers. msimpl. destruct (isIdentifier _ _); cbn; [|done].
    destruct (addCodeCompletionBuffer_full s1)
      as (s2 & -> & HI2 & _ & _ & HM2 & _).
    destruct (addInputBuffers_spec (InputBuffers Invok) 0%nat s2)
      as (s3 & -> & HI3 & _ & _ & _ & HM3 & _).
    rewrite HI2, HI1, Hsil in HM3.
    rewrite addInputFilenames_main_other_kind by (by rewrite HI3, HI2, HI1).
    congruence. }
  pose proof (admitBuffers_sameContext host Invok s1) as (HI2 & _).
  destruct (admitBuffers host Invok s1) as [[|] s2|msg s2|s2]; cbn in *;
    try congruence.
  unfold implicitMainBuffer. msimpl. unfold id.
  rewrite HI2, HI1, Hmain.
  destruct (BufferIDs s2) as [|front [|]]; cbn; congruence.
Qed.

Lemma setup_main_only_for_Main_or_SIL_witness :
  let Invok :=
    exampleInvocation Library macosx_x86_64 [] ["main.swift"] None false in
  MainBufferID (final (setup (exampleHost None) Invok (newCompilerInstance Invok)))
  = NO_SUCH_BUFFER.
Proof.
  intros Invok.
  exact (setup_main_only_for_Main_or_SIL (exampleHost None) Invok
           (newCompilerInstance Invok) ltac:(discriminate) ltac:(discriminate)).
Defined.

(** ** Ids after [setup] *)

Lemma designatedOK_grow BufferID s s' more :
  Buffers (SourceMgr s') = Buffers (SourceMgr s) ++ more ->
  designatedOK BufferID s -> designatedOK BufferID s'.
Proof.
  unfold designatedOK. intros -> [?|?]; [by left|right].
  rewrite length_app. lia.
Qed.

Lemma designatedOK_new BufferID s s' more :
  Buffers (SourceMgr s') = Buffers (SourceMgr s) ++ more ->
  (N.to_nat BufferID < length (Buffers (SourceMgr s)) + length more)%nat ->
  designatedOK BufferID s'.
Proof.
  unfold designatedOK. intros -> Hlt. right. rewrite length_app. lia.
Qed.

Section ValidIds.
Context (host : Host).

Lemma addInputBuffers_designated s :
  designatedOK (MainBufferID s) s -> designatedOK (PrimaryBufferID s) s ->
  exists s',
    addInputBuffers 0 (InputBuffers (Invocation s)) s = Val tt s' /\
    designatedOK (MainBufferID s') s' /\ designatedOK (PrimaryBufferID s') s'.
Proof.
  intros HM HP.
  destruct (addInputBuffers_spec (InputBuffers (Invocation s)) 0%nat s)
    as (s' & Heq & _ & _ & HB & _ & HM' & HP').
  exists s'. split; [done|]. split.
  - rewrite HM'. destruct (SILMode _); [|by eapply designatedOK_grow].
    destruct (length (InputBuffers (Invocation s))) as [|k] eqn:Hlen;
      [by eapply designatedOK_grow|].
    eapply designatedOK_new; [exact HB|]. rewrite Hlen. lia.
  - rewrite HP'. destruct (PrimaryInput _) as [sel|];
      [|by eapply designatedOK_grow].
    destruct (isBuffer sel), (Nat.leb_spec 0 (Index sel)),
      (Nat.ltb_spec (Index sel) (0 + length (InputBuffers (Invocation s))));
      cbn; try (by eapply designatedOK_grow).
    eapply designatedOK_new; [exact HB|]. lia.
Qed.

Lemma addInputFilename_designated i File s failed s' :
  addInputFilename host i File s = Val failed s' ->
  designatedOK (MainBufferID s) s -> designatedOK (PrimaryBufferID s) s ->
  designatedOK (MainBufferID s') s' /\ designatedOK (PrimaryBufferID s') s'.
Proof.
  intros Heq HM HP.
  destruct (addInputFilename_spec host i File s)
    as (failed' & s'' & Heq' & _ & Hcase).
  rewrite Heq in Heq'. injection Heq' as <- <-.
  destruct (getIDForBufferIdentifier (SourceMgr s) File) as [Existing|] eqn:Hfind.
  - destruct Hcase as (_ & HSM & _ & _ & _ & -> & ->).
    apply getIDForBufferIdentifier_Some in Hfind as (_ & _ & _ & Hlt).
    unfold designatedOK in *. rewrite HSM.
    split; [destruct (fileIsMain _ _)|destruct (primaryIsFilename _ _)]; tauto.
  - destruct Hcase as (_ & Hopen).
    destruct (getFileOrSTDIN host File) as [message|InputFile].
    + destruct Hopen as (_ & HSM & _ & _ & -> & ->).
      unfold designatedOK in *. by rewrite HSM.
    + destruct Hopen as (_ & HB & _ & _ & -> & ->).
      split; [destruct (fileIsMain _ _)|destruct (primaryIsFilename _ _)];
        try (by eapply designatedOK_grow);
        (eapply designatedOK_new; [exact HB|cbn; lia]).
Qed.

Lemma addInputFilenames_designated files : forall i s s',
  addInputFilenames host i files s = Val false s' ->
  designatedOK (MainBufferID s) s -> designatedOK (PrimaryBufferID s) s ->
  designatedOK (MainBufferID s') s' /\ designatedOK (PrimaryBufferID s') s'.
Proof.
  induction files as [|File rest IH]; intros i s s'; cbn [addInputFilenames].
  - by intros [= <-].
  - msimpl. intros Heq HM HP.
    destruct (addInputFilename_spec host i File s) as (failed & s1 & Heq1 & _).
    destruct (addInputFilename_designated _ _ _ _ _ Heq1 HM HP) as [HM1 HP1].
    rewrite Heq1 in Heq. destruct failed; [done|]. by eapply IH.
Qed.

End ValidIds.

Section ValidIdsSetup.
Context (host : Host).

Lemma admitBuffers_designated Invok s s' :
  Invocation s = Invok ->
  admitBuffers host Invok s = Val false s' ->
  designatedOK (MainBufferID s) s -> designatedOK (PrimaryBufferID s) s ->
  designatedOK (MainBufferID s') s' /\ designatedOK (PrimaryBufferID s') s'.
Proof.
  intros HInv. unfold admitBuffers. msimpl.
  destruct (isIdentifier _ _); cbn; [|done].
  destruct (addCodeCompletionBuffer_spec s)
    as (s1 & more & -> & HI1 & _ & HM1 & HP1 & HB1 & _).
  intros Heq HM HP.
  assert (designatedOK (MainBufferID s1) s1) as HM1'
    by (rewrite HM1; by eapply designatedOK_grow).
  assert (designatedOK (PrimaryBufferID s1) s1) as HP1'
    by (rewrite HP1; by eapply designatedOK_grow).
  destruct (addInputBuffers_designated s1 HM1' HP1') as (s2 & Heq2 & HM2 & HP2).
  rewrite HI1, HInv in Heq2. rewrite Heq2 in Heq.
  by eapply addInputFilenames_designated.
Qed.

End ValidIdsSetup.

(** X4 -- after a successful [setup] of a fresh instance, [BufferIDs] has
    no duplicates and holds exactly the ids the registry knows, so that
    [performParse] never meets an invalid buffer id; and each of the main
    and the primary buffer is either not designated or one of [BufferIDs]. *)
Theorem setup_valid_ids (host : Host) (Invok : CompilerInvocation)
  (s : CompilerInstance) :
  setup host Invok (newCompilerInstance Invok) = Val false s ->
  NoDup (BufferIDs s) /\
  (forall BufferID,
     BufferID ∈ BufferIDs s <-> is_Some (getMemoryBuffer (SourceMgr s) BufferID)) /\
  (MainBufferID s = NO_SUCH_BUFFER \/ MainBufferID s ∈ BufferIDs s) /\
  (PrimaryBufferID s = NO_SUCH_BUFFER \/ PrimaryBufferID s ∈ BufferIDs s).
Proof.
  intros Hsetup.
  destruct (setup_ids host Invok s Hsetup) as [Hids _].
  assert (forall BufferID,
            BufferID ∈ BufferIDs s <->
            (N.to_nat BufferID < length (Buffers (SourceMgr s)))%nat) as Hmem.
  { intros BufferID. rewrite Hids, list_elem_of_fmap. split.
    - intros (k & -> & Hk%elem_of_seq). lia.
    - intros Hlt. exists (N.to_nat BufferID).
      split; [by rewrite N2Nat.id|]. apply elem_of_seq. lia. }
  assert (designatedOK (MainBufferID s) s /\ designatedOK (PrimaryBufferID s) s)
    as [HM HP].
  { revert Hsetup Hids. unfold setup, registerInputs. msimpl.
    destruct (configureContext_selection host Invok (newCompilerInstance Invok))
      as (HSM & HIDs & HM0 & HP0).
    destruct (configureContext host Invok (newCompilerInstance Invok))
      as [[|] s1|msg s1|s1] eqn:Hcfg; cbn in *; try done.
    assert (Invocation s1 = Invok) as HI1.
    { destruct (isMacOSX (IRGenTriple Invok) || isiOS (IRGenTriple Invok)) eqn:Hos.
      - destruct (configureContext_spec host Invok
                    (newCompilerInstance Invok) Hos)
          as (failed & s1' & Heq & HI & _). congruence.
      - revert Hcfg. unfold configureContext. msimpl.
        destruct (bool_decide (LLVMArgs Invok = [])); cbn;
          by rewrite setTargetConfigurations_unknown_os. }
    destruct (admitBuffers host Invok s1) as [[|] s2|msg s2|s2] eqn:Hadm;
      try done.
    destruct (admitBuffers_designated host Invok s1 s2 HI1 Hadm) as [HM2 HP2];
      [left; by rewrite HM0|left; by rewrite HP0|].
    destruct (admitBuffers_ids host Invok s1 s2 HI1 Hadm) as [Hids2 _].
    { unfold idsMatchRegistry. by rewrite HSM, HIDs. }
    unfold implicitMainBuffer. msimpl. unfold id.
    destruct (BufferIDs s2) as [|front [|]] eqn:HB2; cbn;
      try (intros [= <-] _; done).
    destruct (MainMode _ && _); cbn; intros [= <-] _; [|done].
    split; [|done]. right. cbn.
    unfold idsMatchRegistry in Hids2. rewrite HB2 in Hids2.
    destruct (Buffers (SourceMgr s2)) as [|b [|]]; cbn in Hids2; try done.
    injection Hids2 as ->. cbn. lia. }
  split; [rewrite Hids; apply NoDup_fmap_2; [apply _|apply NoDup_seq]|].
  split.
  - intros BufferID. rewrite Hmem. unfold getMemoryBuffer.
    by rewrite lookup_lt_is_Some.
  - split; [destruct HM as [?|?]|destruct HP as [?|?]]; try (by left);
      right; apply Hmem; lia.
Qed.

Lemma setup_valid_ids_witness :
  let host := exampleHost (Some (fun _ => true)) in
  let s := afterSetup host fullInvocation in
  setup host fullInvocation (newCompilerInstance fullInvocation) = Val false s /\
  NoDup (BufferIDs s) /\ BufferIDs s = [0; 1; 2; 3] /\
  MainBufferID s ∈ BufferIDs s /\ PrimaryBufferID s = 0.
Proof.
  intros host s.
  assert (setup host fullInvocation (newCompilerInstance fullInvocation)
          = Val false s) as Hsetup by (vm_compute; reflexivity).
  destruct (setup_valid_ids host fullInvocation s Hsetup)
    as (Hnd & _ & [Hmain|Hmain] & _).
  - exfalso. revert Hmain. vm_compute. discriminate.
  - split; [exact Hsetup|]. split; [exact Hnd|].
    split; [vm_compute; reflexivity|]. split; [exact Hmain|].
    vm_compute. reflexivity.
Defined.

(** ** The code-completion buffer *)

Lemma registryGrows_refl s : registryGrows s s.
Proof. split; [done|]. exists []. by rewrite app_nil_r. Qed.

Lemma registryGrows_trans s1 s2 s3 :
  registryGrows s1 s2 -> registryGrows s2 s3 -> registryGrows s1 s3.
Proof.
  intros (H1 & m1 & HB1) (H2 & m2 & HB2). split; [congruence|].
  exists (m1 ++ m2). by rewrite HB2, HB1, app_assoc.
Qed.

Lemma registryGrows_lookup s s' BufferID Buf :
  registryGrows s s' ->
  getMemoryBuffer (SourceMgr s) BufferID = Some Buf ->
  getMemoryBuffer (SourceMgr s') BufferID = Some Buf.
Proof.
  intros (_ & more & HB). unfold getMemoryBuffer. rewrite HB.
  intros H. by apply lookup_app_l_Some.
Qed.

Lemma registryGrows_registered name s s' :
  registryGrows s s' -> registered name s -> registered name s'.
Proof. intros (_ & more & HB). by apply registered_mono with more. Qed.

Section CodeCompletion.
Context (host : Host).

Lemma addInputFilename_registryGrows i File s :
  registryGrows s (final (addInputFilename host i File s)).
Proof.
  unfold addInputFilename. msimpl.
  destruct (getIDForBufferIdentifier (SourceMgr s) File) as [Existing|].
  - rewrite selectFromFilename_spec. cbn. split; [done|].
    exists []. by rewrite app_nil_r.
  - cbn. destruct (getFileOrSTDIN host File) as [message|InputFile]; cbn.
    + split; [done|]. exists []. by rewrite app_nil_r.
    + rewrite selectFromFilename_spec. cbn. split; [done|]. by eexists.
Qed.

Lemma addInputFilenames_registryGrows files : forall i s,
  registryGrows s (final (addInputFilenames host i files s)).
Proof.
  induction files as [|File rest IH]; intros i s; cbn [addInputFilenames].
  - apply registryGrows_refl.
  - msimpl. pose proof (addInputFilename_registryGrows i File s) as H1.
    destruct (addInputFilename host i File s) as [[|] s1|msg s1|s1];
      cbn in *; try done.
    eapply registryGrows_trans; [exact H1|apply IH].
Qed.

Lemma addInputBuffers_registryGrows bufs i s :
  registryGrows s (final (addInputBuffers i bufs s)).
Proof.
  destruct (addInputBuffers_frame bufs i s) as [_ HL].
  destruct (addInputBuffers_spec bufs i s) as (s' & Heq & _ & _ & HB & _).
  rewrite Heq in HL |- *. cbn in *. split; [done|]. by eexists.
Qed.

End CodeCompletion.

(** X5 -- a code-completion buffer is admitted before every input: after a
    successful [setup] of a fresh instance it is buffer 0, the first of
    [BufferIDs], the code-completion point is recorded in it at the offset
    given, no file with its identifier was opened (a file input of that
    name stands for it), and [performParse] will pick the code-completion
    callbacks, whether or not delayed function bodies are asked for. *)
Theorem setup_code_completion_buffer (host : Host)
  (Invok : CompilerInvocation) (MemBuf : MemoryBuffer) (Offset : nat)
  (s : CompilerInstance) :
  CodeCompletionPoint Invok = Some (MemBuf, Offset) ->
  setup host Invok (newCompilerInstance Invok) = Val false s ->
  getMemoryBuffer (SourceMgr s) 0 = Some MemBuf /\
  (exists rest, BufferIDs s = 0 :: rest) /\
  CodeCompletionLoc (SourceMgr s) = Some (0, Offset) /\
  (OpenInputFile (getBufferIdentifier MemBuf) ∉ Calls s) /\
  selectDelayedCB s = Some (CodeCompleteDelayedCallbacks (Some (0, Offset))).
Proof.
  intros Hcc Hsetup.
  pose proof (setup_Invocation _ _ _ _ _ Hsetup) as HI.
  destruct (setup_ids host Invok s Hsetup) as [Hids _].
  revert Hsetup. unfold setup, registerInputs. msimpl.
  destruct (configureContext_selection host Invok (newCompilerInstance Invok))
    as (HSM & _).
  pose proof (configureContext_no_open host Invok (newCompilerInstance Invok))
    as (evs0 & HC0 & HF0).
  destruct (configureContext host Invok (newCompilerInstance Invok))
    as [[|] s1|msg s1|s1] eqn:Hcfg; cbn in *; try done.
  assert (Invocation s1 = Invok) as HI1.
  { destruct (isMacOSX (IRGenTriple Invok) || isiOS (IRGenTriple Invok)) eqn:Hos.
    - destruct (configureContext_spec host Invok
                  (newCompilerInstance Invok) Hos)
        as (failed & s1' & Heq & HI' & _). congruence.
    - revert Hcfg. unfold configureContext. msimpl.
      destruct (bool_decide (LLVMArgs Invok = [])); cbn;
        by rewrite setTargetConfigurations_unknown_os. }
  unfold admitBuffers. msimpl. destruct (isIdentifier _ _); cbn; [|done].
  destruct (addCodeCompletionBuffer_full s1)
    as (s2 & -> & HI2 & _ & HC2 & _ & _ & Hpoint).
  rewrite HI1, Hcc, HSM in Hpoint. cbn in Hpoint.
  destruct Hpoint as (HB2 & _ & HL2).
  pose proof (addInputBuffers_registryGrows (InputBuffers Invok) 0%nat s2) as Hg3.
  destruct (addInputBuffers_spec (InputBuffers Invok) 0%nat s2)
    as (s3 & Heq3 & _ & HC3 & _).
  rewrite Heq3 in Hg3 |- *. cbn in Hg3.
  pose proof (addInputFilenames_registryGrows host (InputFilenames Invok) 0%nat s3)
    as Hg4.
  assert (registered (getBufferIdentifier MemBuf) s3) as Hreg.
  { eapply registryGrows_registered; [exact Hg3|].
    exists MemBuf. rewrite HB2. split; [apply list_elem_of_here|done]. }
  pose proof (addInputFilenames_not_opened host _ (InputFilenames Invok)
                0%nat s3 Hreg) as (evs4 & HC4 & HF4).
  destruct (addInputFilenames host 0 (InputFilenames Invok) s3)
    as [[|] s4|msg s4|s4]; cbn in *; try done.
  destruct (implicitMainBuffer_spec s4) as [main ->]. intros [= <-].
  cbn in *.
  pose proof (registryGrows_trans _ _ _ Hg3 Hg4) as Hg.
  assert (getMemoryBuffer (SourceMgr s4) 0 = Some MemBuf) as Hbuf.
  { eapply registryGrows_lookup; [exact Hg|].
    unfold getMemoryBuffer. by rewrite HB2. }
  split; [done|]. split.
  { unfold idsMatchRegistry in Hids. cbn in Hids. rewrite Hids.
    unfold getMemoryBuffer in Hbuf. cbn in Hbuf.
    destruct (Buffers (SourceMgr s4)); [done|]. cbn. by eexists. }
  split; [destruct Hg as [-> _]; exact HL2|]. split.
  - rewrite HC4, HC3, HC2, HC0. cbn.
    rewrite elem_of_app. intros [Hin|Hin].
    + rewrite Forall_forall in HF0. by apply (HF0 _ Hin).
    + rewrite Forall_forall in HF4. by apply (HF4 _ Hin).
  - unfold selectDelayedCB, isCodeCompletion. cbn in HI. cbn.
    rewrite HI, Hcc. destruct Hg as [-> _]. by rewrite HL2.
Qed.

Lemma setup_code_completion_buffer_witness :
  let host := exampleHost (Some (fun _ => true)) in
  let s := afterSetup host fullInvocation in
  getMemoryBuffer (SourceMgr s) 0
    = Some {| getBufferIdentifier := "a.swift"; getBuffer := "pq" |} /\
  CodeCompletionLoc (SourceMgr s) = Some (0, 1%nat) /\
  (OpenInputFile "a.swift" ∉ Calls s) /\
  openedFiles (Calls s) = ["main.swift"; "b.swift"].
Proof.
  intros host s.
  assert (setup host fullInvocation (newCompilerInstance fullInvocation)
          = Val false s) as Hsetup by (vm_compute; reflexivity).
  destruct (setup_code_completion_buffer host fullInvocation _ _ s eq_refl Hsetup)
    as (Hbuf & _ & Hloc & Hopen & _).
  split; [exact Hbuf|]. split; [exact Hloc|]. split; [exact Hopen|].
  vm_compute. reflexivity.
Defined.

(** ** Which buffer is the main buffer in Main mode *)

Section MainSelection.
Context (host : Host).

Lemma configureContext_Invocation Invok s failed s1 :
  configureContext host Invok s = Val failed s1 -> Invocation s1 = Invok.
Proof.
  intros Hcfg.
  destruct (isMacOSX (IRGenTriple Invok) || isiOS (IRGenTriple Invok)) eqn:Hos.
  - destruct (configureContext_spec host Invok s Hos)
      as (failed' & s1' & Heq & HI' & _). congruence.
  - revert Hcfg. unfold configureContext. msimpl.
    destruct (bool_decide (LLVMArgs Invok = [])); cbn;
      by rewrite setTargetConfigurations_unknown_os.
Qed.

(** The steps of a [setup] that returns [false], with the states between
    them. *)
Lemma setup_success_phases Invok s0 s :
  setup host Invok s0 = Val false s ->
  exists s1 s2 s3 s4,
    configureContext host Invok s0 = Val false s1 /\
    Invocation s1 = Invok /\
    isIdentifier host (ModuleName Invok) = true /\
    addCodeCompletionBuffer s1 = Val tt s2 /\
    addInputBuffers 0 (InputBuffers Invok) s2 = Val tt s3 /\
    addInputFilenames host 0 (InputFilenames Invok) s3 = Val false s4 /\
    implicitMainBuffer s4 = Val tt s.
Proof.
  unfold setup, registerInputs. msimpl.
  destruct (configureContext host Invok s0) as [[|] s1|msg s1|s1] eqn:Hcfg;
    cbn; try done.
  unfold admitBuffers. msimpl.
  destruct (isIdentifier _ _) eqn:Hid; cbn; [|done].
  destruct (addCodeCompletionBuffer_full s1) as (s2 & Hcc & _). rewrite Hcc.
  destruct (addInputBuffers_spec (InputBuffers Invok) 0%nat s2)
    as (s3 & Hbufs & _). rewrite Hbufs.
  destruct (addInputFilenames host 0 (InputFilenames Invok) s3)
    as [[|] s4|msg s4|s4] eqn:Hfiles; cbn; try done.
  destruct (implicitMainBuffer_spec s4) as [main Himp]. rewrite Himp.
  intros [= <-]. exists s1, s2, s3, s4.
  repeat (split; [done|]). split; [by eapply configureContext_Invocation|].
  done.
Qed.

(** The fallback of lines 200-201 either leaves the main buffer alone or
    makes the only buffer the main one. *)
Lemma implicitMainBuffer_cases s s' :
  implicitMainBuffer s = Val tt s' ->
  SourceMgr s' = SourceMgr s /\ BufferIDs s' = BufferIDs s /\
  PrimaryBufferID s' = PrimaryBufferID s /\
  (MainBufferID s' = MainBufferID s \/
   (MainMode (Invocation s) = true /\ MainBufferID s = NO_SUCH_BUFFER /\
    BufferIDs s = [MainBufferID s'])).
Proof.
  unfold implicitMainBuffer. msimpl. unfold id.
  destruct (BufferIDs s) as [|front [|]] eqn:HIDs;
    try (intros [= <-]; repeat split; try done; by left).
  destruct (MainMode _) eqn:Hmode; cbn.
  - destruct (N.eqb_spec (MainBufferID s) NO_SUCH_BUFFER) as [Heq|Hne]; cbn.
    + intros [= <-]. cbn. repeat split; try done. by right.
    + intros [= <-]. repeat split; try done. by left.
  - intros [= <-]. repeat split; try done. by left.
Qed.

Lemma addInputFilenames_main_unchanged files : forall i s,
  Forall (fun File => fileIsMain (Invocation s) File = false) files ->
  MainBufferID (final (addInputFilenames host i files s)) = MainBufferID s.
Proof.
  induction files as [|File rest IH]; intros i s Hall;
    cbn [addInputFilenames]; [done|].
  apply Forall_cons in Hall as [HFile Hrest].
  msimpl.
  destruct (addInputFilename_spec host i File s)
    as (failed & s1 & -> & HI & Hcase).
  assert (MainBufferID s1 = MainBufferID s) as HM.
  { rewrite HFile in Hcase.
    destruct (getIDForBufferIdentifier (SourceMgr s) File).
    - by destruct Hcase as (_ & _ & _ & _ & _ & ? & _).
    - destruct Hcase as (_ & Hopen).
      destruct (getFileOrSTDIN host File).
      + by destruct Hopen as (_ & _ & _ & _ & ? & _).
      + by destruct Hopen as (_ & _ & _ & _ & ? & _). }
  destruct failed; cbn; [done|].
  rewrite IH by (by rewrite HI). done.
Qed.

(** The loop over a list of files in two parts. *)
Lemma addInputFilenames_app pre rest : forall i s,
  addInputFilenames host i (pre ++ rest) s =
  match addInputFilenames host i pre s with
  | Val false s1 => addInputFilenames host (i + length pre) rest s1
  | r => r
  end.
Proof.
  induction pre as [|File pre IH]; intros i s; cbn [addInputFilenames app length].
  - cbn. by rewrite Nat.add_0_r.
  - msimpl.
    destruct (addInputFilename host i File s) as [[|] s1|msg s1|s1]; cbn;
      try done.
    rewrite IH. by rewrite Nat.add_succ_r.
Qed.

Lemma addInputFilenames_last_main pre File post i s s' :
  MainMode (Invocation s) = true ->
  filename File = "main.swift" ->
  Forall (fun F => filename F <> "main.swift") post ->
  addInputFilenames host i (pre ++ File :: post) s = Val false s' ->
  exists Buf,
    getMemoryBuffer (SourceMgr s') (MainBufferID s') = Some Buf /\
    (getBufferIdentifier Buf = File \/ getFileOrSTDIN host File = inr Buf).
Proof.
  intros Hmode HFile Hpost. rewrite addInputFilenames_app.
  destruct (addInputFilenames_sameContext host pre i s)
    as (failed1 & s1 & -> & HI1 & _).
  destruct failed1; [done|].
  cbn [addInputFilenames]. msimpl.
  destruct (addInputFilename_spec host (i + length pre) File s1)
    as (failed2 & s2 & -> & HI2 & Hcase).
  assert (fileIsMain (Invocation s1) File = true) as Hmain.
  { unfold fileIsMain. rewrite HI1, Hmode, HFile.
    rewrite String.eqb_refl. apply orb_true_r. }
  rewrite Hmain in Hcase.
  destruct failed2; cbn; [done|].
  assert (exists Buf,
            getMemoryBuffer (SourceMgr s2) (MainBufferID s2) = Some Buf /\
            (getBufferIdentifier Buf = File \/
             getFileOrSTDIN host File = inr Buf)) as (Buf & HBuf & Hwhich).
  { destruct (getIDForBufferIdentifier (SourceMgr s1) File)
      as [Existing|] eqn:Hfind.
    - destruct Hcase as (_ & HSM & _ & _ & _ & HM & _).
      destruct (getIDForBufferIdentifier_Some _ _ _ Hfind)
        as (Buf & HBuf & Hname & _).
      exists Buf. rewrite HSM, HM. split; [done|by left].
    - destruct Hcase as (_ & Hopen).
      destruct (getFileOrSTDIN host File) as [message|InputFile].
      + by destruct Hopen as (? & _).
      + destruct Hopen as (_ & HB & _ & _ & HM & _).
        exists InputFile. unfold getMemoryBuffer. rewrite HB, HM, Nat2N.id.
        split; [|by right].
        rewrite lookup_app_r by lia. by rewrite Nat.sub_diag. }
  pose proof (addInputFilenames_registryGrows host post
                (S (i + length pre)) s2) as Hgrow.
  pose proof (addInputFilenames_main_unchanged post (S (i + length pre)) s2)
    as Hsame.
  intros Hrun. rewrite Hrun in Hgrow, Hsame. cbn in Hgrow, Hsame.
  exists Buf. split; [|done].
  rewrite Hsame.
  - by eapply registryGrows_lookup.
  - eapply Forall_impl; [exact Hpost|]. intros F HF. cbn in HF.
    unfold fileIsMain. rewrite HI2, HI1.
    assert (SILMode (Invocation s) = false) as ->.
    { unfold SILMode, MainMode in *. apply bool_decide_eq_true in Hmode.
      apply bool_decide_eq_false. by rewrite Hmode. }
    rewrite Hmode. cbn.
    by apply String.eqb_neq.
Qed.

End MainSelection.

(** X6 -- in Main mode the last file input whose last path component is
    [main.swift] gives the main buffer: after a successful [setup] of a
    fresh instance the main buffer is registered, and it is either the
    buffer that was already registered under that path or the buffer read
    from that file. *)
Theorem setup_last_main_swift_wins (host : Host) (Invok : CompilerInvocation)
  (pre post : list string) (File : string) (s : CompilerInstance) :
  InputKind Invok = Main ->
  InputFilenames Invok = pre ++ File :: post ->
  filename File = "main.swift" ->
  Forall (fun F => filename F <> "main.swift") post ->
  setup host Invok (newCompilerInstance Invok) = Val false s ->
  exists Buf,
    getMemoryBuffer (SourceMgr s) (MainBufferID s) = Some Buf /\
    (getBufferIdentifier Buf = File \/ getFileOrSTDIN host File = inr Buf).
Proof.
  intros Hkind Hfiles HFile Hpost Hsetup.
  destruct (setup_ids host Invok s Hsetup) as [Hids _].
  destruct (setup_success_phases host Invok _ _ Hsetup)
    as (s1 & s2 & s3 & s4 & _ & HI1 & _ & Hcc & Hbufs & Hrun & Himp).
  destruct (addCodeCompletionBuffer_full s1) as (s2' & Hcc' & HI2 & _).
  rewrite Hcc in Hcc'. injection Hcc' as <-.
  destruct (addInputBuffers_spec (InputBuffers Invok) 0%nat s2)
    as (s3' & Hbufs' & HI3 & _).
  rewrite Hbufs in Hbufs'. injection Hbufs' as <-.
  rewrite Hfiles in Hrun.
  destruct (addInputFilenames_last_main host pre File post 0%nat s3 s4)
    as (Buf & HBuf & Hwhich); try done.
  { rewrite HI3, HI2, HI1. unfold MainMode. by apply bool_decide_eq_true. }
  destruct (implicitMainBuffer_cases s4 s Himp)
    as (HSM & HIDs & _ & [HM|(_ & HM & Hone)]).
  - exists Buf. by rewrite HSM, HM.
  - exfalso. unfold idsMatchRegistry in Hids. rewrite HSM, HIDs, Hone in Hids.
    unfold getMemoryBuffer in HBuf. apply lookup_lt_Some in HBuf.
    destruct (Buffers (SourceMgr s4)) as [|b [|b' l]]; cbn in *; try done.
    rewrite HM in HBuf. unfold NO_SUCH_BUFFER in HBuf. lia.
Qed.

Lemma setup_last_main_swift_wins_witness :
  let host := exampleHost None in
  let Invok := exampleInvocation Main macosx_x86_64 []
                 ["a.swift"; "main.swift"; "b.swift"] None false in
  exists Buf,
    getMemoryBuffer (SourceMgr (afterSetup host Invok))
                    (MainBufferID (afterSetup host Invok)) = Some Buf /\
    (getBufferIdentifier Buf = "main.swift" \/
     getFileOrSTDIN host "main.swift" = inr Buf).
Proof.
  intros host Invok.
  assert (setup host Invok (newCompilerInstance Invok)
          = Val false (afterSetup host Invok)) as Hsetup
    by (vm_compute; reflexivity).
  assert (filename "main.swift" = "main.swift") as HFile
    by (vm_compute; reflexivity).
  assert (Forall (fun F => filename F <> "main.swift") ["b.swift"]) as Hpost.
  { constructor; [|constructor]. vm_compute. discriminate. }
  exact (setup_last_main_swift_wins host Invok ["a.swift"] ["b.swift"]
           "main.swift" _ eq_refl eq_refl HFile Hpost Hsetup).
Defined.

(** X7 -- in Main mode nothing else makes a main buffer: when no file input
    has [main.swift] as its last path component and the buffers admitted are
    not exactly one, a successful [setup] of a fresh instance designates no
    main buffer, whatever the memory inputs and the code-completion buffer
    are called. *)
Theorem setup_Main_mode_without_main_swift (host : Host)
  (Invok : CompilerInvocation) (s : CompilerInstance) :
  InputKind Invok = Main ->
  Forall (fun F => filename F <> "main.swift") (InputFilenames Invok) ->
  setup host Invok (newCompilerInstance Invok) = Val false s ->
  length (BufferIDs s) <> 1%nat ->
  MainBufferID s = NO_SUCH_BUFFER.
Proof.
  intros Hkind Hnone Hsetup Hmany.
  destruct (setup_success_phases host Invok _ _ Hsetup)
    as (s1 & s2 & s3 & s4 & Hcfg & HI1 & _ & Hcc & Hbufs & Hrun & Himp).
  destruct (configureContext_selection host Invok (newCompilerInstance Invok))
    as (_ & _ & HM1 & _).
  rewrite Hcfg in HM1. cbn in HM1.
  destruct (addCodeCompletionBuffer_full s1) as (s2' & Hcc' & HI2 & _ & _ & HM2 & _).
  rewrite Hcc in Hcc'. injection Hcc' as <-.
  destruct (addInputBuffers_spec (InputBuffers Invok) 0%nat s2)
    as (s3' & Hbufs' & HI3 & _ & _ & _ & HM3 & _).
  rewrite Hbufs in Hbufs'. injection Hbufs' as <-.
  assert (SILMode Invok = false) as Hsil.
  { unfold SILMode. apply bool_decide_eq_false. by rewrite Hkind. }
  rewrite HI2, HI1, Hsil in HM3.
  pose proof (addInputFilenames_main_unchanged host (InputFilenames Invok)
                0%nat s3) as HM4.
  rewrite Hrun in HM4. cbn in HM4.
  destruct (implicitMainBuffer_cases s4 s Himp)
    as (_ & HIDs & _ & [HM|(_ & _ & Hone)]).
  - rewrite HM, HM4, HM3, HM2, HM1; [done|].
    eapply Forall_impl; [exact Hnone|]. intros F HF. cbn in HF.
    unfold fileIsMain. rewrite HI3, HI2, HI1, Hsil. cbn.
    apply andb_false_intro2. by apply String.eqb_neq.
  - rewrite HIDs, Hone in Hmany. done.
Qed.

Lemma setup_Main_mode_without_main_swift_witness :
  let host := exampleHost None in
  let Invok := exampleInvocation Main macosx_x86_64
                 [ {| getBufferIdentifier := "main.swift"; getBuffer := "m" |} ]
                 ["a.swift"; "b.swift"] None false in
  MainBufferID (afterSetup host Invok) = NO_SUCH_BUFFER.
Proof.
  intros host Invok.
  assert (setup host Invok (newCompilerInstance Invok)
          = Val false (afterSetup host Invok)) as Hsetup
    by (vm_compute; reflexivity).
  assert (Forall (fun F => filename F <> "main.swift") ["a.swift"; "b.swift"])
    as Hnone.
  { repeat constructor; vm_compute; discriminate. }
  assert (length (BufferIDs (afterSetup host Invok)) <> 1%nat) as Hmany
    by (vm_compute; discriminate).
  exact (setup_Main_mode_without_main_swift host Invok _ eq_refl Hnone
           Hsetup Hmany).
Defined.

(** * Further properties of [performParse] *)

Section ParseRuns.
Context (host : Host).

Lemma createMainModule_frame s :
  SourceMgr (final (createMainModule s)) = SourceMgr s /\
  PrimarySourceFile (final (createMainModule s)) = PrimarySourceFile s.
Proof.
  unfold createMainModule, createSILModule. msimpl. unfold id.
  destruct (bool_decide _); cbn; [|done].
  destruct (Nat.eqb _ _); cbn; [|done].
  destruct (N.eqb _ _); cbn; done.
Qed.

Lemma selectDelayedCB_createMainModule s :
  selectDelayedCB (final (createMainModule s)) = selectDelayedCB s.
Proof.
  destruct (createMainModule_frame s) as [HSM _].
  destruct (createMainModule_spec s) as ((HI & _) & _).
  unfold selectDelayedCB. by rewrite HSM, HI.
Qed.

(** The steps of a [performParse] outside the REPL that does not stop at an
    assertion, with the instances between them. *)
Lemma performParse_anatomy fuel s :
  let Kind := InputKind (Invocation s) in
  let DelayedCB := selectDelayedCB s in
  let r := performParse host fuel s in
  Kind <> REPL -> ~ assertionFailed r ->
  exists s0 s1 s2 hadLoadError PS,
    createMainModule s = Val tt s0 /\
    addMainSourceFile Kind s0 = Val tt s1 /\
    sameInputs s s1 /\ Calls s1 = Calls s /\
    MainModule s1
      = Some {| getName := ModuleName (Invocation s);
                getFiles := mainFileOnly Kind s |} /\
    parseLibraryFiles host DelayedCB (BufferIDs s) false
                      (PersistentState0 host) s1
      = Val (hadLoadError, PS) s2 /\
    if hadLoadError then r = Val tt s2 else
    match parseMainFile host fuel Kind DelayedCB PS s2 with
    | Val _ s3 =>
        exists s4,
          typeCheckInputs host s3 = Val tt s4 /\
          r = Val tt (if bool_decide (is_Some DelayedCB)
                      then set_Calls (Calls s4 ++ [PerformDelayedParsing]) s4
                      else s4)
    | AssertFail _ _ => False
    | OutOfFuel s3 => r = OutOfFuel s3
    end.
Proof.
  intros Kind DelayedCB r HK. subst r Kind DelayedCB.
  unfold performParse. msimpl.
  pose proof (selectDelayedCB_createMainModule s) as HCB.
  destruct (createMainModule_spec s) as (Hsame0 & HC0 & HM0 & Hval0 & _).
  destruct (createMainModule s) as [[] s0|msg s0|s0] eqn:Hcreate; cbn in *;
    try tauto.
  2:{ intros _. by specialize (Hval0 ltac:(tauto)). }
  rewrite bool_decide_eq_false_2 by done. rewrite HCB.
  destruct (addMainSourceFile_spec (InputKind (Invocation s)) s0 _ HM0)
    as (Hsame1 & HC1 & Hval1 & _).
  destruct (addMainSourceFile (InputKind (Invocation s)) s0)
    as [[] s1|msg s1|s1] eqn:Hadd; cbn in *; try tauto.
  2:{ intros _. by destruct (Hval1 ltac:(tauto)) as [? _]. }
  destruct (Hval1 ltac:(tauto)) as [_ HM1].
  assert (sameInputs s s1) as Hsame by by eapply sameInputs_trans.
  rewrite (sameInputs_mainFileOnly _ s s0) in HM1 by done.
  unfold parseAndCheck. msimpl.
  pose proof Hsame as (_ & _ & HIDs & _). rewrite HIDs.
  destruct (parseLibraryFiles host (selectDelayedCB s) (BufferIDs s) false
              (PersistentState0 host) s1)
    as [[hadLoadError PS] s2|msg s2|s2] eqn:Hlib; cbn; try tauto.
  2:{ intros _. exfalso.
      destruct (parseLibraryFiles_loop host (selectDelayedCB s) (BufferIDs s)
                  false (PersistentState0 host) s1 _ HM1)
        as (evs & more & _ & _ & _ & _ & Hval).
      rewrite Hlib in Hval. cbn in Hval.
      by destruct (Hval ltac:(tauto)) as (? & ? & _). }
  intros Hok. exists s0, s1, s2, hadLoadError, PS.
  do 2 (split; [done|]). split; [done|]. split; [congruence|].
  split; [done|]. split; [done|].
  destruct hadLoadError; [done|].
  destruct (parseMainFile host fuel (InputKind (Invocation s))
              (selectDelayedCB s) PS s2) as [PS3 s3|msg s3|s3]; cbn in *;
    try tauto.
  destruct (typeCheckInputs_spec host s3) as (evs & HTC & _).
  rewrite HTC. cbn. eexists. split; [reflexivity|].
  by destruct (bool_decide (is_Some (selectDelayedCB s))).
Qed.

End ParseRuns.

(** X8 -- in REPL mode [performParse] parses nothing: whatever buffers the
    instance holds and whatever the fuel, it returns, makes no call to the
    parser, the loaders or the type checker, and leaves a main module whose
    only file is an empty REPL source file without a buffer. *)
Theorem performParse_REPL (host : Host) (fuel : nat) (s : CompilerInstance) :
  InputKind (Invocation s) = REPL ->
  exists s',
    performParse host fuel s = Val tt s' /\
    sameInputs s s' /\ Calls s' = Calls s /\
    MainModule s'
      = Some {| getName := ModuleName (Invocation s);
                getFiles := [SourceFileUnit {| SFKind := REPL;
                                               getBufferID := None;
                                               Decls := [] |}] |}.
Proof.
  intros HK. unfold performParse. msimpl.
  destruct (createMainModule_spec s) as (Hsame0 & HC0 & HM0 & Hval0 & Hfail0).
  destruct (createMainModule s) as [[] s0|msg s0|s0] eqn:Hcreate; cbn in *.
  2:{ exfalso. destruct Hfail0 as [Hf _].
      destruct (Hf I) as [HS _]. congruence. }
  2:{ by specialize (Hval0 ltac:(tauto)). }
  rewrite bool_decide_eq_true_2 by done.
  erewrite addFile_spec by exact HM0. cbn.
  eexists. split; [reflexivity|]. cbn. rewrite HK. done.
Qed.

Lemma performParse_REPL_witness :
  let host := exampleHost None in
  let s := afterSetup host
             (exampleInvocation REPL macosx_x86_64 [] ["a.swift"; "b.swift"]
                                None false) in
  exists s',
    performParse host 0 s = Val tt s' /\
    sameInputs s s' /\ Calls s' = Calls s /\
    MainModule s'
      = Some {| getName := "App";
                getFiles := [SourceFileUnit {| SFKind := REPL;
                                               getBufferID := None;
                                               Decls := [] |}] |}.
Proof.
  intros host s.
  assert (InputKind (Invocation s) = REPL) as HK by (vm_compute; reflexivity).
  exact (performParse_REPL host 0 s HK).
Defined.

(** ** The order of the library loop *)

Lemma libraryTrace_app ids1 : forall ids2 evs1 evs2,
  libraryTrace ids1 evs1 -> libraryTrace ids2 evs2 ->
  libraryTrace (ids1 ++ ids2) (evs1 ++ evs2).
Proof.
  induction ids1 as [|BufferID rest IH]; intros ids2 evs1 evs2 H1 H2; cbn in *.
  - by subst evs1.
  - destruct evs1 as [|e evs1]; [done|]. destruct e; try done.
    + destruct H1 as [-> H1]. cbn. split; [done|]. by apply IH.
    + destruct evs1 as [|e' evs1]; [done|]. destruct e'; try done.
      destruct H1 as (-> & -> & -> & H1). cbn. repeat split. by apply IH.
Qed.

Lemma libraryTrace_events main ids : forall evs,
  Forall (fun BufferID => BufferID <> main) ids ->
  libraryTrace ids evs -> Forall (isLibraryEvent main) evs.
Proof.
  induction ids as [|BufferID rest IH]; intros evs Hids HT; cbn in HT.
  - by subst evs.
  - apply Forall_cons in Hids as [Hne Hrest].
    destruct evs as [|e evs]; [done|]. destruct e; try done.
    + destruct HT as [-> HT]. constructor; [done|]. by apply IH.
    + destruct evs as [|e' evs]; [done|]. destruct e'; try done.
      destruct HT as (-> & -> & -> & HT).
      constructor; [done|]. constructor; [done|]. by apply IH.
Qed.

Section LibraryOrder.
Context (host : Host).

(** One iteration of the library loop that returns: its calls, the unit it
    adds to the module and the primary source file. *)
Lemma parseLibraryFile_returns DelayedCB BufferID hadLoadError PS s Mod
    hadLoadError' PS' s' :
  MainModule s = Some Mod ->
  parseLibraryFile host DelayedCB BufferID hadLoadError PS s
    = Val (hadLoadError', PS') s' ->
  exists evs more,
    Calls s' = Calls s ++ evs /\
    libraryTrace (filter (fun id => id <> MainBufferID s) [BufferID]) evs /\
    MainModule s'
      = Some {| getName := getName Mod; getFiles := getFiles Mod ++ more |} /\
    unitBuffer <$> more
      = Some <$> filter (fun id => loadFails host s id = false)
                        (filter (fun id => id <> MainBufferID s) [BufferID]).
Proof.
  intros HMod.
  destruct (decide (BufferID = MainBufferID s)) as [Hmain|Hmain].
  { rewrite filter_cons_False by (intros H; by apply H). rewrite !filter_nil.
    unfold parseLibraryFile. msimpl. unfold id.
    rewrite (proj2 (N.eqb_eq _ _) Hmain). cbn.
    intros [= <- <- <-]. exists [], [].
    rewrite !app_nil_r. repeat split; try done. by destruct Mod. }
  rewrite (filter_cons_True _ BufferID) by done. rewrite filter_nil.
  assert (filter (fun id => loadFails host s id = false) [BufferID]
          = if loadFails host s BufferID then [] else [BufferID]) as ->.
  { destruct (loadFails host s BufferID) eqn:Hl.
    - rewrite filter_cons_False by (by rewrite Hl). by rewrite filter_nil.
    - rewrite filter_cons_True by done. by rewrite filter_nil. }
  unfold parseLibraryFile, loadFails. msimpl. unfold id.
  rewrite (proj2 (N.eqb_neq _ _) Hmain). cbn.
  destruct (getMemoryBuffer (SourceMgr s) BufferID) as [Buf|]; cbn; [|done].
  destruct (isSerializedAST host (getBuffer Buf)); cbn.
  - destruct (loadAST host Buf) eqn:Hload; cbn.
    + erewrite addFile_spec by (cbn; exact HMod). cbn.
      intros [= <- <- <-].
      exists [LoadAST BufferID true], [SerializedASTFile BufferID].
      repeat split; done.
    + intros [= <- <- <-]. exists [LoadAST BufferID false], [].
      rewrite !app_nil_r. repeat split; try done. by destruct Mod.
  - erewrite addFile_spec by exact HMod. cbn.
    destruct (N.eqb BufferID (PrimaryBufferID s)); cbn;
      destruct (parseIntoSourceFile host (SourceMgr s) Library BufferID false PS
                                    DelayedCB) as [[appended Done] PS1];
      cbn; unfold appendDeclsAt; cbn; rewrite alter_appended;
      destruct Done; cbn; try done.
    all: intros [= <- <- <-]; cbn.
    all: eexists [_; _], [_].
    all: split; [by rewrite <- app_assoc|].
    all: split; [done|].
    all: split; [reflexivity|done].
Qed.

Lemma filter_sameInputs_loadFails s s' (ids : list N) :
  sameInputs s s' ->
  filter (fun id => loadFails host s' id = false) ids
  = filter (fun id => loadFails host s id = false) ids.
Proof.
  intros Hsame. apply list_filter_iff. intros id.
  by rewrite (loadFails_sameInputs host s s').
Qed.

Lemma parseLibraryFiles_returns DelayedCB ids : forall hadLoadError PS s Mod
    hadLoadError' PS' s',
  MainModule s = Some Mod ->
  parseLibraryFiles host DelayedCB ids hadLoadError PS s
    = Val (hadLoadError', PS') s' ->
  exists evs more,
    Calls s' = Calls s ++ evs /\
    libraryTrace (filter (fun id => id <> MainBufferID s) ids) evs /\
    MainModule s'
      = Some {| getName := getName Mod; getFiles := getFiles Mod ++ more |} /\
    unitBuffer <$> more
      = Some <$> filter (fun id => loadFails host s id = false)
                        (filter (fun id => id <> MainBufferID s) ids).
Proof.
  induction ids as [|BufferID rest IH];
    intros flag PS s Mod flag' PS' s' HMod; cbn [parseLibraryFiles].
  - msimpl. intros [= <- <- <-]. exists [], []. rewrite !app_nil_r.
    repeat split; try done. by destruct Mod.
  - msimpl.
    destruct (parseLibraryFile_iter host DelayedCB BufferID flag PS s Mod HMod)
      as (evs0 & more0 & Hsame1 & _).
    destruct (parseLibraryFile host DelayedCB BufferID flag PS s)
      as [[flag1 PS1] s1|msg s1|s1] eqn:Hiter; cbn [final] in *; try done.
    destruct (parseLibraryFile_returns _ _ _ _ _ _ _ _ _ HMod Hiter)
      as (evs1 & more1 & HC1 & HT1 & HM1 & HU1).
    intros Hrest.
    destruct (IH _ _ _ _ _ _ _ HM1 Hrest)
      as (evs2 & more2 & HC2 & HT2 & HM2 & HU2).
    cbn in HM2.
    pose proof Hsame1 as (_ & _ & _ & HMain & _).
    rewrite HMain in HT2, HU2.
    rewrite (filter_sameInputs_loadFails s s1) in HU2 by done.
    exists (evs1 ++ evs2), (more1 ++ more2).
    change (BufferID :: rest) with ([BufferID] ++ rest).
    rewrite !filter_app, !fmap_app.
    split; [by rewrite HC2, HC1, app_assoc|].
    split; [by apply libraryTrace_app|].
    split; [by rewrite HM2, app_assoc|].
    by rewrite HU1, HU2.
Qed.

End LibraryOrder.

(** ** The main-file loop: the units of the module and the [Done] answers *)

Lemma unitBuffer_appendDecls ds F : unitBuffer (appendDecls ds F) = unitBuffer F.
Proof. by destruct F. Qed.

Lemma unitBuffer_appendDeclsAt idx ds Mod :
  unitBuffer <$> getFiles (appendDeclsAt idx ds Mod)
  = unitBuffer <$> getFiles Mod.
Proof.
  unfold appendDeclsAt. cbn. revert idx.
  induction (getFiles Mod) as [|F files IH]; intros [|idx]; cbn; try done.
  - by rewrite unitBuffer_appendDecls.
  - f_equal. apply IH.
Qed.

Lemma sameUnits_refl s : sameUnits s s.
Proof. intros Mod H. by exists Mod. Qed.

Lemma sameUnits_trans s1 s2 s3 :
  sameUnits s1 s2 -> sameUnits s2 s3 -> sameUnits s1 s3.
Proof.
  intros H12 H23 Mod H1.
  destruct (H12 _ H1) as (Mod2 & H2 & Hn2 & Hu2).
  destruct (H23 _ H2) as (Mod3 & H3 & Hn3 & Hu3).
  exists Mod3. split; [done|]. split; congruence.
Qed.

Section PumpLoop.
Context (host : Host).

Lemma pumpMainFile_units fuel : forall Kind MainFileID DelayedCB CurTUElem PS s,
  sameUnits s (final (pumpMainFile host fuel Kind MainFileID DelayedCB
                                   CurTUElem PS s)) /\
  PrimarySourceFile (final (pumpMainFile host fuel Kind MainFileID DelayedCB
                                         CurTUElem PS s))
    = PrimarySourceFile s.
Proof.
  induction fuel as [|fuel IH]; intros Kind mid CB cur PS s;
    cbn [pumpMainFile].
  - msimpl. split; [apply sameUnits_refl|done].
  - msimpl. unfold id.
    destruct (parseIntoSourceFile host (SourceMgr s) Kind mid (TheSILModule s)
                                  PS CB) as [[appended Done] PS'].
    cbn.
    assert (forall t, MainModule t = appendDeclsAt 0 appended <$> MainModule s ->
                      sameUnits s t) as Hstep.
    { intros t Ht Mod HMod. rewrite HMod in Ht. cbn in Ht.
      eexists. split; [exact Ht|]. split; [done|].
      apply unitBuffer_appendDeclsAt. }
    destruct (chunkCheckCondition s); cbn; destruct Done; cbn;
      try (split; [by apply Hstep|done]).
    all: match goal with
         |- context [pumpMainFile host _ ?K ?m ?C ?c ?P ?t] =>
           destruct (IH K m C c P t) as [HU HP] end.
    all: split; [eapply sameUnits_trans; [|exact HU]; by apply Hstep
                |by rewrite HP].
Qed.

Lemma parseMainFile_units fuel Kind DelayedCB PS s :
  sameUnits s (final (parseMainFile host fuel Kind DelayedCB PS s)) /\
  PrimarySourceFile (final (parseMainFile host fuel Kind DelayedCB PS s))
    = PrimarySourceFile s.
Proof.
  unfold parseMainFile, getMainSourceFile. msimpl. unfold id.
  destruct (MainBufferID s =? NO_SUCH_BUFFER); cbn;
    [split; [apply sameUnits_refl|done]|].
  destruct (MainModule s) as [Mod|]; cbn; [|split; [apply sameUnits_refl|done]].
  destruct (getFiles Mod) as [|[SF|BufferID] rest]; cbn;
    try (split; [apply sameUnits_refl|done]).
  destruct (bool_decide (SFKind SF = Kind)); cbn;
    [|split; [apply sameUnits_refl|done]].
  destruct (getBufferID SF) as [MainFileID|]; cbn;
    [|split; [apply sameUnits_refl|done]].
  apply pumpMainFile_units.
Qed.

(** The loop pumps until the parser first answers [Done]. *)
Lemma pumpMainFile_done fuel : forall Kind MainFileID DelayedCB CurTUElem PS s,
  let r := pumpMainFile host fuel Kind MainFileID DelayedCB CurTUElem PS s in
  exists evs,
    Calls (final r) = Calls s ++ evs /\
    match r with
    | Val _ _ =>
        exists n, (n < fuel)%nat /\
          omap (pumpDone MainFileID) evs = replicate n false ++ [true]
    | OutOfFuel _ => omap (pumpDone MainFileID) evs = replicate fuel false
    | AssertFail _ _ => False
    end.
Proof.
  induction fuel as [|fuel IH]; intros Kind mid CB cur PS s r; subst r;
    cbn [pumpMainFile].
  - msimpl. exists []. by rewrite app_nil_r.
  - msimpl. unfold id.
    destruct (parseIntoSourceFile host (SourceMgr s) Kind mid (TheSILModule s)
                                  PS CB) as [[appended Done] PS'].
    cbn.
    destruct (chunkCheckCondition s); cbn; destruct Done; cbn.
    + eexists [_; _]. rewrite <- app_assoc. split; [done|].
      exists 0%nat. split; [lia|]. cbn. by rewrite N.eqb_refl.
    + match goal with
      |- context [pumpMainFile host fuel Kind mid CB ?c PS' ?t] =>
        destruct (IH Kind mid CB c PS' t) as (evs & HC & Hflags);
        destruct (pumpMainFile host fuel Kind mid CB c PS' t)
          as [PS2 s2|msg s2|s2] end; cbn in *; [| done |].
      * exists (ParseIntoSourceFile mid appended false
                  :: TypeCheckChunk (Some mid) cur :: evs).
        split; [by rewrite HC, <- !app_assoc|].
        destruct Hflags as (n & Hn & Hflags). exists (S n). split; [lia|].
        cbn. by rewrite N.eqb_refl, Hflags.
      * exists (ParseIntoSourceFile mid appended false
                  :: TypeCheckChunk (Some mid) cur :: evs).
        split; [by rewrite HC, <- !app_assoc|].
        cbn. by rewrite N.eqb_refl, Hflags.
    + eexists [_]. split; [done|].
      exists 0%nat. split; [lia|]. cbn. by rewrite N.eqb_refl.
    + match goal with
      |- context [pumpMainFile host fuel Kind mid CB ?c PS' ?t] =>
        destruct (IH Kind mid CB c PS' t) as (evs & HC & Hflags);
        destruct (pumpMainFile host fuel Kind mid CB c PS' t)
          as [PS2 s2|msg s2|s2] end; cbn in *; [| done |].
      * exists (ParseIntoSourceFile mid appended false :: evs).
        split; [by rewrite HC, <- !app_assoc|].
        destruct Hflags as (n & Hn & Hflags). exists (S n). split; [lia|].
        cbn. by rewrite N.eqb_refl, Hflags.
      * exists (ParseIntoSourceFile mid appended false :: evs).
        split; [by rewrite HC, <- !app_assoc|].
        cbn. by rewrite N.eqb_refl, Hflags.
Qed.

(** With a main buffer, [parseMainFile] is the loop on that buffer. *)
Lemma parseMainFile_pumps fuel Kind DelayedCB PS s name more :
  MainBufferID s <> NO_SUCH_BUFFER ->
  MainModule s
    = Some {| getName := name; getFiles := mainFileOnly Kind s ++ more |} ->
  parseMainFile host fuel Kind DelayedCB PS s
  = pumpMainFile host fuel Kind (MainBufferID s) DelayedCB 0 PS s.
Proof.
  intros Hmain. unfold parseMainFile, getMainSourceFile, mainFileOnly.
  msimpl. unfold id.
  rewrite (proj2 (N.eqb_neq _ _) Hmain). cbn. intros ->. cbn.
  by rewrite bool_decide_eq_true_2.
Qed.

(** The whole-file checks make no other call. *)
Lemma typeCheckInputs_calls s :
  exists evs,
    typeCheckInputs host s = Val tt (set_Calls (Calls s ++ evs) s) /\
    Forall (fun e => match e with
                     | TypeCheckWholeFile _ | RecordKnownProtocols => True
                     | _ => False
                     end) evs.
Proof.
  unfold typeCheckInputs. msimpl. unfold id.
  destruct (ParseOnly (Invocation s)).
  - exists []. rewrite app_nil_r. split; [by destruct s|done].
  - rewrite typeCheckFiles_spec. cbn.
    set (files := match MainModule s with
                  | Some Mod => getFiles Mod | None => [] end).
    assert (Forall (fun e => match e with
                     | TypeCheckWholeFile _ | RecordKnownProtocols => True
                     | _ => False
                     end) (flat_map (wholeFileCheck (PrimaryBufferID s)) files))
      as Hall.
    { induction files as [|[SF|BufferID] rest IH]; cbn; try done.
      destruct (_ || _); cbn; [by constructor|done]. }
    destruct (hasStdlibModule host); cbn.
    + eexists (_ ++ [RecordKnownProtocols]).
      split; [by rewrite app_assoc|].
      apply Forall_app. split; [done|]. by repeat constructor.
    + eexists. split; [done|]. done.
Qed.

End PumpLoop.

(** ** What [performParse] leaves behind when it returns *)

Lemma unitBuffer_mainFileOnly Kind s :
  unitBuffer <$> mainFileOnly Kind s
  = if MainBufferID s =? NO_SUCH_BUFFER then [] else [Some (MainBufferID s)].
Proof. unfold mainFileOnly. by destruct (_ =? _). Qed.

(** X9 -- the files of the main module after [performParse] outside the
    REPL: the main file comes first, if there is a main buffer, although it
    is parsed last; then one unit for every other buffer, in the order of
    [BufferIDs], except the serialized modules that failed to load.  This
    holds also when a load error made [performParse] return early. *)
Theorem performParse_module_files (host : Host) (fuel : nat)
  (s s' : CompilerInstance) :
  InputKind (Invocation s) <> REPL ->
  performParse host fuel s = Val tt s' ->
  exists Mod,
    MainModule s' = Some Mod /\
    getName Mod = ModuleName (Invocation s) /\
    unitBuffer <$> getFiles Mod
    = (if MainBufferID s =? NO_SUCH_BUFFER then []
       else [Some (MainBufferID s)])
      ++ (Some <$> filter (fun BufferID => loadFails host s BufferID = false)
                          (libraryBuffers s)).
Proof.
  intros HK Hrun.
  pose proof (performParse_anatomy host fuel s) as Han. cbn zeta in Han.
  rewrite Hrun in Han.
  destruct (Han HK (fun H => H))
    as (s0 & s1 & s2 & flag & PS & _ & _ & Hsame & _ & HM1 & Hlib & Hrest).
  clear Han.
  destruct (parseLibraryFiles_returns host _ _ _ _ _ _ _ _ _ HM1 Hlib)
    as (evsLib & more & _ & _ & HM2 & HU).
  cbn in HM2.
  pose proof Hsame as (_ & _ & _ & HMain & _).
  rewrite HMain in HU.
  rewrite (filter_sameInputs_loadFails host s s1) in HU by done.
  assert (exists Mod, MainModule s2 = Some Mod /\
            getName Mod = ModuleName (Invocation s) /\
            unitBuffer <$> getFiles Mod
            = (if MainBufferID s =? NO_SUCH_BUFFER then []
               else [Some (MainBufferID s)])
              ++ (Some <$> filter
                             (fun BufferID => loadFails host s BufferID = false)
                             (libraryBuffers s))) as (Mod2 & HMod2 & Hn2 & Hu2).
  { eexists. split; [exact HM2|]. split; [done|].
    cbn [getFiles]. by rewrite fmap_app, HU, unitBuffer_mainFileOnly. }
  destruct flag.
  { injection Hrest as <-. by exists Mod2. }
  destruct (parseMainFile_units host fuel (InputKind (Invocation s))
              (selectDelayedCB s) PS s2) as [HU3 _].
  destruct (parseMainFile host fuel (InputKind (Invocation s))
              (selectDelayedCB s) PS s2) as [PS3 s3|msg s3|s3];
    cbn in *; try done.
  destruct Hrest as (s4 & HTC & Heq).
  destruct (HU3 _ HMod2) as (Mod3 & HMod3 & Hn3 & Hu3).
  destruct (typeCheckInputs_calls host s3) as (evsTC & HTC' & _).
  rewrite HTC in HTC'. injection HTC' as ->.
  exists Mod3. split; [|split; congruence].
  injection Heq as ->. by destruct (bool_decide _).
Qed.

Lemma performParse_module_files_witness :
  let host := exampleHost None in
  let s := afterSetup host
             (exampleInvocation Main macosx_x86_64 []
                ["a.swift"; "bad.swiftmodule"; "main.swift"; "b.swift"]
                None false) in
  exists Mod,
    MainModule (final (performParse host 5 s)) = Some Mod /\
    getName Mod = "App" /\
    unitBuffer <$> getFiles Mod = [Some 2; Some 0; Some 3].
Proof.
  intros host s.
  assert (InputKind (Invocation s) <> REPL) as HK by (vm_compute; discriminate).
  assert (performParse host 5 s = Val tt (final (performParse host 5 s)))
    as Hrun by (vm_compute; reflexivity).
  destruct (performParse_module_files host 5 s _ HK Hrun)
    as (Mod & HMod & Hname & Hunits).
  exists Mod. split; [exact HMod|]. split; [exact Hname|].
  rewrite Hunits. vm_compute. reflexivity.
Defined.

Lemma libraryBuffers_sameInputs s s' :
  sameInputs s s' -> libraryBuffers s' = libraryBuffers s.
Proof.
  intros (_ & _ & HIDs & HMain & _). unfold libraryBuffers.
  by rewrite HIDs, HMain.
Qed.

Lemma libraryBuffers_not_main s :
  Forall (fun BufferID => BufferID <> MainBufferID s) (libraryBuffers s).
Proof.
  apply Forall_forall. intros BufferID Hin.
  by apply list_elem_of_filter in Hin as [? _].
Qed.

(** X10 -- the order of the calls of a [performParse] that returns, outside
    the REPL: first the library loop, which takes the buffers other than the
    main one in the order of [BufferIDs] and makes for each of them either
    one [LoadAST], or one [ParseIntoSourceFile] that answered [Done]
    followed at once by [PerformNameBinding] of the same buffer; every call
    after that is a pump or a chunk check of the main file, a whole-file
    check, the recording of the known protocols or the delayed parsing.  So
    the main file is parsed last, whatever its place among the inputs. *)
Theorem performParse_library_order (host : Host) (fuel : nat)
  (s s' : CompilerInstance) :
  InputKind (Invocation s) <> REPL ->
  performParse host fuel s = Val tt s' ->
  exists evsLib evsRest,
    Calls s' = Calls s ++ evsLib ++ evsRest /\
    libraryTrace (libraryBuffers s) evsLib /\
    Forall (fun e => isPumpEvent (MainBufferID s) e \/
                     isTailEvent (PrimaryBufferID s) e) evsRest.
Proof.
  intros HK Hrun.
  pose proof (performParse_anatomy host fuel s) as Han. cbn zeta in Han.
  rewrite Hrun in Han.
  destruct (Han HK (fun H => H))
    as (s0 & s1 & s2 & flag & PS & _ & _ & Hsame & HC1 & HM1 & Hlib & Hrest).
  clear Han.
  destruct (parseLibraryFiles_returns host _ _ _ _ _ _ _ _ _ HM1 Hlib)
    as (evsLib & more & HC2 & HT & HM2 & _).
  cbn in HM2.
  destruct (parseLibraryFiles_loop host (selectDelayedCB s) (BufferIDs s)
              false (PersistentState0 host) s1 _ HM1)
    as (evs' & more' & Hsame2 & _).
  rewrite Hlib in Hsame2. cbn in Hsame2.
  pose proof Hsame as (_ & _ & _ & HMain & HPrim).
  rewrite HMain in HT. rewrite HC1 in HC2.
  exists evsLib.
  destruct flag.
  { injection Hrest as <-. exists []. by rewrite app_nil_r. }
  rewrite <- (sameInputs_mainFileOnly _ s s1) in HM2 by done.
  rewrite <- (sameInputs_mainFileOnly _ s1 s2) in HM2 by done.
  destruct (parseMainFile_spec host fuel (InputKind (Invocation s))
              (selectDelayedCB s) PS s2 _ _ HM2)
    as (evsPump & Hsame3 & HC3 & HT3 & _).
  destruct (parseMainFile host fuel (InputKind (Invocation s))
              (selectDelayedCB s) PS s2) as [PS3 s3|msg s3|s3];
    cbn in *; try done.
  destruct Hrest as (s4 & HTC & Heq).
  destruct (typeCheckInputs_spec host s3) as (evsTC & HTC' & HFT & _).
  rewrite HTC in HTC'. injection HTC' as ->.
  assert (sameInputs s s3) as Hsame'
    by (eapply sameInputs_trans; [|exact Hsame3];
        by eapply sameInputs_trans).
  pose proof Hsame' as (_ & _ & _ & _ & HP3). rewrite HP3 in HFT.
  assert (MainBufferID s2 = MainBufferID s) as HMain2.
  { destruct Hsame2 as (_ & _ & _ & -> & _). done. }
  rewrite HMain2 in HT3.
  apply pumpTrace_events with (n := length evsPump) in HT3; [|done].
  exists (evsPump ++ evsTC ++
          if bool_decide (is_Some (selectDelayedCB s))
          then [PerformDelayedParsing] else []).
  split.
  { injection Heq as ->.
    destruct (bool_decide _); cbn; rewrite HC3, HC2, <- ?app_assoc;
      [done|by rewrite app_nil_r]. }
  split; [done|].
  apply Forall_app. split.
  { eapply Forall_impl; [exact HT3|]. intros e He. by left. }
  apply Forall_app. split.
  { eapply Forall_impl; [exact HFT|]. intros e He. by right. }
  destruct (bool_decide _); [|done]. constructor; [by right|done].
Qed.

Lemma performParse_library_order_witness :
  let host := exampleHost None in
  let s := afterSetup host
             (exampleInvocation Main macosx_x86_64 []
                ["main.swift"; "a.swift"; "b.swift"] None false) in
  exists evsLib evsRest,
    Calls (final (performParse host 5 s)) = Calls s ++ evsLib ++ evsRest /\
    libraryTrace [1; 2] evsLib /\
    Forall (fun e => isPumpEvent (MainBufferID s) e \/
                     isTailEvent (PrimaryBufferID s) e) evsRest.
Proof.
  intros host s.
  assert (InputKind (Invocation s) <> REPL) as HK by (vm_compute; discriminate).
  assert (performParse host 5 s = Val tt (final (performParse host 5 s)))
    as Hrun by (vm_compute; reflexivity).
  assert (libraryBuffers s = [1; 2]) as Hlibs by (vm_compute; reflexivity).
  destruct (performParse_library_order host 5 s _ HK Hrun)
    as (evsLib & evsRest & HC & HT & HF).
  rewrite Hlibs in HT. exists evsLib, evsRest.
  split; [exact HC|]. split; [exact HT|exact HF].
Defined.

(** X11 -- the main file is pumped until the parser first answers [Done],
    and not once more: when [performParse] returns with a main buffer and no
    load error, the answers of the pumps of the main buffer are [false], any
    number of times, and then one [true]. *)
Theorem performParse_pumps_until_Done (host : Host) (fuel : nat)
  (s s' : CompilerInstance) :
  InputKind (Invocation s) <> REPL ->
  MainBufferID s <> NO_SUCH_BUFFER ->
  existsb (loadFails host s) (BufferIDs s) = false ->
  performParse host fuel s = Val tt s' ->
  exists evs n,
    Calls s' = Calls s ++ evs /\ (n < fuel)%nat /\
    omap (pumpDone (MainBufferID s)) evs = replicate n false ++ [true].
Proof.
  intros HK Hmain Hload Hrun.
  pose proof (performParse_anatomy host fuel s) as Han. cbn zeta in Han.
  rewrite Hrun in Han.
  destruct (Han HK (fun H => H))
    as (s0 & s1 & s2 & flag & PS & _ & _ & Hsame & HC1 & HM1 & Hlib & Hrest).
  clear Han.
  destruct (parseLibraryFiles_loop host (selectDelayedCB s) (BufferIDs s)
              false (PersistentState0 host) s1 _ HM1)
    as (evsLib & more & Hsame2 & HC2 & HFL & HM2 & Hval).
  rewrite Hlib in Hsame2, HC2, HM2, Hval. cbn in Hsame2, HC2, HM2, Hval.
  destruct (Hval (fun H => H)) as (PS' & Heq & _).
  pose proof Hsame as (_ & _ & _ & HMain & _).
  assert (existsb (loadFails host s1) (BufferIDs s)
          = existsb (loadFails host s) (BufferIDs s)) as Hex.
  { clear -Hsame. induction (BufferIDs s) as [|x l IH]; cbn; [done|].
    by rewrite IH, (loadFails_sameInputs host s s1). }
  rewrite Hex, Hload in Heq. injection Heq as -> ->.
  rewrite <- (sameInputs_mainFileOnly _ s s1) in HM2 by done.
  rewrite <- (sameInputs_mainFileOnly _ s1 s2) in HM2 by done.
  assert (MainBufferID s2 = MainBufferID s) as HMain2.
  { destruct Hsame2 as (_ & _ & _ & -> & _). done. }
  erewrite parseMainFile_pumps in Hrest; [|by rewrite HMain2|exact HM2].
  rewrite HMain2 in Hrest.
  destruct (pumpMainFile_done host fuel (InputKind (Invocation s))
              (MainBufferID s) (selectDelayedCB s) 0%nat PS' s2)
    as (evsPump & HC3 & Hflags).
  destruct (pumpMainFile host fuel (InputKind (Invocation s)) (MainBufferID s)
              (selectDelayedCB s) 0 PS' s2) as [PS3 s3|msg s3|s3];
    cbn in *; try done.
  destruct Hflags as (n & Hn & Hflags).
  destruct Hrest as (s4 & HTC & Heq).
  destruct (typeCheckInputs_calls host s3) as (evsTC & HTC' & HFT).
  rewrite HTC in HTC'. injection HTC' as ->.
  exists (evsLib ++ evsPump ++ evsTC ++
          if bool_decide (is_Some (selectDelayedCB s))
          then [PerformDelayedParsing] else []), n.
  split.
  { injection Heq as ->.
    destruct (bool_decide _); cbn; rewrite HC3, HC2, HC1, <- ?app_assoc;
      [done|by rewrite app_nil_r]. }
  split; [done|].
  rewrite !omap_app, Hflags.
  assert (omap (pumpDone (MainBufferID s)) evsLib = []) as ->.
  { rewrite HMain in HFL. clear -HFL.
    induction HFL as [|e evs He _ IH]; cbn; [done|].
    destruct e; cbn in *; try done.
    by rewrite (proj2 (N.eqb_neq _ _) He). }
  assert (omap (pumpDone (MainBufferID s)) evsTC = []) as ->.
  { clear -HFT. induction HFT as [|e evs He _ IH]; cbn; [done|].
    by destruct e. }
  destruct (bool_decide _); cbn; by rewrite app_nil_r.
Qed.

Lemma performParse_pumps_until_Done_witness :
  let host := exampleHost None in
  let s := afterSetup host
             (exampleInvocation Main macosx_x86_64 []
                ["main.swift"; "a.swift"] None false) in
  exists evs n,
    Calls (final (performParse host 5 s)) = Calls s ++ evs /\ (n < 5)%nat /\
    omap (pumpDone 0) evs = replicate n false ++ [true].
Proof.
  intros host s.
  assert (InputKind (Invocation s) <> REPL) as HK by (vm_compute; discriminate).
  assert (MainBufferID s <> NO_SUCH_BUFFER) as Hmain
    by (vm_compute; discriminate).
  assert (existsb (loadFails host s) (BufferIDs s) = false) as Hload
    by (vm_compute; reflexivity).
  assert (performParse host 5 s = Val tt (final (performParse host 5 s)))
    as Hrun by (vm_compute; reflexivity).
  assert (MainBufferID s = 0) as H0 by (vm_compute; reflexivity).
  destruct (performParse_pumps_until_Done host 5 s _ HK Hmain Hload Hrun)
    as (evs & n & HC & Hn & Hflags).
  rewrite H0 in Hflags. exists evs, n.
  split; [exact HC|]. split; [exact Hn|exact Hflags].
Defined.

(** X12 -- the main-file loop is the only place where [performParse] can
    fail to return: the model runs out of fuel only outside the REPL, with a
    main buffer and no load error, after as many pumps of the main buffer as
    there was fuel, none of which answered [Done]. *)
Theorem performParse_out_of_fuel (host : Host) (fuel : nat)
  (s s' : CompilerInstance) :
  performParse host fuel s = OutOfFuel s' ->
  InputKind (Invocation s) <> REPL /\
  MainBufferID s <> NO_SUCH_BUFFER /\
  existsb (loadFails host s) (BufferIDs s) = false /\
  exists evs,
    Calls s' = Calls s ++ evs /\
    omap (pumpDone (MainBufferID s)) evs = replicate fuel false.
Proof.
  intros Hrun.
  assert (InputKind (Invocation s) <> REPL) as HK.
  { intros HK. revert Hrun. unfold performParse. msimpl.
    destruct (createMainModule_spec s) as (_ & _ & HM0 & Hval0 & Hfail0).
    destruct (createMainModule s) as [[] s0|msg s0|s0]; cbn in *; try done.
    - rewrite bool_decide_eq_true_2 by done.
      by erewrite addFile_spec by exact HM0.
    - by specialize (Hval0 ltac:(tauto)). }
  split; [done|].
  pose proof (performParse_anatomy host fuel s) as Han. cbn zeta in Han.
  rewrite Hrun in Han.
  destruct (Han HK (fun H => H))
    as (s0 & s1 & s2 & flag & PS & _ & _ & Hsame & HC1 & HM1 & Hlib & Hrest).
  clear Han.
  destruct flag; [done|].
  destruct (parseLibraryFiles_loop host (selectDelayedCB s) (BufferIDs s)
              false (PersistentState0 host) s1 _ HM1)
    as (evsLib & more & Hsame2 & HC2 & HFL & HM2 & Hval).
  rewrite Hlib in Hsame2, HC2, HM2, Hval. cbn in Hsame2, HC2, HM2, Hval.
  destruct (Hval (fun H => H)) as (PS' & Heq & _).
  pose proof Hsame as (_ & _ & _ & HMain & _).
  assert (existsb (loadFails host s1) (BufferIDs s)
          = existsb (loadFails host s) (BufferIDs s)) as Hex.
  { clear -Hsame. induction (BufferIDs s) as [|x l IH]; cbn; [done|].
    by rewrite IH, (loadFails_sameInputs host s s1). }
  rewrite Hex in Heq. injection Heq as Hload _. symmetry in Hload.
  assert (MainBufferID s2 = MainBufferID s) as HMain2.
  { destruct Hsame2 as (_ & _ & _ & -> & _). done. }
  assert (MainBufferID s <> NO_SUCH_BUFFER) as Hmain.
  { intros Hnone. revert Hrest. unfold parseMainFile. msimpl. unfold id.
    rewrite HMain2, Hnone, N.eqb_refl. cbn. by intros (? & _ & ?). }
  do 2 (split; [done|]).
  rewrite <- (sameInputs_mainFileOnly _ s s1) in HM2 by done.
  rewrite <- (sameInputs_mainFileOnly _ s1 s2) in HM2 by done.
  erewrite parseMainFile_pumps in Hrest; [|by rewrite HMain2|exact HM2].
  rewrite HMain2 in Hrest.
  destruct (pumpMainFile_done host fuel (InputKind (Invocation s))
              (MainBufferID s) (selectDelayedCB s) 0%nat PS s2)
    as (evsPump & HC3 & Hflags).
  destruct (pumpMainFile host fuel (InputKind (Invocation s)) (MainBufferID s)
              (selectDelayedCB s) 0 PS s2) as [PS3 s3|msg s3|s3];
    cbn in *; try done.
  { by destruct Hrest as (? & _ & ?). }
  injection Hrest as ->.
  exists (evsLib ++ evsPump).
  split; [by rewrite HC3, HC2, HC1, app_assoc|].
  rewrite omap_app, Hflags.
  assert (omap (pumpDone (MainBufferID s)) evsLib = []) as ->; [|done].
  rewrite HMain in HFL. clear -HFL.
  induction HFL as [|e evs He _ IH]; cbn; [done|].
  destruct e; cbn in *; try done.
  by rewrite (proj2 (N.eqb_neq _ _) He).
Qed.

Lemma performParse_out_of_fuel_witness :
  let host := exampleHost None in
  let s := afterSetup host
             (exampleInvocation Main macosx_x86_64 []
                ["a.swift"; "main.swift"] None false) in
  exists evs,
    Calls (final (performParse host 1 s)) = Calls s ++ evs /\
    omap (pumpDone 1) evs = [false].
Proof.
  intros host s.
  assert (performParse host 1 s = OutOfFuel (final (performParse host 1 s)))
    as Hrun by (vm_compute; reflexivity).
  assert (MainBufferID s = 1) as H1 by (vm_compute; reflexivity).
  destruct (performParse_out_of_fuel host 1 s _ Hrun)
    as (_ & _ & _ & evs & HC & Hflags).
  rewrite H1 in Hflags. exists evs. split; [exact HC|exact Hflags].
Defined.

(** X13 -- the delayed parsing is asked for once, as the last call, exactly
    when callbacks were selected (a code-completion point is given or
    delayed function bodies are asked for) and no load error stopped
    [performParse]; no other call of a [performParse] that returns is a
    delayed parsing. *)
Theorem performParse_delayed_parsing (host : Host) (fuel : nat)
  (s s' : CompilerInstance) :
  InputKind (Invocation s) <> REPL ->
  performParse host fuel s = Val tt s' ->
  exists evs,
    (PerformDelayedParsing ∉ evs) /\
    Calls s' =
      Calls s ++ evs ++
      if (isCodeCompletion (Invocation s)
          || DelayedFunctionBodyParsing (Invocation s))
         && negb (existsb (loadFails host s) (BufferIDs s))
      then [PerformDelayedParsing] else [].
Proof.
  intros HK Hrun.
  pose proof (performParse_anatomy host fuel s) as Han. cbn zeta in Han.
  rewrite Hrun in Han.
  destruct (Han HK (fun H => H))
    as (s0 & s1 & s2 & flag & PS & _ & _ & Hsame & HC1 & HM1 & Hlib & Hrest).
  clear Han.
  destruct (parseLibraryFiles_loop host (selectDelayedCB s) (BufferIDs s)
              false (PersistentState0 host) s1 _ HM1)
    as (evsLib & more & Hsame2 & HC2 & HFL & HM2 & Hval).
  rewrite Hlib in Hsame2, HC2, HM2, Hval. cbn in Hsame2, HC2, HM2, Hval.
  destruct (Hval (fun H => H)) as (PS' & Heq & _).
  assert (existsb (loadFails host s1) (BufferIDs s)
          = existsb (loadFails host s) (BufferIDs s)) as Hex.
  { clear -Hsame. induction (BufferIDs s) as [|x l IH]; cbn; [done|].
    by rewrite IH, (loadFails_sameInputs host s s1). }
  rewrite Hex in Heq. injection Heq as Hload _. cbn in Hload.
  assert (PerformDelayedParsing ∉ evsLib) as HnL.
  { intros Hin. rewrite Forall_forall in HFL. by apply HFL in Hin. }
  assert (bool_decide (is_Some (selectDelayedCB s))
          = isCodeCompletion (Invocation s)
            || DelayedFunctionBodyParsing (Invocation s)) as HCB.
  { unfold selectDelayedCB.
    by destruct (isCodeCompletion _), (DelayedFunctionBodyParsing _). }
  rewrite <- Hload, <- HCB.
  destruct flag; cbn.
  { injection Hrest as <-. exists evsLib. split; [done|].
    rewrite andb_false_r. by rewrite app_nil_r, HC2, HC1. }
  rewrite andb_true_r.
  rewrite <- (sameInputs_mainFileOnly _ s s1) in HM2 by done.
  rewrite <- (sameInputs_mainFileOnly _ s1 s2) in HM2 by done.
  destruct (parseMainFile_spec host fuel (InputKind (Invocation s))
              (selectDelayedCB s) PS s2 _ _ HM2)
    as (evsPump & _ & HC3 & HT3 & _).
  destruct (parseMainFile host fuel (InputKind (Invocation s))
              (selectDelayedCB s) PS s2) as [PS3 s3|msg s3|s3];
    cbn in *; try done.
  destruct Hrest as (s4 & HTC & Heq).
  destruct (typeCheckInputs_calls host s3) as (evsTC & HTC' & HFT).
  rewrite HTC in HTC'. injection HTC' as ->.
  apply pumpTrace_events with (n := length evsPump) in HT3; [|done].
  exists (evsLib ++ evsPump ++ evsTC). split.
  - rewrite !elem_of_app. intros [Hin|[Hin|Hin]]; [done| |].
    + rewrite Forall_forall in HT3. by apply HT3 in Hin.
    + rewrite Forall_forall in HFT. by apply HFT in Hin.
  - injection Heq as ->.
    destruct (bool_decide _); cbn; rewrite HC3, HC2, HC1, <- ?app_assoc;
      [done|by rewrite !app_nil_r].
Qed.

Lemma performParse_delayed_parsing_witness :
  let host := exampleHost (Some (fun _ => true)) in
  let s := afterSetup host fullInvocation in
  exists evs,
    (PerformDelayedParsing ∉ evs) /\
    Calls (final (performParse host 5 s))
      = Calls s ++ evs ++ [PerformDelayedParsing].
Proof.
  intros host s.
  assert (InputKind (Invocation s) <> REPL) as HK by (vm_compute; discriminate).
  assert (performParse host 5 s = Val tt (final (performParse host 5 s)))
    as Hrun by (vm_compute; reflexivity).
  assert ((isCodeCompletion (Invocation s)
           || DelayedFunctionBodyParsing (Invocation s))
          && negb (existsb (loadFails host s) (BufferIDs s)) = true) as Hsel
    by (vm_compute; reflexivity).
  destruct (performParse_delayed_parsing host 5 s _ HK Hrun)
    as (evs & Hnot & HC).
  rewrite Hsel in HC. exists evs. split; [exact Hnot|exact HC].
Defined.

(** ** No assertion fails after a successful [setup] *)

Section Assertions.
Context (host : Host).

Lemma parseLibraryFile_no_assertion DelayedCB BufferID hadLoadError PS s Mod :
  libraryParsedAtOnce host ->
  MainModule s = Some Mod ->
  (BufferID <> MainBufferID s ->
   is_Some (getMemoryBuffer (SourceMgr s) BufferID)) ->
  ~ assertionFailed (parseLibraryFile host DelayedCB BufferID hadLoadError PS s).
Proof.
  intros Hdone HMod Hreg. unfold parseLibraryFile. msimpl. unfold id.
  destruct (N.eqb_spec BufferID (MainBufferID s)) as [Hmain|Hmain]; cbn;
    [tauto|].
  destruct (Hreg Hmain) as [Buf ->]. cbn.
  destruct (isSerializedAST host (getBuffer Buf)); cbn.
  - destruct (loadAST host Buf); cbn; [|tauto].
    erewrite addFile_spec by (cbn; exact HMod). cbn. tauto.
  - erewrite addFile_spec by exact HMod. cbn.
    pose proof (Hdone (SourceMgr s) BufferID PS DelayedCB) as HD.
    destruct (N.eqb BufferID (PrimaryBufferID s)); cbn;
      destruct (parseIntoSourceFile host (SourceMgr s) Library BufferID false PS
                                    DelayedCB) as [[appended Done] PS1];
      cbn in *; subst Done; cbn; tauto.
Qed.

Lemma parseLibraryFiles_no_assertion DelayedCB ids :
  forall hadLoadError PS s Mod,
  libraryParsedAtOnce host ->
  MainModule s = Some Mod ->
  (forall BufferID, BufferID ∈ ids -> BufferID <> MainBufferID s ->
     is_Some (getMemoryBuffer (SourceMgr s) BufferID)) ->
  ~ assertionFailed (parseLibraryFiles host DelayedCB ids hadLoadError PS s).
Proof.
  induction ids as [|BufferID rest IH]; intros flag PS s Mod Hdone HMod Hreg;
    cbn [parseLibraryFiles].
  - msimpl. cbn. tauto.
  - msimpl.
    pose proof (parseLibraryFile_no_assertion DelayedCB BufferID flag PS s Mod
                  Hdone HMod) as Hok.
    destruct (parseLibraryFile_iter host DelayedCB BufferID flag PS s Mod HMod)
      as (evs1 & more1 & Hsame1 & _ & _ & HM1 & _).
    destruct (parseLibraryFile host DelayedCB BufferID flag PS s)
      as [[flag1 PS1] s1|msg s1|s1]; cbn [final] in *.
    + eapply IH; [done|exact HM1|].
      destruct Hsame1 as (_ & HB & _ & HMain & _).
      intros id Hin Hne. unfold getMemoryBuffer. rewrite HB.
      apply Hreg; [by apply elem_of_cons; right|by rewrite <- HMain].
    + intros _. apply Hok; [|done].
      intros Hne. apply Hreg; [by apply elem_of_cons; left|done].
    + cbn. tauto.
Qed.

(** What can stop [performParse] at an assertion. *)
Lemma performParse_assertion_cases fuel s :
  assertionFailed (performParse host fuel s) ->
  (InputKind (Invocation s) = SIL /\ ~ SILAssertionsHold s) \/
  (MainBufferID s <> NO_SUCH_BUFFER /\ InputKind (Invocation s) <> Main /\
   InputKind (Invocation s) <> SIL) \/
  exists s1 Mod,
    sameInputs s s1 /\ MainModule s1 = Some Mod /\
    assertionFailed (parseLibraryFiles host (selectDelayedCB s) (BufferIDs s)
                       false (PersistentState0 host) s1).
Proof.
  unfold performParse. msimpl.
  pose proof (selectDelayedCB_createMainModule s) as HCB.
  destruct (createMainModule_spec s) as (Hsame0 & HC0 & HM0 & Hval0 & Hfail0).
  destruct (createMainModule s) as [[] s0|msg s0|s0] eqn:Hcreate; cbn in *.
  2:{ intros _. left. by apply Hfail0. }
  2:{ done. }
  destruct (decide (InputKind (Invocation s) = REPL)) as [HK|HK];
    [rewrite bool_decide_eq_true_2 by done
    |rewrite bool_decide_eq_false_2 by done].
  { by erewrite addFile_spec by exact HM0. }
  rewrite HCB.
  destruct (addMainSourceFile_spec (InputKind (Invocation s)) s0 _ HM0)
    as (Hsame1 & HC1 & Hval1 & Hfail1).
  pose proof Hsame0 as (_ & _ & _ & HMain0 & _).
  destruct (addMainSourceFile (InputKind (Invocation s)) s0)
    as [[] s1|msg s1|s1] eqn:Hadd; cbn in *.
  2:{ intros _. right. left. rewrite <- HMain0. by apply Hfail1. }
  2:{ done. }
  destruct (Hval1 ltac:(tauto)) as [_ HM1].
  assert (sameInputs s s1) as Hsame by by eapply sameInputs_trans.
  unfold parseAndCheck. msimpl.
  pose proof Hsame as (_ & _ & HIDs & _). rewrite HIDs.
  destruct (parseLibraryFiles_loop host (selectDelayedCB s) (BufferIDs s)
              false (PersistentState0 host) s1 _ HM1)
    as (evsLib & more & Hsame2 & _ & _ & HM2 & _).
  destruct (parseLibraryFiles host (selectDelayedCB s) (BufferIDs s) false
              (PersistentState0 host) s1)
    as [[hadLoadError PS] s2|msg s2|s2] eqn:Hlib; cbn in *.
  2:{ intros _. right. right. exists s1. eexists.
      split; [done|]. split; [exact HM1|]. by rewrite Hlib. }
  2:{ done. }
  destruct hadLoadError; [done|].
  rewrite <- (sameInputs_mainFileOnly _ s0 s2) in HM2
    by (by eapply sameInputs_trans).
  destruct (parseMainFile_spec host fuel (InputKind (Invocation s))
              (selectDelayedCB s) PS s2 _ _ HM2)
    as (evsPump & _ & _ & _ & _ & Hok).
  destruct (parseMainFile host fuel (InputKind (Invocation s))
              (selectDelayedCB s) PS s2) as [PS3 s3|msg s3|s3];
    cbn in *; try done.
  destruct (typeCheckInputs_spec host s3) as (evs & -> & _). cbn.
  by destruct (bool_decide (is_Some (selectDelayedCB s))).
Qed.

(** With an input kind other than Main and SIL a fresh instance comes out of
    [setup] without a main buffer. *)
Lemma setup_fresh_main_other_kind Invok s :
  InputKind Invok <> Main -> InputKind Invok <> SIL ->
  setup host Invok (newCompilerInstance Invok) = Val false s ->
  MainBufferID s = NO_SUCH_BUFFER.
Proof.
  intros HnM HnS Hsetup.
  destruct (setup_success_phases host Invok _ _ Hsetup)
    as (s1 & s2 & s3 & s4 & Hcfg & HI1 & _ & Hcc & Hbufs & Hrun & Himp).
  destruct (configureContext_selection host Invok (newCompilerInstance Invok))
    as (_ & _ & HM1 & _).
  rewrite Hcfg in HM1. cbn in HM1.
  destruct (addCodeCompletionBuffer_full s1)
    as (s2' & Hcc' & HI2 & _ & _ & HM2 & _).
  rewrite Hcc in Hcc'. injection Hcc' as <-.
  destruct (addInputBuffers_spec (InputBuffers Invok) 0%nat s2)
    as (s3' & Hbufs' & HI3 & _ & _ & _ & HM3 & _).
  rewrite Hbufs in Hbufs'. injection Hbufs' as <-.
  assert (SILMode Invok = false) as Hsil
    by (unfold SILMode; by rewrite bool_decide_eq_false_2).
  assert (MainMode Invok = false) as Hmain
    by (unfold MainMode; by rewrite bool_decide_eq_false_2).
  rewrite HI2, HI1, Hsil in HM3.
  pose proof (addInputFilenames_main_other_kind host (InputFilenames Invok)
                0%nat s3) as HM4.
  destruct (addInputFilenames_sameContext host (InputFilenames Invok) 0%nat s3)
    as (failed & s4' & Hrun' & HI4 & _).
  rewrite Hrun in Hrun'. injection Hrun' as _ <-.
  rewrite Hrun in HM4. cbn in HM4.
  assert (MainBufferID s4 = MainBufferID s3) as HM4'
    by (apply HM4; by rewrite HI3, HI2, HI1).
  destruct (implicitMainBuffer_cases s4 s Himp)
    as (_ & _ & _ & [HM|(Hmode & _)]).
  - congruence.
  - rewrite HI4, HI3, HI2, HI1 in Hmode. congruence.
Qed.

End Assertions.

(** X14 -- no assertion of [performParse] fails on an instance that [setup]
    has just set up successfully, provided the parser takes a library file
    in one call (the loop asserts that it does) and, in SIL mode, there is
    exactly one buffer and it is the main one: every id in [BufferIDs] names
    a registered buffer, a main buffer is designated only when the input
    kind allows a main file, and the main file of the module is found where
    it was put. *)
Theorem performParse_no_assertion (host : Host) (Invok : CompilerInvocation)
  (fuel : nat) (s : CompilerInstance) :
  libraryParsedAtOnce host ->
  setup host Invok (newCompilerInstance Invok) = Val false s ->
  (InputKind Invok = SIL -> SILAssertionsHold s) ->
  ~ assertionFailed (performParse host fuel s).
Proof.
  intros Hdone Hsetup HSIL Hfail.
  pose proof (setup_Invocation _ _ _ _ _ Hsetup) as HI.
  destruct (setup_ids host Invok s Hsetup) as [Hids _].
  destruct (performParse_assertion_cases host fuel s Hfail)
    as [[HK Hnot]|[(Hmain & HnM & HnS)|(s1 & Mod & Hsame & HMod & Hlib)]].
  - rewrite HI in HK. by apply Hnot, HSIL.
  - rewrite HI in HnM, HnS.
    by rewrite (setup_fresh_main_other_kind host Invok s) in Hmain.
  - revert Hlib. apply parseLibraryFiles_no_assertion with Mod; [done..|].
    intros BufferID Hin _.
    destruct Hsame as (_ & HB & _). unfold getMemoryBuffer. rewrite HB.
    apply lookup_lt_is_Some.
    unfold idsMatchRegistry in Hids. rewrite Hids in Hin.
    apply list_elem_of_fmap in Hin as (k & -> & Hk%elem_of_seq). lia.
Qed.

Lemma performParse_no_assertion_witness :
  let host := exampleHost None in
  let Invok := exampleInvocation Library macosx_x86_64
                 [ {| getBufferIdentifier := "m.swift"; getBuffer := "k" |} ]
                 ["a.swift"; "bad.swiftmodule"; "b.swift"] None false in
  ~ assertionFailed (performParse host 3 (afterSetup host Invok)).
Proof.
  intros host Invok.
  assert (libraryParsedAtOnce host) as Hdone.
  { intros SM BufferID PS DelayedCB. cbn. unfold exampleParser.
    destruct (getMemoryBuffer SM BufferID); reflexivity. }
  assert (setup host Invok (newCompilerInstance Invok)
          = Val false (afterSetup host Invok)) as Hsetup
    by (vm_compute; reflexivity).
  assert (InputKind Invok = SIL -> SILAssertionsHold (afterSetup host Invok))
    as HSIL by (vm_compute; discriminate).
  exact (performParse_no_assertion host Invok 3 _ Hdone Hsetup HSIL).
Defined.

(** ** The primary source file *)

Section PrimaryFile.
Context (host : Host).

Lemma parsedAsLibrary_sameInputs s s' BufferID :
  sameInputs s s' ->
  parsedAsLibrary host s' BufferID = parsedAsLibrary host s BufferID.
Proof.
  intros (_ & HB & _ & HM & _). unfold parsedAsLibrary, getMemoryBuffer.
  by rewrite HB, HM.
Qed.

Lemma parseLibraryFile_primary DelayedCB BufferID hadLoadError PS s Mod
    hadLoadError' PS' s' :
  MainModule s = Some Mod ->
  parseLibraryFile host DelayedCB BufferID hadLoadError PS s
    = Val (hadLoadError', PS') s' ->
  PrimarySourceFile s' =
    if (BufferID =? PrimaryBufferID s) && parsedAsLibrary host s BufferID
    then Some (PrimaryBufferID s) else PrimarySourceFile s.
Proof.
  intros HMod. unfold parseLibraryFile, parsedAsLibrary. msimpl. unfold id.
  destruct (N.eqb_spec BufferID (MainBufferID s)) as [Hmain|Hmain]; cbn.
  { intros [= <- <- <-]. by rewrite andb_false_r. }
  destruct (getMemoryBuffer (SourceMgr s) BufferID) as [Buf|]; cbn; [|done].
  destruct (isSerializedAST host (getBuffer Buf)); cbn.
  - rewrite andb_false_r.
    destruct (loadAST host Buf); cbn.
    + erewrite addFile_spec by (cbn; exact HMod). cbn. by intros [= <- <- <-].
    + by intros [= <- <- <-].
  - erewrite addFile_spec by exact HMod. cbn. rewrite andb_true_r.
    destruct (N.eqb_spec BufferID (PrimaryBufferID s)) as [Hp|Hp]; cbn;
      destruct (parseIntoSourceFile host (SourceMgr s) Library BufferID false PS
                                    DelayedCB) as [[appended Done] PS1];
      cbn; destruct Done; cbn; try done.
    all: intros [= <- <- <-]; cbn; congruence.
Qed.

Lemma parseLibraryFiles_primary DelayedCB ids : forall hadLoadError PS s Mod
    hadLoadError' PS' s',
  MainModule s = Some Mod ->
  parseLibraryFiles host DelayedCB ids hadLoadError PS s
    = Val (hadLoadError', PS') s' ->
  PrimarySourceFile s' =
    if existsb (fun BufferID => (BufferID =? PrimaryBufferID s)
                                && parsedAsLibrary host s BufferID) ids
    then Some (PrimaryBufferID s) else PrimarySourceFile s.
Proof.
  induction ids as [|BufferID rest IH];
    intros flag PS s Mod flag' PS' s' HMod; cbn [parseLibraryFiles existsb].
  - msimpl. by intros [= <- <- <-].
  - msimpl.
    destruct (parseLibraryFile_iter host DelayedCB BufferID flag PS s Mod HMod)
      as (evs0 & more0 & Hsame1 & _ & _ & HM1 & _).
    destruct (parseLibraryFile host DelayedCB BufferID flag PS s)
      as [[flag1 PS1] s1|msg s1|s1] eqn:Hiter; cbn [final] in *; try done.
    pose proof (parseLibraryFile_primary _ _ _ _ _ _ _ _ _ HMod Hiter) as HP1.
    intros Hrest. rewrite (IH _ _ _ _ _ _ _ HM1 Hrest).
    pose proof Hsame1 as (_ & _ & _ & _ & HPrim). rewrite HPrim.
    assert (existsb (fun id => (id =? PrimaryBufferID s)
                               && parsedAsLibrary host s1 id) rest
            = existsb (fun id => (id =? PrimaryBufferID s)
                                 && parsedAsLibrary host s id) rest) as ->.
    { clear -Hsame1. induction rest as [|x rest IHr]; cbn; [done|].
      by rewrite IHr, (parsedAsLibrary_sameInputs s s1). }
    rewrite HP1.
    destruct (existsb _ rest); [by rewrite orb_true_r|].
    by rewrite orb_false_r.
Qed.

Lemma addMainSourceFile_primary Kind s s' name :
  MainModule s = Some {| getName := name; getFiles := [] |} ->
  addMainSourceFile Kind s = Val tt s' ->
  PrimarySourceFile s' =
    if negb (MainBufferID s =? NO_SUCH_BUFFER)
       && (MainBufferID s =? PrimaryBufferID s)
    then Some (PrimaryBufferID s) else PrimarySourceFile s.
Proof.
  intros HMod. unfold addMainSourceFile. msimpl. unfold id.
  destruct (N.eqb_spec (MainBufferID s) NO_SUCH_BUFFER) as [Hmain|Hmain]; cbn.
  { by intros [= <-]. }
  destruct (bool_decide (Kind = Main)) eqn:HK; cbn.
  - erewrite addFile_spec by (cbn; exact HMod). cbn.
    destruct (N.eqb_spec (MainBufferID s) (PrimaryBufferID s)) as [Hp|Hp]; cbn;
      intros [= <-]; cbn; congruence.
  - destruct (bool_decide (Kind = SIL)); cbn; [|done].
    erewrite addFile_spec by (cbn; exact HMod). cbn.
    destruct (N.eqb_spec (MainBufferID s) (PrimaryBufferID s)) as [Hp|Hp]; cbn;
      intros [= <-]; cbn; congruence.
Qed.

End PrimaryFile.

(** X15 -- the primary source file of the instance after [performParse]
    outside the REPL, when none was set before: it is the primary buffer if
    that buffer was parsed as source, be it as the main file or as a library
    file, and there is none otherwise; in particular a primary buffer that
    holds a serialized module gives no primary source file. *)
Theorem performParse_primary_source_file (host : Host) (fuel : nat)
  (s s' : CompilerInstance) :
  InputKind (Invocation s) <> REPL ->
  PrimarySourceFile s = None ->
  performParse host fuel s = Val tt s' ->
  PrimarySourceFile s' =
    if primaryIsParsed host s then Some (PrimaryBufferID s) else None.
Proof.
  intros HK Hnone Hrun.
  pose proof (performParse_anatomy host fuel s) as Han. cbn zeta in Han.
  rewrite Hrun in Han.
  destruct (Han HK (fun H => H))
    as (s0 & s1 & s2 & flag & PS & Hcreate & Hadd & Hsame & _ & HM1 & Hlib
        & Hrest).
  clear Han.
  destruct (createMainModule_frame s) as [_ HP0].
  destruct (createMainModule_spec s) as (Hsame0 & _ & HM0 & _).
  rewrite Hcreate in HP0, Hsame0, HM0. cbn in HP0, Hsame0, HM0.
  pose proof (addMainSourceFile_primary _ _ _ _ HM0 Hadd) as HP1.
  pose proof Hsame0 as (_ & _ & _ & HMain0 & HPrim0).
  rewrite HMain0, HPrim0, HP0, Hnone in HP1.
  pose proof (parseLibraryFiles_primary host _ _ _ _ _ _ _ _ _ HM1 Hlib) as HP2.
  pose proof Hsame as (_ & _ & _ & _ & HPrim1). rewrite HPrim1 in HP2.
  assert (existsb (fun id => (id =? PrimaryBufferID s)
                             && parsedAsLibrary host s1 id) (BufferIDs s)
          = existsb (fun id => (id =? PrimaryBufferID s)
                               && parsedAsLibrary host s id) (BufferIDs s))
    as Hex.
  { clear -Hsame. induction (BufferIDs s) as [|x rest IHr]; cbn; [done|].
    by rewrite IHr, (parsedAsLibrary_sameInputs host s s1). }
  rewrite Hex, HP1 in HP2.
  assert (PrimarySourceFile s2 =
            if primaryIsParsed host s then Some (PrimaryBufferID s) else None)
    as Hgoal.
  { rewrite HP2. unfold primaryIsParsed.
    destruct (existsb _ (BufferIDs s)); [by rewrite orb_true_r|].
    by rewrite orb_false_r. }
  destruct flag.
  { by injection Hrest as <-. }
  destruct (parseMainFile_units host fuel (InputKind (Invocation s))
              (selectDelayedCB s) PS s2) as [_ HP3].
  destruct (parseMainFile host fuel (InputKind (Invocation s))
              (selectDelayedCB s) PS s2) as [PS3 s3|msg s3|s3];
    cbn in *; try done.
  destruct Hrest as (s4 & HTC & Heq).
  destruct (typeCheckInputs_calls host s3) as (evsTC & HTC' & _).
  rewrite HTC in HTC'. injection HTC' as ->.
  injection Heq as ->. rewrite <- Hgoal, <- HP3.
  by destruct (bool_decide _).
Qed.

Lemma performParse_primary_source_file_witness :
  let host := exampleHost None in
  let s := afterSetup host
             (exampleInvocation Main macosx_x86_64 []
                ["main.swift"; "bad.swiftmodule"; "a.swift"]
                (Some {| Index := 1; Kind := Filename |}) false) in
  PrimaryBufferID s = 1 /\
  PrimarySourceFile (final (performParse host 5 s)) = None.
Proof.
  intros host s.
  assert (InputKind (Invocation s) <> REPL) as HK by (vm_compute; discriminate).
  assert (PrimarySourceFile s = None) as Hnone by (vm_compute; reflexivity).
  assert (performParse host 5 s = Val tt (final (performParse host 5 s)))
    as Hrun by (vm_compute; reflexivity).
  assert (primaryIsParsed host s = false) as Hp by (vm_compute; reflexivity).
  split; [vm_compute; reflexivity|].
  rewrite (performParse_primary_source_file host 5 s _ HK Hnone Hrun).
  rewrite Hp. reflexivity.
Defined.

(** ** The target configuration *)

Section TargetConfiguration.
Context (host : Host).

Lemma setTargetConfigurations_options s :
  isMacOSX (IRGenTriple (Invocation s)) || isiOS (IRGenTriple (Invocation s))
    = true ->
  exists opts,
    setTargetConfigurations s = Val tt (set_TargetConfigOptions opts s) /\
    opts !! "os"
      = Some (if isMacOSX (IRGenTriple (Invocation s)) then "OSX" else "iOS") /\
    forall key, key <> "os" -> key <> "arch" ->
                opts !! key = TargetConfigOptions s !! key.
Proof.
  intros Hos. unfold setTargetConfigurations. msimpl.
  destruct (isMacOSX _); [|destruct (isiOS _); [|done]];
    destruct (getArch _) as [| | |name]; cbn;
    try destruct (String.eqb "arm64" name); cbn;
    unfold set_TargetConfigOptions; cbn; eexists;
    (split; [reflexivity|]);
    (split; [by rewrite ?lookup_insert_ne, ?lookup_insert_eq by done|]);
    intros key Hk1 Hk2; by rewrite ?lookup_insert_ne by done.
Qed.

Lemma configureContext_options Invok s0 :
  isMacOSX (IRGenTriple Invok) || isiOS (IRGenTriple Invok) = true ->
  TargetConfigOptions (final (configureContext host Invok s0)) !! "os"
    = Some (if isMacOSX (IRGenTriple Invok) then "OSX" else "iOS") /\
  forall key, key <> "os" -> key <> "arch" ->
    TargetConfigOptions (final (configureContext host Invok s0)) !! key
    = LangTargetConfigOptions Invok !! key.
Proof.
  intros Hos. unfold configureContext, wireClangImporter. msimpl.
  assert (forall t, Invocation t = Invok ->
            TargetConfigOptions t = LangTargetConfigOptions Invok ->
            exists opts,
              setTargetConfigurations t = Val tt (set_TargetConfigOptions opts t) /\
              opts !! "os"
                = Some (if isMacOSX (IRGenTriple Invok) then "OSX" else "iOS") /\
              forall key, key <> "os" -> key <> "arch" ->
                          opts !! key = LangTargetConfigOptions Invok !! key)
    as Htc.
  { intros t Ht Hopts.
    destruct (setTargetConfigurations_options t) as (opts & Heq & H1 & H2);
      [by rewrite Ht|].
    exists opts. rewrite Ht in H1. split; [done|]. split; [done|].
    intros key Hk1 Hk2. by rewrite H2, Hopts. }
  destruct (bool_decide (LLVMArgs Invok = [])); cbn;
    (match goal with |- context [setTargetConfigurations ?t] =>
       destruct (Htc t eq_refl eq_refl) as (opts & -> & Hos' & Hrest) end);
    cbn; destruct (EnableSourceImport Invok); cbn;
    destruct (getClangImporterCtor host) as [ImporterCtor|]; cbn;
    try destruct (ImporterCtor Invok);
    try destruct (String.eqb (SDKPath Invok) EmptyString);
    cbn; done.
Qed.

End TargetConfiguration.

(** X16 -- the target configuration after [setup], for a target whose OS is
    accepted and however [setup] ends: the option "os" is "OSX" for a Mac
    OS X triple, also when the triple counts as iOS too, and "iOS"
    otherwise; every option other than "os" and "arch" is as the invocation
    given to [setup] brings it.  What the instance held before, from an
    earlier [setup], is lost with the invocation it belonged to. *)
Theorem setup_target_options (host : Host) (Invok : CompilerInvocation)
  (s0 : CompilerInstance) :
  isMacOSX (IRGenTriple Invok) || isiOS (IRGenTriple Invok) = true ->
  TargetConfigOptions (final (setup host Invok s0)) !! "os"
    = Some (if isMacOSX (IRGenTriple Invok) then "OSX" else "iOS") /\
  forall key, key <> "os" -> key <> "arch" ->
    TargetConfigOptions (final (setup host Invok s0)) !! key
    = LangTargetConfigOptions Invok !! key.
Proof.
  intros Hos.
  destruct (configureContext_options host Invok s0 Hos) as [H1 H2].
  destruct (configureContext_spec host Invok s0 Hos)
    as (failed & s1 & Hcfg & _).
  rewrite Hcfg in H1, H2. cbn in H1, H2.
  destruct failed.
  - by rewrite (setup_stops_at_configureContext host Invok s0 s1 Hcfg).
  - destruct (setup_after_configureContext host Invok s0 s1 Hcfg)
      as (_ & _ & ->). done.
Qed.

Lemma setup_target_options_witness :
  let Invok := withSDKPath EmptyString fullInvocation in
  let s0 := set_TargetConfigOptions (<["debug" := "1"]> ∅)
              (newCompilerInstance Invok) in
  let s := final (setup (exampleHost None) Invok s0) in
  TargetConfigOptions s0 !! "debug" = Some "1" /\
  TargetConfigOptions s !! "os" = Some "OSX" /\
  TargetConfigOptions s !! "feature" = Some "on" /\
  TargetConfigOptions s !! "debug" = None.
Proof.
  intros Invok s0 s.
  assert (isMacOSX (IRGenTriple Invok) || isiOS (IRGenTriple Invok) = true)
    as Hos by reflexivity.
  destruct (setup_target_options (exampleHost None) Invok s0 Hos) as [H1 H2].
  assert (TargetConfigOptions s0 !! "debug" = Some "1") as H0
    by (vm_compute; reflexivity).
  assert (LangTargetConfigOptions Invok !! "feature" = Some "on") as Hf
    by (vm_compute; reflexivity).
  assert (LangTargetConfigOptions Invok !! "debug" = None) as Hd
    by (vm_compute; reflexivity).
  assert ("feature" <> "os") as Hf1 by discriminate.
  assert ("feature" <> "arch") as Hf2 by discriminate.
  assert ("debug" <> "os") as Hd1 by discriminate.
  assert ("debug" <> "arch") as Hd2 by discriminate.
  split; [exact H0|]. split; [exact H1|].
  split; [exact (eq_trans (H2 "feature" Hf1 Hf2) Hf)|].
  exact (eq_trans (H2 "debug" Hd1 Hd2) Hd).
Defined.

(** ** The calls of [setup] *)

Section SetupCalls.
Context (host : Host).

Lemma configureContext_calls Invok s0 :
  Calls (final (configureContext host Invok s0)) =
  Calls s0 ++
  if bool_decide (LLVMArgs Invok = []) then []
  else [ParseCommandLineOptions
          ("swift (LLVM option parsing)" :: LLVMArgs Invok)].
Proof.
  unfold configureContext, wireClangImporter. msimpl.
  destruct (isMacOSX (IRGenTriple Invok) || isiOS (IRGenTriple Invok)) eqn:Hos.
  - assert (forall t, Invocation t = Invok ->
              exists opts, setTargetConfigurations t
                           = Val tt (set_TargetConfigOptions opts t)) as Htc.
    { intros t Ht. apply setTargetConfigurations_known_os. by rewrite Ht. }
    destruct (bool_decide (LLVMArgs Invok = [])); cbn;
      (match goal with |- context [setTargetConfigurations ?t] =>
         destruct (Htc t eq_refl) as [opts ->] end);
      cbn; destruct (EnableSourceImport Invok); cbn;
      destruct (getClangImporterCtor host) as [ImporterCtor|]; cbn;
      try destruct (ImporterCtor Invok);
      try destruct (String.eqb (SDKPath Invok) EmptyString);
      cbn; by rewrite ?app_nil_r.
  - destruct (bool_decide (LLVMArgs Invok = [])); cbn;
      rewrite setTargetConfigurations_unknown_os by done; cbn;
      by rewrite ?app_nil_r.
Qed.

Lemma addInputFilenames_calls files : forall i s,
  exists opened,
    Calls (final (addInputFilenames host i files s))
      = Calls s ++ (OpenInputFile <$> opened) /\
    sublist opened files.
Proof.
  induction files as [|File rest IH]; intros i s; cbn [addInputFilenames].
  - exists []. msimpl. by rewrite app_nil_r.
  - msimpl.
    destruct (addInputFilename_spec host i File s)
      as (failed & s1 & -> & _ & Hcase).
    assert (Calls s1 = Calls s \/ Calls s1 = Calls s ++ [OpenInputFile File])
      as HC1.
    { destruct (getIDForBufferIdentifier (SourceMgr s) File).
      - left. by destruct Hcase as (_ & _ & _ & ? & _).
      - right. by destruct Hcase as (? & _). }
    destruct failed; cbn.
    + destruct HC1 as [->| ->].
      * exists []. rewrite app_nil_r. split; [done|apply sublist_nil_l].
      * exists [File]. split; [done|].
        apply sublist_skip. apply sublist_nil_l.
    + destruct (IH (S i) s1) as (opened & -> & Hsub).
      destruct HC1 as [->| ->].
      * exists opened. split; [done|]. by apply sublist_cons.
      * exists (File :: opened). rewrite <- app_assoc. split; [done|].
        by apply sublist_skip.
Qed.

End SetupCalls.

(** X17 -- the calls [setup] makes, however it ends: the LLVM option parser
    is called first, with the program name in front of the arguments, and
    only when LLVM arguments were given; every other call opens an input
    file, and the files opened are, in the order of the invocation, some of
    its file inputs. *)
Theorem setup_calls (host : Host) (Invok : CompilerInvocation)
  (s0 : CompilerInstance) :
  exists opened,
    Calls (final (setup host Invok s0)) =
      Calls s0 ++
      (if bool_decide (LLVMArgs Invok = []) then []
       else [ParseCommandLineOptions
               ("swift (LLVM option parsing)" :: LLVMArgs Invok)]) ++
      (OpenInputFile <$> opened) /\
    sublist opened (InputFilenames Invok).
Proof.
  pose proof (configureContext_calls host Invok s0) as HC0.
  unfold setup, registerInputs. msimpl.
  destruct (configureContext host Invok s0) as [[|] s1|msg s1|s1];
    cbn in *;
    try (exists []; rewrite app_nil_r; split; [done|apply sublist_nil_l]).
  unfold admitBuffers. msimpl.
  destruct (isIdentifier _ _); cbn;
    [|exists []; rewrite app_nil_r; split; [done|apply sublist_nil_l]].
  destruct (addCodeCompletionBuffer_full s1) as (s2 & -> & _ & _ & HC2 & _).
  destruct (addInputBuffers_spec (InputBuffers Invok) 0%nat s2)
    as (s3 & -> & _ & HC3 & _).
  destruct (addInputFilenames_calls host (InputFilenames Invok) 0%nat s3)
    as (opened & HC4 & Hsub).
  exists opened. split; [|done].
  rewrite HC3, HC2, HC0, <- app_assoc in HC4.
  destruct (addInputFilenames host 0 (InputFilenames Invok) s3)
    as [[|] s4|msg s4|s4]; cbn in *; try done.
  by destruct (implicitMainBuffer_spec s4) as [main ->].
Qed.

(** ** The single-buffer fallback, from the inputs *)

Lemma openedFiles_opened opened : openedFiles (OpenInputFile <$> opened) = opened.
Proof.
  induction opened as [|File rest IH]; [done|].
  change (openedFiles (OpenInputFile <$> File :: rest))
    with (File :: openedFiles (OpenInputFile <$> rest)).
  by rewrite IH.
Qed.

Lemma implicitMainBuffer_fires s front :
  MainMode (Invocation s) = true ->
  MainBufferID s = NO_SUCH_BUFFER ->
  BufferIDs s = [front] ->
  implicitMainBuffer s = Val tt (set_MainBufferID front s).
Proof.
  intros Hmode Hnone Hone. unfold implicitMainBuffer. msimpl. unfold id.
  by rewrite Hone, Hmode, Hnone, N.eqb_refl.
Qed.

Section Fallback.
Context (host : Host).

(** Every file the loop opens, when it does not fail, gives one buffer. *)
Lemma addInputFilenames_count files : forall i s s',
  addInputFilenames host i files s = Val false s' ->
  exists opened,
    Calls s' = Calls s ++ (OpenInputFile <$> opened) /\
    sublist opened files /\
    length (BufferIDs s') = (length (BufferIDs s) + length opened)%nat.
Proof.
  induction files as [|File rest IH]; intros i s s'; cbn [addInputFilenames].
  - msimpl. intros [= <-]. exists []. by rewrite app_nil_r, Nat.add_0_r.
  - msimpl.
    destruct (addInputFilename_spec host i File s)
      as (failed & s1 & -> & _ & Hcase).
    destruct failed; cbn; [done|]. intros Hrest.
    destruct (IH _ _ _ Hrest) as (opened & HC & Hsub & HL).
    destruct (getIDForBufferIdentifier (SourceMgr s) File) as [Existing|].
    + destruct Hcase as (_ & _ & HIDs & HC1 & _).
      exists opened. rewrite HC, HL, HC1, HIDs.
      split; [done|]. split; [by apply sublist_cons|done].
    + destruct Hcase as (HC1 & Hopen).
      destruct (getFileOrSTDIN host File) as [message|InputFile];
        [by destruct Hopen|].
      destruct Hopen as (_ & _ & HIDs & _).
      exists (File :: opened). rewrite HC, HL, HC1, HIDs, <- app_assoc.
      split; [done|]. split; [by apply sublist_skip|].
      rewrite length_app. cbn. lia.
Qed.

(** The buffers admitted by a successful [setup] of a fresh instance: the
    code-completion buffer, the memory inputs and the files opened. *)
Lemma setup_admitted Invok s :
  setup host Invok (newCompilerInstance Invok) = Val false s ->
  length (BufferIDs s) =
    ((if isCodeCompletion Invok then 1 else 0)
     + length (InputBuffers Invok)
     + length (openedFiles (Calls s)))%nat /\
  sublist (openedFiles (Calls s)) (InputFilenames Invok).
Proof.
  intros Hsetup.
  destruct (setup_success_phases host Invok _ _ Hsetup)
    as (s1 & s2 & s3 & s4 & Hcfg & HI1 & _ & Hcc & Hbufs & Hrun & Himp).
  destruct (configureContext_selection host Invok (newCompilerInstance Invok))
    as (_ & HIDs1 & _).
  pose proof (configureContext_calls host Invok (newCompilerInstance Invok))
    as HC1.
  rewrite Hcfg in HIDs1, HC1. cbn in HIDs1, HC1.
  assert (openedFiles (Calls s1) = []) as HO1.
  { rewrite HC1. by destruct (bool_decide (LLVMArgs Invok = [])). }
  destruct (addCodeCompletionBuffer_full s1)
    as (s2' & Hcc' & _ & _ & HC2 & _ & _ & Hpoint).
  rewrite Hcc in Hcc'. injection Hcc' as <-.
  assert (length (BufferIDs s2)
          = if isCodeCompletion Invok then 1%nat else 0%nat) as HL2.
  { rewrite HI1 in Hpoint. unfold isCodeCompletion.
    destruct (CodeCompletionPoint Invok) as [[MemBuf Offset]|].
    - destruct Hpoint as (_ & -> & _). by rewrite HIDs1.
    - destruct Hpoint as (_ & ->). by rewrite HIDs1. }
  destruct (addInputBuffers_spec (InputBuffers Invok) 0%nat s2)
    as (s3' & Hbufs' & _ & HC3 & _ & HIDs3 & _).
  rewrite Hbufs in Hbufs'. injection Hbufs' as <-.
  destruct (addInputFilenames_count _ _ _ _ Hrun)
    as (opened & HC4 & Hsub & HL4).
  destruct (implicitMainBuffer_spec s4) as [main Himp'].
  rewrite Himp in Himp'. injection Himp' as ->. cbn.
  rewrite HL4, HIDs3, length_app, length_fmap, length_seq, HL2.
  rewrite HC4, HC3, HC2, openedFiles_app, HO1, openedFiles_opened. done.
Qed.

(** In Main mode a file input that is the only input, without a
    code-completion buffer, gives the main buffer, whatever it is called. *)
Lemma setup_single_file_input Invok File s :
  InputKind Invok = Main ->
  CodeCompletionPoint Invok = None ->
  InputBuffers Invok = [] -> InputFilenames Invok = [File] ->
  setup host Invok (newCompilerInstance Invok) = Val false s ->
  BufferIDs s = [MainBufferID s].
Proof.
  intros Hkind Hcc0 Hbufs0 Hfiles0 Hsetup.
  destruct (setup_success_phases host Invok _ _ Hsetup)
    as (s1 & s2 & s3 & s4 & Hcfg & HI1 & _ & Hcc & Hbufs & Hrun & Himp).
  destruct (configureContext_selection host Invok (newCompilerInstance Invok))
    as (HSM1 & HIDs1 & HM1 & _).
  rewrite Hcfg in HSM1, HIDs1, HM1. cbn in HSM1, HIDs1, HM1.
  destruct (addCodeCompletionBuffer_full s1)
    as (s2' & Hcc' & HI2 & _ & _ & HM2 & _ & Hpoint).
  rewrite Hcc in Hcc'. injection Hcc' as <-.
  rewrite HI1, Hcc0 in Hpoint. destruct Hpoint as [HSM2 HIDs2].
  rewrite Hbufs0 in Hbufs. cbn in Hbufs. injection Hbufs as <-.
  rewrite Hfiles0 in Hrun. cbn [addInputFilenames] in Hrun. revert Hrun.
  msimpl.
  destruct (addInputFilename_spec host 0%nat File s2)
    as (failed & s4' & -> & HI4 & Hcase).
  destruct failed; cbn; [done|]. intros [= ->].
  assert (getIDForBufferIdentifier (SourceMgr s2) File = None) as Hfind
    by (by rewrite HSM2, HSM1).
  rewrite Hfind in Hcase. destruct Hcase as (_ & Hopen).
  destruct (getFileOrSTDIN host File) as [message|InputFile];
    [by destruct Hopen|].
  destruct Hopen as (_ & _ & HIDs4 & _ & HM4 & _).
  rewrite HSM2, HSM1, HIDs2, HIDs1 in HIDs4. cbn in HIDs4.
  rewrite HSM2, HSM1 in HM4. cbn in HM4.
  assert (MainMode (Invocation s4) = true) as Hmode.
  { rewrite HI4, HI2, HI1. unfold MainMode. by apply bool_decide_eq_true. }
  destruct (fileIsMain (Invocation s2) File).
  - destruct (implicitMainBuffer_cases s4 s Himp)
      as (_ & HIDs & _ & [HM|(_ & _ & Hone)]).
    + by rewrite HIDs, HM, HM4.
    + by rewrite HIDs.
  - rewrite (implicitMainBuffer_fires s4 0) in Himp;
      [|done|by rewrite HM4, HM2, HM1|done].
    injection Himp as <-. done.
Qed.

(** In Main mode, without a file input called main.swift, the registration
    designates no main buffer. *)
Lemma registration_without_main_swift Invok s1 s2 s3 s4 :
  InputKind Invok = Main ->
  Forall (fun File => filename File <> "main.swift") (InputFilenames Invok) ->
  configureContext host Invok (newCompilerInstance Invok) = Val false s1 ->
  addCodeCompletionBuffer s1 = Val tt s2 ->
  addInputBuffers 0 (InputBuffers Invok) s2 = Val tt s3 ->
  addInputFilenames host 0 (InputFilenames Invok) s3 = Val false s4 ->
  Invocation s4 = Invok /\ MainBufferID s4 = NO_SUCH_BUFFER.
Proof.
  intros Hkind Hnone Hcfg Hcc Hbufs Hrun.
  pose proof (configureContext_Invocation host _ _ _ _ Hcfg) as HI1.
  destruct (configureContext_selection host Invok (newCompilerInstance Invok))
    as (_ & _ & HM1 & _).
  rewrite Hcfg in HM1. cbn in HM1.
  destruct (addCodeCompletionBuffer_full s1)
    as (s2' & Hcc' & HI2 & _ & _ & HM2 & _).
  rewrite Hcc in Hcc'. injection Hcc' as <-.
  destruct (addInputBuffers_spec (InputBuffers Invok) 0%nat s2)
    as (s3' & Hbufs' & HI3 & _ & _ & _ & HM3 & _).
  rewrite Hbufs in Hbufs'. injection Hbufs' as <-.
  assert (SILMode Invok = false) as Hsil.
  { unfold SILMode. apply bool_decide_eq_false. by rewrite Hkind. }
  rewrite HI2, HI1, Hsil in HM3.
  pose proof (addInputFilenames_main_unchanged host (InputFilenames Invok)
                0%nat s3) as HM4.
  destruct (addInputFilenames_sameContext host (InputFilenames Invok) 0%nat s3)
    as (failed & s4' & Hrun' & HI4 & _).
  rewrite Hrun in Hrun'. injection Hrun' as _ <-.
  rewrite Hrun in HM4. cbn in HM4.
  split; [congruence|].
  rewrite HM4, HM3, HM2, HM1; [done|].
  eapply Forall_impl; [exact Hnone|]. intros F HF. cbn in HF.
  unfold fileIsMain. rewrite HI3, HI2, HI1, Hsil. cbn.
  apply andb_false_intro2. by apply String.eqb_neq.
Qed.

(** In SIL mode without inputs the registration designates no main buffer
    either. *)
Lemma registration_without_inputs Invok s :
  InputKind Invok <> Main ->
  InputBuffers Invok = [] -> InputFilenames Invok = [] ->
  setup host Invok (newCompilerInstance Invok) = Val false s ->
  MainBufferID s = NO_SUCH_BUFFER.
Proof.
  intros Hkind Hbufs0 Hfiles0 Hsetup.
  destruct (setup_success_phases host Invok _ _ Hsetup)
    as (s1 & s2 & s3 & s4 & Hcfg & HI1 & _ & Hcc & Hbufs & Hrun & Himp).
  destruct (configureContext_selection host Invok (newCompilerInstance Invok))
    as (_ & _ & HM1 & _).
  rewrite Hcfg in HM1. cbn in HM1.
  destruct (addCodeCompletionBuffer_full s1)
    as (s2' & Hcc' & HI2 & _ & _ & HM2 & _).
  rewrite Hcc in Hcc'. injection Hcc' as <-.
  rewrite Hbufs0 in Hbufs. cbn in Hbufs. injection Hbufs as <-.
  rewrite Hfiles0 in Hrun. cbn in Hrun. injection Hrun as <-.
  destruct (implicitMainBuffer_cases s2 s Himp)
    as (_ & _ & _ & [HM|(Hmode & _)]).
  - congruence.
  - rewrite HI2, HI1 in Hmode. unfold MainMode in Hmode.
    by apply bool_decide_eq_true in Hmode.
Qed.

End Fallback.

(** C4 -- the single-buffer fallback of lines 200-201, from the inputs, for
    a successful [setup] of a fresh instance.  (1) The buffers admitted are
    the code-completion buffer, if there is one, the memory inputs and the
    files opened, which are some of the file inputs; [BufferIDs] has as many
    ids.  (2) In Main mode, when no file input is called main.swift (so that
    the registration chose no main buffer): if exactly one buffer was
    admitted, it is the main buffer; if not, no main buffer is designated,
    as with one input beside a code-completion buffer.  (3) In Main mode
    without a code-completion buffer, exactly one input overall, memory or
    file, gives the main buffer.  (4) With an input kind other than Main the
    fallback does not fire: unless SIL inputs designate a main buffer
    themselves, no main buffer is designated, however many buffers there
    are. *)
Theorem setup_implicit_main_buffer (host : Host) (Invok : CompilerInvocation)
  (s : CompilerInstance) :
  setup host Invok (newCompilerInstance Invok) = Val false s ->
  let admitted :=
    ((if isCodeCompletion Invok then 1 else 0)
     + length (InputBuffers Invok)
     + length (openedFiles (Calls s)))%nat in
  (length (BufferIDs s) = admitted /\
   sublist (openedFiles (Calls s)) (InputFilenames Invok)) /\
  (InputKind Invok = Main ->
   Forall (fun File => filename File <> "main.swift") (InputFilenames Invok) ->
   if bool_decide (admitted = 1%nat)
   then BufferIDs s = [MainBufferID s]
   else MainBufferID s = NO_SUCH_BUFFER) /\
  (InputKind Invok = Main -> CodeCompletionPoint Invok = None ->
   (length (InputBuffers Invok) + length (InputFilenames Invok) = 1)%nat ->
   BufferIDs s = [MainBufferID s]) /\
  (InputKind Invok <> Main ->
   (InputKind Invok = SIL ->
    InputBuffers Invok = [] /\ InputFilenames Invok = []) ->
   MainBufferID s = NO_SUCH_BUFFER).
Proof.
  intros Hsetup admitted.
  pose proof (setup_admitted host Invok s Hsetup) as [Hcount Hsub].
  fold admitted in Hcount.
  assert (InputKind Invok = Main ->
          Forall (fun File => filename File <> "main.swift")
                 (InputFilenames Invok) ->
          if bool_decide (admitted = 1%nat)
          then BufferIDs s = [MainBufferID s]
          else MainBufferID s = NO_SUCH_BUFFER) as Hrule.
  { intros Hkind Hnone.
    destruct (setup_success_phases host Invok _ _ Hsetup)
      as (s1 & s2 & s3 & s4 & Hcfg & _ & _ & Hcc & Hbufs & Hrun & Himp).
    destruct (registration_without_main_swift host Invok s1 s2 s3 s4
                Hkind Hnone Hcfg Hcc Hbufs Hrun) as [HI4 HM4].
    destruct (implicitMainBuffer_cases s4 s Himp) as (_ & HIDs & _ & Hcases).
    rewrite HIDs in Hcount.
    destruct (decide (admitted = 1%nat)) as [Hone|Hmany].
    + rewrite bool_decide_eq_true_2 by done.
      rewrite Hone in Hcount.
      destruct (BufferIDs s4) as [|front [|]] eqn:Hfront; try done.
      rewrite (implicitMainBuffer_fires s4 front) in Himp;
        [|rewrite HI4; unfold MainMode; by apply bool_decide_eq_true|done..].
      injection Himp as <-. cbn. by rewrite Hfront.
    + rewrite bool_decide_eq_false_2 by done.
      destruct Hcases as [HM|(_ & _ & Hone)]; [congruence|].
      rewrite Hone in Hcount. cbn in Hcount. congruence. }
  split; [done|]. split; [done|]. split.
  - intros Hkind Hcc0 Hone.
    destruct (InputFilenames Invok) as [|File [|]] eqn:Hfiles;
      destruct (InputBuffers Invok) as [|Buf [|]] eqn:Hbufs;
      cbn in Hone; try lia.
    + specialize (Hrule Hkind ltac:(constructor)).
      apply sublist_nil_r in Hsub.
      assert (admitted = 1%nat) as Hadm.
      { subst admitted. unfold isCodeCompletion.
        by rewrite Hcc0, Hsub. }
      by rewrite bool_decide_eq_true_2 in Hrule.
    + by apply (setup_single_file_input host Invok File s).
  - intros Hkind Hsil.
    destruct (decide (InputKind Invok = SIL)) as [HS|HS].
    + destruct (Hsil HS) as [Hb Hf].
      by apply (registration_without_inputs host Invok s).
    + by apply (setup_fresh_main_other_kind host Invok s).
Qed.

Lemma setup_implicit_main_buffer_witness :
  let host := exampleHost None in
  let Buf := {| getBufferIdentifier := "m.swift"; getBuffer := "k" |} in
  let Invok := exampleInvocation Main macosx_x86_64 [Buf] [] None false in
  let s := afterSetup host Invok in
  let s' := afterSetup host completionAndOneFile in
  BufferIDs s = [0] /\ MainBufferID s = 0 /\
  getMemoryBuffer (SourceMgr s) 0 = Some Buf /\
  BufferIDs s' = [0; 1] /\ MainBufferID s' = NO_SUCH_BUFFER.
Proof.
  intros host Buf Invok s s'.
  assert (setup host Invok (newCompilerInstance Invok) = Val false s)
    as Hsetup by (vm_compute; reflexivity).
  assert (setup host completionAndOneFile
                (newCompilerInstance completionAndOneFile) = Val false s')
    as Hsetup' by (vm_compute; reflexivity).
  assert (Forall (fun File => filename File <> "main.swift")
                 (InputFilenames completionAndOneFile)) as Hnone'.
  { repeat constructor. vm_compute. discriminate. }
  assert (openedFiles (Calls s') = ["a.swift"]) as Hopened'
    by (vm_compute; reflexivity).
  assert (BufferIDs s = [0]) as HIDs by (vm_compute; reflexivity).
  assert (BufferIDs s' = [0; 1]) as HIDs' by (vm_compute; reflexivity).
  assert (getMemoryBuffer (SourceMgr s) 0 = Some Buf) as HBuf
    by (vm_compute; reflexivity).
  clearbody s s'.
  destruct (setup_implicit_main_buffer host Invok s Hsetup)
    as (_ & _ & Hmain & _).
  specialize (Hmain eq_refl eq_refl eq_refl).
  destruct (setup_implicit_main_buffer host completionAndOneFile s' Hsetup')
    as (_ & Hmain' & _).
  specialize (Hmain' eq_refl Hnone'). rewrite Hopened' in Hmain'.
  cbn in Hmain'.
  split; [exact HIDs|]. split.
  { rewrite HIDs in Hmain. by injection Hmain as <-. }
  split; [exact HBuf|]. split; [exact HIDs'|exact Hmain'].
Defined.

(** C4, as the specification words it, fails when a code-completion buffer
    is there: in Main mode, with c.swift as the code-completion buffer and
    a.swift as the only input, exactly one buffer comes from the inputs and
    the registration chooses no main buffer, but [BufferIDs] holds two ids
    and no main buffer is designated. *)
Lemma singleInputBufferIsMain_fails_with_completion_buffer :
  ~ singleInputBufferIsMain (exampleHost None) completionAndOneFile /\
  exists s,
    setup (exampleHost None) completionAndOneFile
          (newCompilerInstance completionAndOneFile) = Val false s /\
    BufferIDs s = [0; 1] /\ MainBufferID s = NO_SUCH_BUFFER.
Proof.
  split.
  - intros H.
    assert (registerInputs (exampleHost None) completionAndOneFile
              (newCompilerInstance completionAndOneFile)
            = Val false (final (registerInputs (exampleHost None)
                                  completionAndOneFile
                                  (newCompilerInstance completionAndOneFile))))
      as Hreg by (vm_compute; reflexivity).
    assert (setup (exampleHost None) completionAndOneFile
              (newCompilerInstance completionAndOneFile)
            = Val false (afterSetup (exampleHost None) completionAndOneFile))
      as Hsetup by (vm_compute; reflexivity).
    specialize (H eq_refl _ _ Hreg Hsetup
                  ltac:(vm_compute; reflexivity)
                  ltac:(vm_compute; reflexivity)).
    apply list_elem_of_In in H. vm_compute in H. intuition discriminate.
  - vm_compute. eexists. repeat split.
Qed.

(** ** The scenarios of the specification, run on the example host *)

Example filename_examples :
  filename "src/app/main.swift" = "main.swift" /\
  filename "main.swift" = "main.swift" /\
  filename "main.swift/x" = "x".
Proof. repeat split. Qed.

(** Two files, neither called main.swift: both are library files, no file
    is pumped, each is checked as a whole. *)
Example two_library_files :
  let host := exampleHost None in
  let s := afterSetup host
             (exampleInvocation Main macosx_x86_64 [] ["a.swift"; "b.swift"]
                                None false) in
  BufferIDs s = [0; 1] /\ MainBufferID s = NO_SUCH_BUFFER /\
  Calls (final (performParse host 5 s))
    = [OpenInputFile "a.swift"; OpenInputFile "b.swift";
       ParseIntoSourceFile 0 ["x"; "y"] true; PerformNameBinding 0;
       ParseIntoSourceFile 1 ["z"] true; PerformNameBinding 1;
       TypeCheckWholeFile (Some 0); TypeCheckWholeFile (Some 1)].
Proof. vm_compute. done. Qed.

(** Two memory inputs with the same identifier get two ids. *)
Example two_memory_inputs_same_identifier :
  let Invok :=
    exampleInvocation Library macosx_x86_64
      [ {| getBufferIdentifier := "X"; getBuffer := "p" |};
        {| getBufferIdentifier := "X"; getBuffer := "q" |} ] [] None false in
  BufferIDs (afterSetup (exampleHost None) Invok) = [0; 1].
Proof. vm_compute. done. Qed.

(** A file that cannot be opened: [setup] returns [true] with the
    diagnostic, and the files after it are not looked at. *)
Example missing_file :
  let Invok :=
    exampleInvocation Main macosx_x86_64 [] ["a.swift"; "gone.swift"; "b.swift"]
                      None false in
  exists s,
    setup (exampleHost None) Invok (newCompilerInstance Invok) = Val true s /\
    Diagnostics s
      = [error_open_input_file "gone.swift" "No such file or directory"] /\
    openedFiles (Calls s) = ["a.swift"; "gone.swift"].
Proof. vm_compute. eexists. repeat split. Qed.

(** An unrecognized OS stops [setup] at the assertion of line 52. *)
Example unsupported_os :
  let Invok :=
    exampleInvocation Main
      {| isMacOSX := false; isiOS := false; getArch := x86_64 |}
      [] ["a.swift"] None false in
  exists s,
    setup (exampleHost None) Invok (newCompilerInstance Invok)
      = AssertFail "Unsupported target OS" s /\
    ModuleLoaders s = [].
Proof. vm_compute. eexists. repeat split. Qed.

(** With one pump of fuel the two-chunk main file is not finished; two
    pumps are enough, and more fuel gives the same result. *)
Example fuel_for_two_chunks :
  let host := exampleHost None in
  let s := afterSetup host
             (exampleInvocation Main macosx_x86_64 [] ["a.swift"] None false) in
  performParse host 1 s = OutOfFuel (final (performParse host 1 s)) /\
  performParse host 2 s = Val tt (final (performParse host 2 s)) /\
  performParse host 7 s = performParse host 2 s.
Proof. vm_compute. done. Qed.
